(** * Tenant resolution, request-scoped context, lifecycle and schema
      provisioning of the HMS backend

    Shallow embedding of [tenants/middleware.py], [tenants/utils.py],
    [tenants/views.py] and the two schema management commands, together
    with the few library calls they are built on (Python built-ins, the
    Django ORM's [objects.get], the django_tenants connection wrapper). *)

From Stdlib Require Import ZArith List Bool Lia.
From Stdlib Require Import Strings.String Strings.Ascii.
From Stdlib Require Import Numbers.DecimalString.
Import ListNotations.
Open Scope string_scope.
Open Scope Z_scope.

(* ================================================================== *)
(** ** Python built-ins used by the sources *)

Module Py.

(** Exceptions that leave the functions modelled here. *)
Inductive exn : Type :=
| Http404
| ObjectDoesNotExist
| MultipleObjectsReturned
| EOFError
| ProgrammingError
| CommandError
| ValueError
| TypeError
| OverflowError.

(** Outcome of a call: a returned value or a raised exception. *)
Inductive result (A : Type) : Type :=
| Ok (a : A)
| Raise (e : exn).
Arguments Ok {A} a.
Arguments Raise {A} e.

Definition is_ok {A} (r : result A) : bool :=
  match r with Ok _ => true | Raise _ => false end.

(** [s.startswith(p)]. *)
Definition startswith (s p : string) : bool := String.prefix p s.

(** Truth value of a string: non-empty. *)
Definition truthy (s : string) : bool :=
  match s with EmptyString => false | String _ _ => true end.

Definition is_upper (c : ascii) : bool :=
  ((65 <=? nat_of_ascii c) && (nat_of_ascii c <=? 90))%nat.

Definition lower_char (c : ascii) : ascii :=
  if is_upper c then ascii_of_nat (nat_of_ascii c + 32) else c.

(** [s.lower()] on the ASCII letters; other code units are kept. *)
Fixpoint lower (s : string) : string :=
  match s with
  | EmptyString => EmptyString
  | String c r => String (lower_char c) (lower r)
  end.

(** White space skipped by [int()] around a literal: space, \t, \n,
    \v, \f, \r and, among the other code points below 256, the two
    Unicode spaces U+0085 and U+00A0. *)
Definition is_space (c : ascii) : bool :=
  let n := nat_of_ascii c in
  ((n =? 32) || ((9 <=? n) && (n <=? 13)) || (n =? 133) || (n =? 160))%nat.

Definition is_digit (c : ascii) : bool :=
  ((48 <=? nat_of_ascii c) && (nat_of_ascii c <=? 57))%nat.

Definition digit_val (c : ascii) : Z := Z.of_nat (nat_of_ascii c) - 48.

Fixpoint lstrip (s : string) : string :=
  match s with
  | EmptyString => EmptyString
  | String c r => if is_space c then lstrip r else s
  end.

Fixpoint rstrip (s : string) : string :=
  match s with
  | EmptyString => EmptyString
  | String c r =>
      match rstrip r with
      | EmptyString => if is_space c then EmptyString else String c EmptyString
      | r' => String c r'
      end
  end.

(** Digits after a first digit has been read: more digits, each
    optionally preceded by one underscore. *)
Fixpoint int_digits (acc : Z) (s : string) : option Z :=
  match s with
  | EmptyString => Some acc
  | String c r =>
      if is_digit c then int_digits (10 * acc + digit_val c) r
      else if Ascii.eqb c "_" then
        match r with
        | String d r' =>
            if is_digit d then int_digits (10 * acc + digit_val d) r'
            else None
        | EmptyString => None
        end
      else None
  end.

Definition int_unsigned (s : string) : option Z :=
  match s with
  | String c r => if is_digit c then int_digits (digit_val c) r else None
  | EmptyString => None
  end.

(** [int(s)] for a string in base 10; [None] stands for [ValueError]. *)
Definition int (s : string) : option Z :=
  match rstrip (lstrip s) with
  | String "-" r => option_map Z.opp (int_unsigned r)
  | String "+" r => int_unsigned r
  | body => int_unsigned body
  end.

(** [str(n)] for an integer. *)
Definition str (n : Z) : string := NilZero.string_of_int (Z.to_int n).

End Py.

Export Py(exn(..), result(..)).

(* ================================================================== *)
(** ** tenants/models.py and the ORM lookups the sources perform *)

Module Models.

(** [Tenant.SubscriptionStatus]. *)
Inductive SubscriptionStatus : Type :=
| ACTIVE | TRIAL | SUSPENDED | CANCELLED | EXPIRED.

(** The value of a status, as the column [subscription_status] holds
    it. *)
Definition status_value (st : SubscriptionStatus) : string :=
  match st with
  | ACTIVE => "active"
  | TRIAL => "trial"
  | SUSPENDED => "suspended"
  | CANCELLED => "cancelled"
  | EXPIRED => "expired"
  end.

(** The attributes of a [Tenant] instance that the modelled code reads
    or writes. *)
Record Tenant : Type := mkTenant {
  id : Z;
  name : string;
  code : string;
  domain : string;
  schema_name : string;
  is_active : bool;
  subscription_status : SubscriptionStatus;
  email : string;
  nhis_accreditation : string
}.

(** A row of [TenantDomain] with its tenant already joined
    ([select_related('tenant')]). *)
Record TenantDomain : Type := mkTenantDomain {
  domain_name : string;
  tenant : Tenant;
  is_primary : bool
}.

(** The tables of the public schema the resolver reads. *)
Record Registry : Type := mkRegistry {
  tenants : list Tenant;
  domains : list TenantDomain
}.

(** Outcome of [Model.objects.get(...)]. *)
Inductive GetResult (A : Type) : Type :=
| Found (a : A)
| DoesNotExist
| MultipleObjects.
Arguments Found {A} a.
Arguments DoesNotExist {A}.
Arguments MultipleObjects {A}.

(** [Model.objects.get(<condition>)]: the single row that satisfies the
    condition; no row and several rows are the two exceptions. *)
Definition objects_get {A} (cond : A -> bool) (rows : list A) : GetResult A :=
  match filter cond rows with
  | [] => DoesNotExist
  | [a] => Found a
  | _ :: _ :: _ => MultipleObjects
  end.

(** [Tenant.objects.get(id=n)]. *)
Definition get_by_id (reg : Registry) (n : Z) : GetResult Tenant :=
  objects_get (fun t => id t =? n) (tenants reg).

(** [Tenant.objects.get(code=c)]. *)
Definition get_by_code (reg : Registry) (c : string) : GetResult Tenant :=
  objects_get (fun t => String.eqb (code t) c) (tenants reg).

(** [instance.save()] of an existing row: the row with the instance's
    primary key is replaced. *)
Definition save (t : Tenant) (reg : Registry) : Registry :=
  mkRegistry
    (map (fun r => if id r =? id t then t else r) (tenants reg))
    (domains reg).

End Models.

(* ================================================================== *)
(** ** The django_tenants database wrapper and base middleware

    [settings.DATABASES] selects [django_tenants.postgresql_backend]; the
    sources call its [set_tenant], [set_schema] and
    [set_schema_to_public]. *)

Module DjangoTenants.
Import Models.

(** The objects the wrapper is given as tenants: a [Tenant] row, or its
    own placeholder [FakeTenant], which carries a schema name only. *)
Inductive TenantLike : Type :=
| Row (t : Tenant)
| FakeTenant (schema : string).

(** [tenant.schema_name] of such an object. *)
Definition schema_name_of (o : TenantLike) : string :=
  match o with
  | Row t => Models.schema_name t
  | FakeTenant s => s
  end.

(** The per-thread connection: its [tenant] attribute ([None] only when
    [utils.set_current_tenant] assigns it) and the active schema name. *)
Record Connection : Type := mkConnection {
  tenant : option TenantLike;
  schema_name : string
}.

Definition PUBLIC_SCHEMA_NAME : string := "public".

(** [connection.set_tenant(tenant)]: stores the tenant object and makes
    its schema the active one. *)
Definition set_tenant (o : TenantLike) (c : Connection) : Connection :=
  mkConnection (Some o) (schema_name_of o).

(** [connection.set_schema(name)] is
    [set_tenant(FakeTenant(schema_name=name))]: the [tenant] attribute is
    replaced by the placeholder. *)
Definition set_schema (s : string) (c : Connection) : Connection :=
  set_tenant (FakeTenant s) c.

(** [connection.set_schema_to_public()]. *)
Definition set_schema_to_public (c : Connection) : Connection :=
  set_schema PUBLIC_SCHEMA_NAME c.

(** The state a new connection starts in: the wrapper's constructor ends
    with [set_schema_to_public()]. *)
Definition fresh : Connection :=
  mkConnection (Some (FakeTenant PUBLIC_SCHEMA_NAME)) PUBLIC_SCHEMA_NAME.

(** Modelled from the spec: [TenantMainMiddleware.process_request], the
    parent implementation that [HeaderTenantMiddleware] falls back to, is
    part of the django_tenants package and not of the repository
    sources.  Step 7 of the resolution precedence: hostname-based lookup
    against TenantDomain; on match, resolve, switching the active
    namespace to the tenant's schema; on no match, fail the request with
    a tenant-not-found error (raised as [Http404]). *)
Definition process_request (reg : Registry) (hostname : string)
    (c : Connection) : result unit * Connection :=
  match objects_get (fun d => String.eqb (domain_name d) hostname)
                    (domains reg) with
  | Found d => (Ok tt, set_tenant (Row (Models.tenant d)) c)
  | DoesNotExist => (Raise Py.Http404, c)
  | MultipleObjects => (Raise Py.MultipleObjectsReturned, c)
  end.

End DjangoTenants.

(* ================================================================== *)
(** ** tenants/middleware.py *)

Module Middleware.
Import Models.

(** [request.user.tenant_user]: the membership record and its tenant,
    as the reads of lines 87-88 return them.  In this module the rows of
    [Tenant] (the registry argument) and the membership are what the
    reads of one run of [process_request] return; module [Thread] below
    computes them from the database and the schema the worker's
    connection is on. *)
Record TenantUser : Type := mkTenantUser {
  membership_tenant : Tenant
}.

(** The attributes of [request.user] the resolver looks at.  An absent
    [tenant_id] or [tenant_user] attribute reads as [None]. *)
Record User : Type := mkUser {
  is_authenticated : bool;
  tenant_id : option Z;
  tenant_user : option TenantUser
}.

(** An inbound request: path, the X-Tenant-ID header when present, the
    user set by the authentication middleware (if any) and the host
    name. *)
Record Request : Type := mkRequest {
  path_info : string;
  x_tenant_id : option string;
  user : option User;
  host : string
}.

(** State owned by one worker thread: the module's thread-local
    storage ([None] while the attribute was never assigned) and the
    thread's database connection. *)
Record Worker : Type := mkWorker {
  thread_locals_tenant : option Tenant;
  connection : DjangoTenants.Connection
}.

Definition get_current_tenant (w : Worker) : option Tenant :=
  thread_locals_tenant w.

Definition set_current_tenant (t : Tenant) (w : Worker) : Worker :=
  mkWorker (Some t) (connection w).

Definition on_connection
    (f : DjangoTenants.Connection -> DjangoTenants.Connection)
    (w : Worker) : Worker :=
  mkWorker (thread_locals_tenant w) (f (connection w)).

Definition PUBLIC_SCHEMA_URLS : list string :=
  [ "/api/v1/auth/";
    "/api/v1/core/";
    "/api/v1/tenants/active-tenants/";
    "/api/v1/tenants/invitations/accept/";
    "/admin/";
    "/api/docs/";
    "/swagger/";
    "/redoc/";
    "/test-public/" ].

Definition is_public (path : string) : bool :=
  existsb (fun url => Py.startswith path url) PUBLIC_SCHEMA_URLS.

(** The three statements every successful branch ends with:
    [set_current_tenant(tenant); connection.set_tenant(tenant); return]. *)
Definition resolve_to (t : Tenant) (w : Worker) : result unit * Worker :=
  (Ok tt, on_connection (DjangoTenants.set_tenant (DjangoTenants.Row t))
                        (set_current_tenant t w)).

(** [connection.set_schema_to_public(); return]. *)
Definition resolve_public (w : Worker) : result unit * Worker :=
  (Ok tt, on_connection DjangoTenants.set_schema_to_public w).

(** Last step: [super().process_request(request)]. *)
Definition from_domain (reg : Registry) (request : Request) (w : Worker)
  : result unit * Worker :=
  let (r, c) := DjangoTenants.process_request reg (host request) (connection w) in
  (r, mkWorker (thread_locals_tenant w) c).

(** The tenant_user relationship, then the public schema for an
    authenticated user without tenant.  [tenant_user u] is what the two
    reads of lines 87-88 return; [Thread.from_membership] makes them on
    the worker's connection. *)
Definition from_membership (u : User) (w : Worker) : result unit * Worker :=
  match tenant_user u with
  | Some tu => resolve_to (membership_tenant tu) w
  | None => resolve_public w
  end.

(** The branch for an authenticated user, and the fall-back to the
    parent implementation otherwise. *)
Definition from_user (reg : Registry) (request : Request) (w : Worker)
  : result unit * Worker :=
  match user request with
  | Some u =>
      if is_authenticated u then
        match tenant_id u with
        | Some n =>
            if n =? 0 then from_membership u w
            else
              match get_by_id reg n with
              | Found t => resolve_to t w
              | DoesNotExist => from_membership u w
              | MultipleObjects => (Raise Py.MultipleObjectsReturned, w)
              end
        | None => from_membership u w
        end
      else from_domain reg request w
  | None => from_domain reg request w
  end.

(** The development tenant with code TEST. *)
Definition from_test_tenant (reg : Registry) (request : Request) (w : Worker)
  : result unit * Worker :=
  match get_by_code reg "TEST" with
  | Found t => resolve_to t w
  | DoesNotExist => from_user reg request w
  | MultipleObjects => (Raise Py.MultipleObjectsReturned, w)
  end.

(** The X-Tenant-ID header. *)
Definition from_header (reg : Registry) (request : Request) (w : Worker)
  : result unit * Worker :=
  match x_tenant_id request with
  | Some h =>
      if Py.truthy h then
        match Py.int h with
        | Some n =>
            match get_by_id reg n with
            | Found t => resolve_to t w
            | DoesNotExist => from_test_tenant reg request w
            | MultipleObjects => (Raise Py.MultipleObjectsReturned, w)
            end
        | None => from_test_tenant reg request w
        end
      else from_test_tenant reg request w
  | None => from_test_tenant reg request w
  end.

(** [HeaderTenantMiddleware.process_request]. *)
Definition process_request (reg : Registry) (request : Request) (w : Worker)
  : result unit * Worker :=
  let path := path_info request in
  if is_public path then resolve_public w
  else from_header reg request w.

(** One request through the middleware: [process_request], then the
    rest of the handler chain when it returned without a response.  The
    class defines no [process_response] and no exception hook, so
    nothing runs after the handler. *)
Definition call (get_response : Worker -> result unit * Worker)
    (reg : Registry) (request : Request) (w : Worker) : result unit * Worker :=
  match process_request reg request w with
  | (Ok _, w') => get_response w'
  | (Raise e, w') => (Raise e, w')
  end.

(** The schema that is active for the handlers of a request. *)
Definition active_schema (w : Worker) : string :=
  DjangoTenants.schema_name (connection w).

End Middleware.

(* ================================================================== *)
(** ** The reads of the resolver on the worker's connection

    [Tenant.objects.get(...)], [request.user.tenant_user] and its
    [.tenant] are queries on the thread's connection, and the queries
    name their tables without a schema.  The django_tenants wrapper gives
    a query the search path of the connection's active schema followed by
    public, so a table is read from the first schema of the path that has
    it.  The resolver changes the connection only in the statement before
    each [return], so all reads of one run see the connection as the
    previous request left it. *)

Module Thread.
Import Models.

(** A row of the table [tenants_tenantuser], as far as the resolver
    reads it: the columns [global_user_id] (null when the tenant user has
    no global account) and [tenant_id]. *)
Record TenantUserRow : Type := mkTenantUserRow {
  global_user_id : option Z;
  membership_tenant_id : Z
}.

(** The tables of one schema that the resolver's queries name; a schema
    need not hold them ([tenants_tenantdomain] with its tenant joined, as
    in [Models]). *)
Record Tables : Type := mkTables {
  tenants_tenant : option (list Tenant);
  tenants_tenantdomain : option (list TenantDomain);
  tenants_tenantuser : option (list TenantUserRow)
}.

(** The database: its schemas by name. *)
Definition Database : Type := list (string * Tables).

Definition tables_of (db : Database) (schema : string) : option Tables :=
  option_map snd (find (fun e => String.eqb (fst e) schema) db).

(** The search path the wrapper sets for the queries of a connection. *)
Definition search_path (c : DjangoTenants.Connection) : list string :=
  if String.eqb (DjangoTenants.schema_name c) DjangoTenants.PUBLIC_SCHEMA_NAME
  then [DjangoTenants.PUBLIC_SCHEMA_NAME]
  else [DjangoTenants.schema_name c; DjangoTenants.PUBLIC_SCHEMA_NAME].

(** The table a schema-less name denotes on a search path: that of the
    first schema that exists and holds one. *)
Fixpoint relation {A} (table : Tables -> option (list A)) (db : Database)
    (path : list string) : option (list A) :=
  match path with
  | [] => None
  | schema :: rest =>
      match tables_of db schema with
      | Some held =>
          match table held with
          | Some rows => Some rows
          | None => relation table db rest
          end
      | None => relation table db rest
      end
  end.

(** The tables the queries of a connection read. *)
Definition visible (db : Database) (c : DjangoTenants.Connection) : Tables :=
  mkTables (relation tenants_tenant db (search_path c))
           (relation tenants_tenantdomain db (search_path c))
           (relation tenants_tenantuser db (search_path c)).

(** No schema but public holds a table the resolver reads. *)
Definition unshadowed (db : Database) : bool :=
  forallb
    (fun e =>
       String.eqb (fst e) DjangoTenants.PUBLIC_SCHEMA_NAME
       || match snd e with
          | mkTables None None None => true
          | _ => false
          end)
    db.

(** [request.user], loaded: whether it is authenticated, its [tenant_id]
    attribute ([None] when absent) and its primary key. *)
Record User : Type := mkUser {
  is_authenticated : bool;
  tenant_id : option Z;
  pk : Z
}.

Record Request : Type := mkRequest {
  path_info : string;
  x_tenant_id : option string;
  user : option User;
  host : string
}.

(** The condition of the reverse one-to-one query behind
    [request.user.tenant_user]: [global_user_id] is the user's key. *)
Definition belongs_to (u : User) (r : TenantUserRow) : bool :=
  match global_user_id r with
  | Some g => g =? pk u
  | None => false
  end.

(** [Tenant.objects.get(<condition>)] on the worker's connection;
    [None] when no schema of the path has the table (the query fails
    with [ProgrammingError]). *)
Definition Tenant_objects_get (cond : Tenant -> bool) (db : Database)
    (w : Middleware.Worker) : option (GetResult Tenant) :=
  option_map (objects_get cond)
             (tenants_tenant (visible db (Middleware.connection w))).

(** Last step: [super().process_request(request)], reading the domain
    table with its tenants joined. *)
Definition from_domain (db : Database) (request : Request) (w : Middleware.Worker)
  : result unit * Middleware.Worker :=
  match tenants_tenantdomain (visible db (Middleware.connection w)),
        tenants_tenant (visible db (Middleware.connection w)) with
  | Some domain_rows, Some tenant_rows =>
      let (r, c) := DjangoTenants.process_request
                      (mkRegistry tenant_rows domain_rows) (host request)
                      (Middleware.connection w) in
      (r, Middleware.mkWorker (Middleware.thread_locals_tenant w) c)
  | _, _ => (Raise Py.ProgrammingError, w)
  end.

(** Lines 87-95.  [hasattr(request.user, 'tenant_user')] runs the
    reverse one-to-one query and is false when no row matches; the row's
    [.tenant] is a second query, outside any [try]. *)
Definition from_membership (u : User) (db : Database) (w : Middleware.Worker)
  : result unit * Middleware.Worker :=
  match tenants_tenantuser (visible db (Middleware.connection w)) with
  | None => (Raise Py.ProgrammingError, w)
  | Some rows =>
      match objects_get (belongs_to u) rows with
      | Found r =>
          match Tenant_objects_get (fun t => id t =? membership_tenant_id r) db w with
          | Some (Found t) => Middleware.resolve_to t w
          | Some DoesNotExist => (Raise Py.ObjectDoesNotExist, w)
          | Some MultipleObjects => (Raise Py.MultipleObjectsReturned, w)
          | None => (Raise Py.ProgrammingError, w)
          end
      | DoesNotExist => Middleware.resolve_public w
      | MultipleObjects => (Raise Py.MultipleObjectsReturned, w)
      end
  end.

(** Lines 74-98. *)
Definition from_user (db : Database) (request : Request) (w : Middleware.Worker)
  : result unit * Middleware.Worker :=
  match user request with
  | Some u =>
      if is_authenticated u then
        match tenant_id u with
        | Some n =>
            if n =? 0 then from_membership u db w
            else
              match Tenant_objects_get (fun t => id t =? n) db w with
              | Some (Found t) => Middleware.resolve_to t w
              | Some DoesNotExist => from_membership u db w
              | Some MultipleObjects => (Raise Py.MultipleObjectsReturned, w)
              | None => (Raise Py.ProgrammingError, w)
              end
        | None => from_membership u db w
        end
      else from_domain db request w
  | None => from_domain db request w
  end.

(** Lines 65-71. *)
Definition from_test_tenant (db : Database) (request : Request)
    (w : Middleware.Worker) : result unit * Middleware.Worker :=
  match Tenant_objects_get (fun t => String.eqb (code t) "TEST") db w with
  | Some (Found t) => Middleware.resolve_to t w
  | Some DoesNotExist => from_user db request w
  | Some MultipleObjects => (Raise Py.MultipleObjectsReturned, w)
  | None => (Raise Py.ProgrammingError, w)
  end.

(** Lines 54-62. *)
Definition from_header (db : Database) (request : Request) (w : Middleware.Worker)
  : result unit * Middleware.Worker :=
  match x_tenant_id request with
  | Some h =>
      if Py.truthy h then
        match Py.int h with
        | Some n =>
            match Tenant_objects_get (fun t => id t =? n) db w with
            | Some (Found t) => Middleware.resolve_to t w
            | Some DoesNotExist => from_test_tenant db request w
            | Some MultipleObjects => (Raise Py.MultipleObjectsReturned, w)
            | None => (Raise Py.ProgrammingError, w)
            end
        | None => from_test_tenant db request w
        end
      else from_test_tenant db request w
  | None => from_test_tenant db request w
  end.

(** [HeaderTenantMiddleware.process_request], with its reads made on
    the connection of the worker that runs it. *)
Definition process_request (db : Database) (request : Request)
    (w : Middleware.Worker) : result unit * Middleware.Worker :=
  let path := path_info request in
  if Middleware.is_public path then Middleware.resolve_public w
  else from_header db request w.

(** One request through the middleware, as [Middleware.call]. *)
Definition call (get_response : Middleware.Worker -> result unit * Middleware.Worker)
    (db : Database) (request : Request) (w : Middleware.Worker)
  : result unit * Middleware.Worker :=
  match process_request db request w with
  | (Ok _, w') => get_response w'
  | (Raise e, w') => (Raise e, w')
  end.

(** What the two reads of lines 87-88 return for a user, when neither
    raises: the membership with its tenant, or no membership. *)
Definition membership (seen : Tables) (u : User)
  : option (option Middleware.TenantUser) :=
  match tenants_tenantuser seen, tenants_tenant seen with
  | Some rows, Some tenant_rows =>
      match objects_get (belongs_to u) rows with
      | Found r =>
          match objects_get (fun t => id t =? membership_tenant_id r) tenant_rows with
          | Found t => Some (Some (Middleware.mkTenantUser t))
          | _ => None
          end
      | DoesNotExist => Some None
      | MultipleObjects => None
      end
  | _, _ => None
  end.

(** The registry and the request as [Middleware.process_request] takes
    them, read through the given tables; [None] when a table is missing
    or a read of the membership raises. *)
Definition as_read (seen : Tables) (request : Request)
  : option (Registry * Middleware.Request) :=
  match tenants_tenant seen, tenants_tenantdomain seen with
  | Some tenant_rows, Some domain_rows =>
      match user request with
      | Some u =>
          match membership seen u with
          | Some tu =>
              Some (mkRegistry tenant_rows domain_rows,
                    Middleware.mkRequest (path_info request) (x_tenant_id request)
                      (Some (Middleware.mkUser (is_authenticated u) (tenant_id u) tu))
                      (host request))
          | None => None
          end
      | None =>
          Some (mkRegistry tenant_rows domain_rows,
                Middleware.mkRequest (path_info request) (x_tenant_id request)
                  None (host request))
      end
  | _, _ => None
  end.

End Thread.

(* ================================================================== *)
(** ** Code that threads a state and may raise *)

Module Eff.

(** A computation over a state [S] that returns an [A] or raises. *)
Definition M (S A : Type) : Type := S -> result A * S.

Definition ret {S A} (a : A) : M S A := fun s => (Ok a, s).

Definition raise {S A} (e : exn) : M S A := fun s => (Raise e, s).

Definition bind {S A B} (m : M S A) (k : A -> M S B) : M S B :=
  fun s =>
    match m s with
    | (Ok a, s') => k a s'
    | (Raise e, s') => (Raise e, s')
    end.

Definition get {S} : M S S := fun s => (Ok s, s).

Definition modify {S} (f : S -> S) : M S unit := fun s => (Ok tt, f s).

(** Runs a computation on a component of the state. *)
Definition zoom {S T A} (proj : S -> T) (upd : T -> S -> S) (m : M T A) : M S A :=
  fun s => let (r, t) := m (proj s) in (r, upd t s).

End Eff.

Declare Scope eff_scope.
Delimit Scope eff_scope with eff.
Notation "x <- m ;; k" := (Eff.bind m (fun x => k))
  (at level 61, m at next level, right associativity) : eff_scope.
Notation "m ;; k" := (Eff.bind m (fun _ => k))
  (at level 61, right associativity) : eff_scope.

(* ================================================================== *)
(** ** The PostgreSQL catalogue as far as the statements issued by the
       sources touch it

    A schema is stored under a name; a table is its name, and of its
    columns only the tables its foreign keys reference matter here.  The
    statements below are the ones the sources send through
    [cursor.execute]; their arguments are names as the catalogue stores
    them.  The sources splice [tenant.schema_name] into the statement
    text without quotes, so the server reads the name out of the text:
    [unquoted] and [execute_f].  The session runs in autocommit mode: a
    statement that fails leaves the effects of the earlier ones in
    place. *)

Module Sql.

Record Schema : Type := mkSchema {
  schema_name : string;
  tables : list string
}.

Record Database : Type := mkDatabase {
  schemas : list Schema;
  search_path : string
}.

Inductive statement : Type :=
| CREATE_SCHEMA (if_not_exists : bool) (name : string)
| SET_search_path (name : string)
| CREATE_TABLE_IF_NOT_EXISTS (table : string) (references : list string)
| DROP_SCHEMA_IF_EXISTS_CASCADE (name : string)
| SELECT_schemata_WHERE_schema_name (name : string).

Definition names (db : Database) : list string :=
  map schema_name (schemas db).

Definition has_schema (name : string) (db : Database) : bool :=
  existsb (String.eqb name) (names db).

Definition has_table (t : string) (s : Schema) : bool :=
  existsb (String.eqb t) (tables s).

(** The schema called [name] exists and holds the table [t]. *)
Definition holds (name t : string) (db : Database) : bool :=
  existsb (fun s => String.eqb (schema_name s) name && has_table t s) (schemas db).

(** The table is added to the schema called [name] unless it is there. *)
Definition add_table (name t : string) (s : Schema) : Schema :=
  if String.eqb (schema_name s) name && negb (has_table t s)
  then mkSchema (schema_name s) (tables s ++ [t])
  else s.

(** [cursor.execute(stmt)]; the value is what [fetchall] would give.
    [CREATE TABLE IF NOT EXISTS] works in the schema of the search path:
    without such a schema it fails; when the schema holds the table
    nothing is done; otherwise the tables the new table references are
    looked up on the search path, and the statement fails when one of
    them is not there. *)
Definition execute (stmt : statement) : Eff.M Database (list string) :=
  fun db =>
    match stmt with
    | CREATE_SCHEMA if_not_exists name =>
        if has_schema name db then
          if if_not_exists then (Ok [], db)
          else (Raise Py.ProgrammingError, db)
        else (Ok [], mkDatabase (schemas db ++ [mkSchema name []]) (search_path db))
    | SET_search_path name =>
        (Ok [], mkDatabase (schemas db) name)
    | CREATE_TABLE_IF_NOT_EXISTS t references =>
        if has_schema (search_path db) db then
          if holds (search_path db) t db then (Ok [], db)
          else if forallb (fun r => holds (search_path db) r db) references then
            (Ok [], mkDatabase (map (add_table (search_path db) t) (schemas db))
                               (search_path db))
          else (Raise Py.ProgrammingError, db)
        else (Raise Py.ProgrammingError, db)
    | DROP_SCHEMA_IF_EXISTS_CASCADE name =>
        (Ok [], mkDatabase
                  (filter (fun s => negb (String.eqb (schema_name s) name)) (schemas db))
                  (search_path db))
    | SELECT_schemata_WHERE_schema_name name =>
        (Ok (filter (String.eqb name) (names db)), db)
    end.

(** [cursor.fetchone()] as a truth value: is there a row. *)
Definition fetchone (rows : list string) : bool :=
  match rows with [] => false | _ :: _ => true end.

(** An ASCII letter, digit or underscore. *)
Definition is_word_char (c : ascii) : bool :=
  let n := nat_of_ascii c in
  (((65 <=? n) && (n <=? 90)) || ((97 <=? n) && (n <=? 122))
   || ((48 <=? n) && (n <=? 57)) || (n =? 95))%nat.

Fixpoint is_word (text : string) : bool :=
  match text with
  | EmptyString => true
  | String c rest => is_word_char c && is_word rest
  end.

(** The name the server reads out of a text spliced unquoted into a
    statement, for the texts of the form [Tenant.generate_schema_name]
    produces from a code of letters and digits: "tenant_" in any letter
    case, then letters, digits and underscores, 63 characters at most.
    Such a text is one identifier and no key word, and the server folds
    it to lower case.  For another text ([None]) the statement need not
    be the one the source means: a blank or a hyphen in the text makes
    it a syntax error, a semicolon ends it. *)
Definition unquoted (text : string) : option string :=
  if is_word text
     && Py.startswith (Py.lower text) "tenant_"
     && (String.length text <=? 63)%nat
  then Some (Py.lower text)
  else None.

Section Server.

(** What the server does with a statement whose spliced text is not
    such an identifier. *)
Variable server : statement -> Eff.M Database (list string).

(** [cursor.execute(f'... {text} ...')]. *)
Definition execute_f (stmt : string -> statement) (text : string)
  : Eff.M Database (list string) :=
  match unquoted text with
  | Some name => execute (stmt name)
  | None => server (stmt text)
  end.

End Server.

End Sql.

(* ================================================================== *)
(** ** tenants/utils.py *)

Module Utils.
Import Models.
Local Open Scope eff_scope.

(** [getattr(connection, 'tenant', None)]. *)
Definition get_current_tenant (c : DjangoTenants.Connection)
  : option DjangoTenants.TenantLike :=
  DjangoTenants.tenant c.

Definition set_current_tenant (tenant : option DjangoTenants.TenantLike)
    (c : DjangoTenants.Connection) : DjangoTenants.Connection :=
  (* connection.tenant = tenant *)
  let c := DjangoTenants.mkConnection tenant (DjangoTenants.schema_name c) in
  match tenant with
  | Some t => DjangoTenants.set_schema (DjangoTenants.schema_name_of t) c
  | None => DjangoTenants.set_schema "public" c
  end.

(** The [TenantContext] object: [__init__] records the tenant and the
    tenant that is current when the object is built. *)
Record TenantContext : Type := mkTenantContext {
  tenant : option DjangoTenants.TenantLike;
  old_tenant : option DjangoTenants.TenantLike
}.

Definition tenant_context (t : option DjangoTenants.TenantLike)
    (c : DjangoTenants.Connection) : TenantContext :=
  mkTenantContext t (get_current_tenant c).

(** [__enter__]. *)
Definition enter (ctx : TenantContext) (c : DjangoTenants.Connection)
  : DjangoTenants.Connection :=
  set_current_tenant (tenant ctx) c.

(** [__exit__]; it returns [None], so an exception raised in the body
    goes on to the caller after the old tenant has been set. *)
Definition exit (ctx : TenantContext) (c : DjangoTenants.Connection)
  : DjangoTenants.Connection :=
  set_current_tenant (old_tenant ctx) c.

(** [with tenant_context(t): body]. *)
Definition with_tenant_context {A} (t : option DjangoTenants.TenantLike)
    (body : Eff.M DjangoTenants.Connection A)
  : Eff.M DjangoTenants.Connection A :=
  fun c =>
    let ctx := tenant_context t c in
    let (r, c') := body (enter ctx c) in
    (r, exit ctx c').

Section Provision.

Variable server : Sql.statement -> Eff.M Sql.Database (list string).

(** [create_tenant_schema(tenant)].  The table of tenant users is
    created after the search path has been set to the tenant's schema,
    and its column [tenant_id] is declared
    [REFERENCES tenants_tenant(id)]. *)
Definition create_tenant_schema (tenant : Tenant) : Eff.M Sql.Database string :=
  let schema_name := Models.schema_name tenant in
  Sql.execute_f server (Sql.CREATE_SCHEMA true) schema_name ;;
  Sql.execute_f server Sql.SET_search_path schema_name ;;
  Sql.execute (Sql.CREATE_TABLE_IF_NOT_EXISTS "tenants_tenantuser"
                 ["tenants_tenant"]) ;;
  Sql.execute (Sql.SET_search_path "public") ;;
  Eff.ret schema_name.

End Provision.

End Utils.

(* ================================================================== *)
(** ** tenants/views.py: the lifecycle actions of [TenantViewSet] *)

Module Views.
Import Models.
Local Open Scope eff_scope.

(** An [AuditLog] row as the actions write it. *)
Record AuditLog : Type := mkAuditLog {
  action : string;
  resource_type : string;
  resource_id : string;
  new_status : string;
  new_is_active : bool
}.

(** What the actions read and write: the tenant table and the audit
    log. *)
Record Site : Type := mkSite {
  registry : Registry;
  audit_log : list AuditLog
}.

(** [Response({'detail': ...})], status 200. *)
Record Response : Type := mkResponse {
  status_code : Z;
  detail : string
}.

(** [request.query_params] as far as [get_queryset] reads it: the
    values of [status], [nhis_accreditation] and [search], [None] for a
    parameter that the request does not carry. *)
Record QueryParams : Type := mkQueryParams {
  param_status : option string;
  param_nhis_accreditation : option string;
  param_search : option string
}.

(** A request without query parameters. *)
Definition no_params : QueryParams := mkQueryParams None None None.

(** [if status_filter:] and the like: the value of a parameter that is
    there and not empty. *)
Definition given (p : option string) : option string :=
  match p with
  | Some v => if Py.truthy v then Some v else None
  | None => None
  end.

Fixpoint has_nul (s : string) : bool :=
  match s with
  | EmptyString => false
  | String c r => (nat_of_ascii c =? 0)%nat || has_nul r
  end.

(** No parameter that is used in the query holds a NUL character. *)
Definition clean (params : QueryParams) : bool :=
  forallb (fun p => match given p with
                    | Some v => negb (has_nul v)
                    | None => true
                    end)
          [param_status params; param_nhis_accreditation params; param_search params].

(** The two assignments [tenant.subscription_status = st] and
    [tenant.is_active = a]. *)
Definition assign (st : SubscriptionStatus) (a : bool) (t : Tenant) : Tenant :=
  mkTenant (id t) (name t) (code t) (domain t) (schema_name t) a st
           (email t) (nhis_accreditation t).

Definition tenant_save (t : Tenant) : Eff.M Site unit :=
  Eff.modify (fun s => mkSite (save t (registry s)) (audit_log s)).

Definition AuditLog_create (e : AuditLog) : Eff.M Site unit :=
  Eff.modify (fun s => mkSite (registry s) (audit_log s ++ [e])).

Section Queryset.

(** [column__icontains=search] as the database decides it for the value
    of a column and the search text. *)
Variable icontains : string -> string -> bool.

(** What a query ends in when a parameter holds a NUL character, which
    PostgreSQL takes in no text: [Http404] where the driver raises
    ValueError (which [get_object_or_404] turns into 404), the error of
    the driver otherwise. *)
Variable nul_error : exn.

(** The filters of [get_queryset] on one row. *)
Definition shown (params : QueryParams) (t : Tenant) : bool :=
  match given (param_status params) with
  | Some status_filter =>
      String.eqb (status_value (subscription_status t)) status_filter
  | None => true
  end
  && match given (param_nhis_accreditation params) with
     | Some nhis_filter => String.eqb (nhis_accreditation t) nhis_filter
     | None => true
     end
  && match given (param_search params) with
     | Some search =>
         icontains (name t) search || icontains (code t) search
         || icontains (domain t) search || icontains (email t) search
     | None => true
     end.

(** [get_queryset]: the tenants that pass the filters of the request's
    query parameters. *)
Definition get_queryset (params : QueryParams) (s : Site) : list Tenant :=
  filter (shown params) (tenants (registry s)).

(** [self.get_object()] for the primary key in the URL: the row with
    that key in the queryset, 404 when the queryset has none.  The
    filter backends of the settings do nothing on this view, which
    names no filter and no search fields. *)
Definition get_object (params : QueryParams) (pk : Z) : Eff.M Site Tenant :=
  fun s =>
    if negb (clean params) then (Raise nul_error, s)
    else
      match objects_get (fun t => id t =? pk) (get_queryset params s) with
      | Found t => (Ok t, s)
      | DoesNotExist => (Raise Py.Http404, s)
      | MultipleObjects => (Raise Py.MultipleObjectsReturned, s)
      end.

Definition suspend (params : QueryParams) (pk : Z) : Eff.M Site Response :=
  tenant <- get_object params pk ;;
  let tenant := assign SUSPENDED false tenant in
  tenant_save tenant ;;
  AuditLog_create
    (mkAuditLog "suspend_tenant" "tenant" (Py.str (id tenant)) "suspended" false) ;;
  Eff.ret (mkResponse 200 "Tenant suspended successfully").

Definition activate (params : QueryParams) (pk : Z) : Eff.M Site Response :=
  tenant <- get_object params pk ;;
  let tenant := assign ACTIVE true tenant in
  tenant_save tenant ;;
  AuditLog_create
    (mkAuditLog "activate_tenant" "tenant" (Py.str (id tenant)) "active" true) ;;
  Eff.ret (mkResponse 200 "Tenant activated successfully").

Definition cancel (params : QueryParams) (pk : Z) : Eff.M Site Response :=
  tenant <- get_object params pk ;;
  let tenant := assign CANCELLED false tenant in
  tenant_save tenant ;;
  AuditLog_create
    (mkAuditLog "cancel_tenant" "tenant" (Py.str (id tenant)) "cancelled" false) ;;
  Eff.ret (mkResponse 200 "Tenant subscription cancelled").

End Queryset.

(** The status stored for a primary key, when exactly one row has it. *)
Definition stored_status (s : Site) (pk : Z) : option SubscriptionStatus :=
  match get_by_id (registry s) pk with
  | Found t => Some (subscription_status t)
  | _ => None
  end.

End Views.

(* ================================================================== *)
(** ** tenants/management/commands *)

Module Commands.
Import Models.
Local Open Scope eff_scope.

(** What a management command works on: the tenant table, the
    database catalogue, the lines still to be read from standard input
    and what has been written to the two output streams. *)
Record Env : Type := mkEnv {
  registry : Registry;
  db : Sql.Database;
  stdin : list string;
  stdout : list string;
  stderr : list string
}.

Definition stdout_write (msg : string) : Eff.M Env unit :=
  Eff.modify (fun e =>
    mkEnv (registry e) (db e) (stdin e) (stdout e ++ [msg]) (stderr e)).

Definition stderr_write (msg : string) : Eff.M Env unit :=
  Eff.modify (fun e =>
    mkEnv (registry e) (db e) (stdin e) (stdout e) (stderr e ++ [msg])).

(** [input(prompt)]: the prompt is written, one line is read; end of
    input raises [EOFError]. *)
Definition input (prompt : string) : Eff.M Env string :=
  fun e =>
    let e := mkEnv (registry e) (db e) (stdin e) (stdout e ++ [prompt]) (stderr e) in
    match stdin e with
    | line :: rest =>
        (Ok line, mkEnv (registry e) (db e) rest (stdout e) (stderr e))
    | [] => (Raise Py.EOFError, e)
    end.

Definition with_db (d : Sql.Database) (e : Env) : Env :=
  mkEnv (registry e) d (stdin e) (stdout e) (stderr e).

Definition cursor_execute (stmt : Sql.statement) : Eff.M Env (list string) :=
  Eff.zoom db with_db (Sql.execute stmt).

Definition cursor_execute_f (server : Sql.statement -> Eff.M Sql.Database (list string))
    (stmt : string -> Sql.statement) (text : string) : Eff.M Env (list string) :=
  Eff.zoom db with_db (Sql.execute_f server stmt text).

Module delete_tenant_schema.

(** [Command.handle] with the parsed options [tenant_id] and
    [force].  The [DROP] is the one of a schema name that the catalogue
    stores as it is written. *)
Definition handle (tenant_id : Z) (force : bool) : Eff.M Env unit :=
  env <- Eff.get ;;
  match get_by_id (registry env) tenant_id with
  | DoesNotExist =>
      stderr_write ("Tenant with ID " ++ Py.str tenant_id ++ " does not exist")
  | MultipleObjects => Eff.raise Py.MultipleObjectsReturned
  | Found tenant =>
      let schema_name := Models.schema_name tenant in
      let drop : Eff.M Env unit :=
        cursor_execute (Sql.DROP_SCHEMA_IF_EXISTS_CASCADE schema_name) ;;
        stdout_write ("Dropped schema " ++ schema_name) ;;
        stdout_write ("Successfully deleted schema for tenant " ++ name tenant)
      in
      if negb force then
        confirm <- input ("Are you sure you want to delete schema "
                          ++ schema_name ++ "? (yes/no): ") ;;
        if negb (String.eqb (Py.lower confirm) "yes")
        then stdout_write "Operation cancelled"
        else drop
      else drop
  end.

End delete_tenant_schema.

Module create_tenant_schema.
Section Handle.

Variable server : Sql.statement -> Eff.M Sql.Database (list string).

(** [call_command('migrate', ..., schema_name=schema_name)]: Django's
    migration runner, given the schema name. *)
Variable migrate : string -> Eff.M Sql.Database unit.

(** [Command.handle] with the parsed option [tenant_id].  The query on
    [information_schema.schemata] passes the name as a parameter and
    compares it as it is written; the two statements after it splice
    it. *)

Definition handle (tenant_id : Z) : Eff.M Env unit :=
  env <- Eff.get ;;
  match get_by_id (registry env) tenant_id with
  | DoesNotExist =>
      stderr_write ("Tenant with ID " ++ Py.str tenant_id ++ " does not exist")
  | MultipleObjects => Eff.raise Py.MultipleObjectsReturned
  | Found tenant =>
      let schema_name := Models.schema_name tenant in
      rows <- cursor_execute (Sql.SELECT_schemata_WHERE_schema_name schema_name) ;;
      if Sql.fetchone rows then
        stdout_write ("Schema " ++ schema_name ++ " already exists")
      else
        cursor_execute_f server (Sql.CREATE_SCHEMA false) schema_name ;;
        stdout_write ("Created schema " ++ schema_name) ;;
        cursor_execute_f server Sql.SET_search_path schema_name ;;
        Eff.zoom db with_db (migrate schema_name) ;;
        cursor_execute (Sql.SET_search_path "public") ;;
        stdout_write ("Successfully created schema and tables for tenant "
                      ++ name tenant)
  end.

End Handle.
End create_tenant_schema.

End Commands.

(* ================================================================== *)
(** ** Sample data *)

Module Sample.
Import Models.

Definition tenant_a : Tenant :=
  mkTenant 1 "St Mary Hospital" "STM1234" "stmary.example.com"
           "tenant_stm1234" true ACTIVE "office@stmary.example.com" "accredited".

Definition tenant_b : Tenant :=
  mkTenant 2 "General Clinic" "GEN5678" "general.example.com"
           "tenant_gen5678" false SUSPENDED "office@general.example.com"
           "not_applied".

Definition tenant_c : Tenant :=
  mkTenant 3 "Old Infirmary" "OLD0001" "old.example.com"
           "tenant_old0001" false EXPIRED "office@old.example.com" "not_applied".

Definition registry : Registry :=
  mkRegistry [tenant_a; tenant_b; tenant_c]
             [mkTenantDomain "stmary.example.com" tenant_a true].

Definition worker : Middleware.Worker :=
  Middleware.mkWorker None DjangoTenants.fresh.

(** An anonymous request with the given path and X-Tenant-ID header. *)
Definition request (path : string) (header : option string) : Middleware.Request :=
  Middleware.mkRequest path header None "unknown.example.com".

(** The same request with the X-Tenant-ID header taken away. *)
Definition without_header (r : Middleware.Request) : Middleware.Request :=
  Middleware.mkRequest (Middleware.path_info r) None (Middleware.user r)
                       (Middleware.host r).

(** No authenticated user comes with the request. *)
Definition anonymous (r : Middleware.Request) : bool :=
  match Middleware.user r with
  | Some u => negb (Middleware.is_authenticated u)
  | None => true
  end.

(** The tenant with another subscription status and another activity
    flag, every other column as it is. *)
Definition relabel (status : Tenant -> SubscriptionStatus) (active : Tenant -> bool)
    (t : Tenant) : Tenant :=
  mkTenant (id t) (name t) (code t) (domain t) (schema_name t)
           (active t) (status t) (email t) (nhis_accreditation t).

(** The registry with every tenant relabelled, in the tenant table and
    where a domain row joins it. *)
Definition relabel_registry (status : Tenant -> SubscriptionStatus)
    (active : Tenant -> bool) (reg : Registry) : Registry :=
  mkRegistry
    (map (relabel status active) (tenants reg))
    (map (fun d => mkTenantDomain (domain_name d)
                     (relabel status active (Models.tenant d)) (is_primary d))
         (domains reg)).

(** The request whose user's membership leads to the relabelled
    tenant. *)
Definition relabel_request (status : Tenant -> SubscriptionStatus)
    (active : Tenant -> bool) (r : Middleware.Request) : Middleware.Request :=
  Middleware.mkRequest (Middleware.path_info r) (Middleware.x_tenant_id r)
    (option_map
       (fun u =>
          Middleware.mkUser (Middleware.is_authenticated u) (Middleware.tenant_id u)
            (option_map
               (fun tu => Middleware.mkTenantUser
                            (relabel status active (Middleware.membership_tenant tu)))
               (Middleware.tenant_user u)))
       (Middleware.user r))
    (Middleware.host r).

(** The object a connection holds as its tenant, relabelled. *)
Definition relabel_like (status : Tenant -> SubscriptionStatus)
    (active : Tenant -> bool) (o : DjangoTenants.TenantLike) : DjangoTenants.TenantLike :=
  match o with
  | DjangoTenants.Row t => DjangoTenants.Row (relabel status active t)
  | DjangoTenants.FakeTenant s => DjangoTenants.FakeTenant s
  end.

(** A stand-in for the database's [icontains]: the search text occurs
    in the value, letter case apart, for ASCII texts. *)
Fixpoint occurs (needle hay : string) : bool :=
  String.prefix needle hay
  || match hay with
     | EmptyString => false
     | String _ rest => occurs needle rest
     end.

Definition icontains (value search : string) : bool :=
  occurs (Py.lower search) (Py.lower value).

(** The tables of the public schema, as [registry] has them, with no
    membership. *)
Definition public_tables : Thread.Tables :=
  Thread.mkTables (Some (tenants registry)) (Some (domains registry)) (Some []).

(** A database in which the schema of [tenant_a] holds a membership
    table of its own: there the global user 5 is a tenant user of
    tenant 2. *)
Definition shadowed : Thread.Database :=
  [ ("public", public_tables);
    ("tenant_stm1234",
     Thread.mkTables None None (Some [Thread.mkTenantUserRow (Some 5) 2]));
    ("tenant_gen5678", Thread.mkTables None None None) ].

(** A database in which only public holds the tables. *)
Definition unshadowed : Thread.Database :=
  [ ("public", public_tables);
    ("tenant_stm1234", Thread.mkTables None None None);
    ("tenant_gen5678", Thread.mkTables None None None) ].

(** A request as [request], for the worker's reads. *)
Definition thread_request (path : string) (header : option string)
    (u : option Thread.User) : Thread.Request :=
  Thread.mkRequest path header u "unknown.example.com".

(** A handler that leaves the worker's state alone. *)
Definition idle_view : Middleware.Worker -> result unit * Middleware.Worker :=
  fun w => (Ok tt, w).


(** A catalogue with the public schema only. *)
Definition database : Sql.Database :=
  Sql.mkDatabase [Sql.mkSchema "public" ["tenants_tenant"]] "public".

(** The catalogue once the schema of [tenant_a] has been provisioned. *)
Definition provisioned : Sql.Database :=
  Sql.mkDatabase
    [Sql.mkSchema "public" ["tenants_tenant"];
     Sql.mkSchema "tenant_stm1234" ["tenants_tenantuser"]]
    "public".

(** A command environment: nothing to read, nothing written yet. *)
Definition env (d : Sql.Database) : Commands.Env :=
  Commands.mkEnv registry d [] [] [].

(** A server that answers any other statement with a syntax error. *)
Definition syntax_error : Sql.statement -> Eff.M Sql.Database (list string) :=
  fun _ d => (Raise Py.ProgrammingError, d).

(** The catalogue once the migrations have run in the schema of
    [tenant_a]. *)
Definition migrated : Sql.Database :=
  Sql.mkDatabase
    [Sql.mkSchema "public" ["tenants_tenant"];
     Sql.mkSchema "tenant_stm1234" ["tenants_tenant"]]
    "public".

(** A tenant whose schema name has capital letters. *)
Definition tenant_d : Tenant :=
  mkTenant 4 "New Ward" "NEW0002" "new.example.com"
           "Tenant_NEW0002" true TRIAL "office@new.example.com" "not_applied".

(** A migration run that fails at once. *)
Definition failing_migrate : string -> Eff.M Sql.Database unit :=
  fun _ d => (Raise Py.CommandError, d).

End Sample.

(* ================================================================== *)
(** ** Proof steps *)

(** Case analysis on a scrutinee that contains no other [match]. *)
Ltac case_innermost :=
  match goal with
  | |- context [match ?x with _ => _ end] =>
      lazymatch x with
      | context [match _ with _ => _ end] => fail
      | _ => destruct x eqn:?
      end
  end.

From Stdlib Require Import Sorting.Permutation.
From Stdlib Require Import Numbers.DecimalPos.

(* ================================================================== *)
(** ** More built-ins *)

Module PyMore.

Definition is_lower (c : ascii) : bool :=
  ((97 <=? nat_of_ascii c) && (nat_of_ascii c <=? 122))%nat.

Definition upper_char (c : ascii) : ascii :=
  if is_lower c then ascii_of_nat (nat_of_ascii c - 32) else c.

(** [s.upper()] on the ASCII letters; other code units are kept. *)
Fixpoint upper (s : string) : string :=
  match s with
  | EmptyString => EmptyString
  | String c r => String (upper_char c) (upper r)
  end.

(** The string holds ASCII characters only; on such strings the code
    units are the characters and [upper] and [lower] are those of
    Python. *)
Fixpoint is_ascii (s : string) : bool :=
  match s with
  | EmptyString => true
  | String c r => (nat_of_ascii c <? 128)%nat && is_ascii r
  end.

(** [s[:n]]. *)
Definition take (n : nat) (s : string) : string := String.substring 0 n s.

(** [max(a, b)] on integers. *)
Definition max (a b : Z) : Z := Z.max a b.

End PyMore.

(* ================================================================== *)
(** ** tenants/models.py: the methods of [Tenant] *)

Module TenantMethods.
Import Models.

(** [generate_tenant_code]: the first three letters of the name in upper
    case, then the four digits drawn by [random.choices]. *)
Definition generate_tenant_code (random_part : string) (self : Tenant) : string :=
  let name_part := PyMore.upper (PyMore.take 3 (name self)) in
  name_part ++ random_part.

(** [generate_schema_name]. *)
Definition generate_schema_name (self : Tenant) : string :=
  "tenant_" ++ Py.lower (code self).

Definition with_code (c : string) (t : Tenant) : Tenant :=
  mkTenant (id t) (name t) c (domain t) (schema_name t) (is_active t)
           (subscription_status t) (email t) (nhis_accreditation t).

Definition with_schema_name (s : string) (t : Tenant) : Tenant :=
  mkTenant (id t) (name t) (code t) (domain t) s (is_active t)
           (subscription_status t) (email t) (nhis_accreditation t).

(** The body of [save] before [super().save()]: a missing code and a
    missing schema name are generated. *)
Definition before_save (random_part : string) (self : Tenant) : Tenant :=
  let self :=
    if negb (Py.truthy (code self))
    then with_code (generate_tenant_code random_part self) self
    else self in
  if negb (Py.truthy (schema_name self))
  then with_schema_name (generate_schema_name self) self
  else self.

(** [save] of a row that exists: the attributes are completed and the
    row is written. *)
Definition save (random_part : string) (self : Tenant) (reg : Registry)
  : Tenant * Registry :=
  let self := before_save random_part self in
  (self, Models.save self reg).

(** [is_trial]. *)
Definition is_trial (self : Tenant) : bool :=
  match subscription_status self with TRIAL => true | _ => false end.

(** [days_remaining_in_trial]; dates are day numbers, [today] is
    [timezone.now().date()] and the end date is the tenant's
    [subscription_end_date], [None] when it is not set. *)
Definition days_remaining_in_trial (today : Z) (subscription_end_date : option Z)
    (self : Tenant) : Z :=
  if negb (is_trial self) then 0
  else
    match subscription_end_date with
    | None => 30
    | Some end_date =>
        let remaining := end_date - today in
        PyMore.max 0 remaining
    end.

End TenantMethods.

(* ================================================================== *)
(** ** tenants/utils.py: [list_tenant_schemas] *)

Module UtilsMore.

(** [schema_name LIKE 'pg_%']: the letters p and g, one more character
    of any kind, then anything. *)
Definition like_pg_ (s : string) : bool :=
  match s with
  | String "p" (String "g" (String _ _)) => true
  | _ => false
  end.

(** The rows of the query, in the order of the catalogue. *)
Definition list_tenant_schemas : Eff.M Sql.Database (list string) :=
  fun db =>
    (Ok (filter (fun n => negb (like_pg_ n)
                           && negb (String.eqb n "information_schema")
                           && negb (String.eqb n "public"))
                (Sql.names db)),
     db).

End UtilsMore.

(* ================================================================== *)
(** ** tenants/admin.py: the bulk actions of [TenantAdmin] *)

Module Admin.
Import Models.

(** What an action works on: the tenant table and the messages shown
    to the administrator. *)
Record Site : Type := mkSite {
  registry : Registry;
  messages : list string
}.

Definition with_status (st : SubscriptionStatus) (t : Tenant) : Tenant :=
  mkTenant (id t) (name t) (code t) (domain t) (schema_name t) (is_active t) st
           (email t) (nhis_accreditation t).

(** [queryset.update(subscription_status=st)] on the rows the
    administrator selected; the value is the number of rows matched. *)
Definition queryset_update (selected : Tenant -> bool) (st : SubscriptionStatus)
    (reg : Registry) : Z * Registry :=
  (Z.of_nat (List.length (filter selected (tenants reg))),
   mkRegistry (map (fun r => if selected r then with_status st r else r) (tenants reg))
              (domains reg)).

Definition message_user (msg : string) (s : Site) : Site :=
  mkSite (registry s) (messages s ++ [msg]).

Definition activate_tenants (selected : Tenant -> bool) (s : Site) : Site :=
  let (updated, reg) := queryset_update selected ACTIVE (registry s) in
  message_user (Py.str updated ++ " tenant(s) activated.") (mkSite reg (messages s)).

Definition suspend_tenants (selected : Tenant -> bool) (s : Site) : Site :=
  let (updated, reg) := queryset_update selected SUSPENDED (registry s) in
  message_user (Py.str updated ++ " tenant(s) suspended.") (mkSite reg (messages s)).

Definition cancel_subscriptions (selected : Tenant -> bool) (s : Site) : Site :=
  let (updated, reg) := queryset_update selected CANCELLED (registry s) in
  message_user (Py.str updated ++ " tenant subscription(s) cancelled.")
               (mkSite reg (messages s)).

End Admin.

(* ================================================================== *)
(** ** tenants/views.py: [PublicTenantListView] *)

Module Directory.
Import Models.

(** One entry of the answer (the logo is left out). *)
Record Entry : Type := mkEntry {
  entry_id : Z;
  entry_name : string;
  entry_code : string;
  entry_domain : string
}.

Definition entry (t : Tenant) : Entry :=
  mkEntry (id t) (name t) (code t) (domain t).

(** [subscription_status__in=['active', 'trial']]. *)
Definition active_or_trial (t : Tenant) : bool :=
  match subscription_status t with
  | ACTIVE | TRIAL => true
  | _ => false
  end.

Section Get.

(** The [ORDER BY name] of [Tenant.Meta.ordering], as the database's
    collation sorts. *)
Variable order_by_name : list Tenant -> list Tenant.

(** [PublicTenantListView.get]. *)
Definition get (reg : Registry) (c : DjangoTenants.Connection)
  : list Entry * DjangoTenants.Connection :=
  let c := DjangoTenants.set_schema "public" c in
  let tenants := order_by_name (filter active_or_trial (tenants reg)) in
  (map entry tenants, c).

End Get.

End Directory.

(* ================================================================== *)
(** ** tenants/authentication.py: [TenantAuthenticationBackend] *)

Module Auth.
Import Models.

(** Exceptions that leave [authenticate]: the second exception of
    [objects.get], and the exception of a [save] that is refused (the
    database's DataError for a value that does not fit its column, or
    the ValidationError of the address field on the way there). *)
Inductive exn : Type :=
| MultipleObjectsReturned
| SaveRefused.

Inductive Outcome (A : Type) : Type :=
| Returned (a : A)
| Raised (e : exn).
Arguments Returned {A} a.
Arguments Raised {A} e.

(** The attributes of a [TenantUser] row that the backend reads or
    writes.  Points in time are microseconds on the clock of
    [timezone.now()]; the clock is far enough from the ends of the
    calendar for the few minutes or days that the code adds to a
    reading. *)
Record TenantUser : Type := mkTenantUser {
  pk : Z;
  tenant_id : Z;
  username : string;
  password : string;
  is_active : bool;
  failed_login_attempts : Z;
  account_locked_until : option Z;
  last_login : option Z;
  last_login_ip : option string
}.

(** The request as the backend sees it: [getattr(request, 'tenant',
    None)] and the two entries of [request.META]. *)
Record Request : Type := mkRequest {
  tenant : option Tenant;
  HTTP_X_FORWARDED_FOR : option string;
  REMOTE_ADDR : option string
}.

(** [timezone.timedelta(minutes=n)]. *)
Definition minutes (n : Z) : Z := n * 60000000.

(** [s.split(',')[0]]. *)
Fixpoint before_comma (s : string) : string :=
  match s with
  | EmptyString => EmptyString
  | String c r => if Ascii.eqb c "," then EmptyString else String c (before_comma r)
  end.

(** [get_client_ip]. *)
Definition get_client_ip (request : Request) : option string :=
  match HTTP_X_FORWARDED_FOR request with
  | Some x_forwarded_for =>
      if Py.truthy x_forwarded_for then Some (before_comma x_forwarded_for)
      else REMOTE_ADDR request
  | None => REMOTE_ADDR request
  end.

Definition with_failed_login_attempts (n : Z) (u : TenantUser) : TenantUser :=
  mkTenantUser (pk u) (tenant_id u) (username u) (password u) (is_active u)
               n (account_locked_until u) (last_login u) (last_login_ip u).

Definition with_account_locked_until (t : option Z) (u : TenantUser) : TenantUser :=
  mkTenantUser (pk u) (tenant_id u) (username u) (password u) (is_active u)
               (failed_login_attempts u) t (last_login u) (last_login_ip u).

Definition with_last_login (t : option Z) (ip : option string) (u : TenantUser)
  : TenantUser :=
  mkTenantUser (pk u) (tenant_id u) (username u) (password u) (is_active u)
               (failed_login_attempts u) (account_locked_until u) t ip.

(** [is_account_locked] at the clock reading [now]. *)
Definition is_account_locked (now : Z) (self : TenantUser) : bool :=
  match account_locked_until self with
  | Some until => now <? until
  | None => false
  end.

(** The range of an [IntegerField] column. *)
Definition int4 (n : Z) : bool := (-2147483648 <=? n) && (n <=? 2147483647).

Section Backend.

(** [django.contrib.auth.hashers.check_password(raw, encoded)]. *)
Variable check_password : string -> string -> bool.

(** Whether a string is an address that the [GenericIPAddressField]
    column takes. *)
Variable inet_ok : string -> bool.

(** Whether the row can be written. *)
Definition storable (u : TenantUser) : bool :=
  int4 (failed_login_attempts u)
  && match last_login_ip u with
     | Some ip => inet_ok ip
     | None => true
     end.

(** The table with the row of [u]'s primary key replaced by [u]. *)
Definition written (u : TenantUser) (users : list TenantUser) : list TenantUser :=
  map (fun r => if pk r =? pk u then u else r) users.

(** [user.save()] of an existing row: the row with the user's primary
    key is replaced, unless a value does not fit its column. *)
Definition save (u : TenantUser) (users : list TenantUser)
  : Outcome unit * list TenantUser :=
  if storable u
  then (Returned tt, written u users)
  else (Raised SaveRefused, users).

(** [lock_account(duration_minutes)] at the clock reading [now]; the
    value is the instance after the assignment. *)
Definition lock_account (duration_minutes : Z) (now : Z) (self : TenantUser)
    (users : list TenantUser) : Outcome TenantUser * list TenantUser :=
  let self := with_account_locked_until (Some (now + minutes duration_minutes)) self in
  match save self users with
  | (Returned _, users) => (Returned self, users)
  | (Raised e, users) => (Raised e, users)
  end.

(** [unlock_account]. *)
Definition unlock_account (self : TenantUser) (users : list TenantUser)
  : Outcome TenantUser * list TenantUser :=
  let self := with_account_locked_until None self in
  let self := with_failed_login_attempts 0 self in
  match save self users with
  | (Returned _, users) => (Returned self, users)
  | (Raised e, users) => (Raised e, users)
  end.

(** The two lookups of [authenticate]. *)
Definition active_member (name : string) (t : Tenant) (u : TenantUser) : bool :=
  String.eqb (username u) name && (tenant_id u =? id t) && is_active u.

Definition member (name : string) (t : Tenant) (u : TenantUser) : bool :=
  String.eqb (username u) name && (tenant_id u =? id t).

(** [authenticate(request, username, password)], called with a user
    name and a password.  [now] is the clock reading of
    [is_account_locked] or of [lock_account] (one call reaches at most
    one of the two), [login_time] the one stored as [last_login]. *)
Definition authenticate (request : Request) (name : string) (raw_password : string)
    (now login_time : Z) (users : list TenantUser)
  : Outcome (option TenantUser) * list TenantUser :=
  match tenant request with
  | None => (Returned None, users)
  | Some tenant =>
      match objects_get (active_member name tenant) users with
      | Found user =>
          if check_password raw_password (password user) then
            if is_account_locked now user then (Returned None, users)
            else
              let user := with_failed_login_attempts 0 user in
              let user := with_account_locked_until None user in
              let user := with_last_login (Some login_time) (get_client_ip request) user in
              match save user users with
              | (Returned _, users) => (Returned (Some user), users)
              | (Raised e, users) => (Raised e, users)
              end
          else (Returned None, users)
      | MultipleObjects => (Raised MultipleObjectsReturned, users)
      | DoesNotExist =>
          match objects_get (member name tenant) users with
          | Found user =>
              let user :=
                with_failed_login_attempts (failed_login_attempts user + 1) user in
              match
                (if 5 <=? failed_login_attempts user
                 then lock_account 30 now user users
                 else (Returned user, users))
              with
              | (Returned user, users) =>
                  match save user users with
                  | (Returned _, users) => (Returned None, users)
                  | (Raised e, users) => (Raised e, users)
                  end
              | (Raised e, users) => (Raised e, users)
              end
          | DoesNotExist => (Returned None, users)
          | MultipleObjects => (Raised MultipleObjectsReturned, users)
          end
      end
  end.

(** A series of calls for one user name, each with its password and
    its two clock readings; the outcomes are collected in order. *)
Fixpoint attempts (request : Request) (name : string)
    (tries : list (string * Z * Z)) (users : list TenantUser)
  : list (Outcome (option TenantUser)) * list TenantUser :=
  match tries with
  | [] => ([], users)
  | (raw_password, now, login_time) :: rest =>
      let (r, users) := authenticate request name raw_password now login_time users in
      let (rs, users) := attempts request name rest users in
      (r :: rs, users)
  end.

End Backend.

End Auth.

(* ================================================================== *)
(** ** Invitations: [TenantInvitation] in tenants/models.py, its
       serializer and its views *)

Module Invitations.
Import Models.

Inductive InvitationStatus : Type :=
| PENDING | ACCEPTED | EXPIRED | REVOKED.

Definition is_pending (s : InvitationStatus) : bool :=
  match s with PENDING => true | _ => false end.

(** The attributes of a stored [TenantInvitation] that the modelled
    code reads or writes.  [expires_at] is a column that is never NULL,
    so a stored invitation has one.  Points in time are microseconds on
    the clock of [timezone.now()], far enough from the ends of the
    calendar for the seven days that the code adds to a reading. *)
Record TenantInvitation : Type := mkTenantInvitation {
  pk : Z;
  tenant_id : Z;
  email : string;
  token : string;
  status : InvitationStatus;
  accepted_at : option Z;
  expires_at : Z
}.

Definition with_token (s : string) (i : TenantInvitation) : TenantInvitation :=
  mkTenantInvitation (pk i) (tenant_id i) (email i) s (status i)
                     (accepted_at i) (expires_at i).

Definition with_status (s : InvitationStatus) (i : TenantInvitation)
  : TenantInvitation :=
  mkTenantInvitation (pk i) (tenant_id i) (email i) (token i) s
                     (accepted_at i) (expires_at i).

Definition with_accepted_at (t : option Z) (i : TenantInvitation)
  : TenantInvitation :=
  mkTenantInvitation (pk i) (tenant_id i) (email i) (token i) (status i)
                     t (expires_at i).

Definition with_expires_at (t : Z) (i : TenantInvitation) : TenantInvitation :=
  mkTenantInvitation (pk i) (tenant_id i) (email i) (token i) (status i)
                     (accepted_at i) t.

(** [timezone.timedelta(days=n)]. *)
Definition days (n : Z) : Z := n * 86400000000.

(** What the serializer hands to [accept]. *)
Record UserData : Type := mkUserData {
  username : string;
  first_name : string;
  last_name : string;
  password : string
}.

(** The validated fields of [AcceptInvitationSerializer]. *)
Record Data : Type := mkData {
  data_token : string;
  data_username : string;
  data_first_name : string;
  data_last_name : string;
  data_password : string;
  data_confirm_password : string
}.

(** Exceptions of the modelled code: the two [ValueError]s of [accept],
    the serializer's [ValidationError] with the field it names, the
    second exception of [objects.get], the 404 of [get_object], and
    whatever the creation of the user raises. *)
Inductive exn : Type :=
| ValueError (message : string)
| ValidationError (field : string)
| MultipleObjectsReturned
| Http404
| CreationError.

Inductive Outcome (A : Type) : Type :=
| Returned (a : A)
| Raised (e : exn).
Arguments Returned {A} a.
Arguments Raised {A} e.

Inductive Response : Type :=
| Response200 (detail : string)
| Response400.

Section Store.

(** The table of tenant users and a user, as far as the invitation
    code is concerned. *)
Variable Users : Type.
Variable User : Type.

(** The statements of [accept] that create the user:
    [TenantUser.objects.create(...)] and, with a password,
    [set_password] and [save]. *)
Variable create_user :
  TenantInvitation -> UserData -> Users -> Outcome User * Users.

(** [validate_password] of django.contrib.auth: whether the password
    passes the configured validators. *)
Variable password_ok : string -> bool.

(** [secrets.token_urlsafe(32)]. *)
Variable fresh_token : string.

Record Store : Type := mkStore {
  invitations : list TenantInvitation;
  users : Users
}.

(** The table with the row of [i]'s primary key replaced by [i]. *)
Definition written (i : TenantInvitation) (rows : list TenantInvitation)
  : list TenantInvitation :=
  map (fun r => if pk r =? pk i then i else r) rows.

(** [save] of a stored invitation: a missing token is generated (the
    expiry is there), then the row is written. *)
Definition save (self : TenantInvitation) (rows : list TenantInvitation)
  : TenantInvitation * list TenantInvitation :=
  let self := if negb (Py.truthy (token self)) then with_token fresh_token self
              else self in
  (self, written self rows).

(** [is_expired] at the clock reading [now]. *)
Definition is_expired (now : Z) (self : TenantInvitation) : bool :=
  expires_at self <? now.

(** [accept(user_data)]: [now] is the clock reading of [is_expired],
    [accepted_time] the one stored as [accepted_at]. *)
Definition accept (self : TenantInvitation) (user_data : UserData)
    (now accepted_time : Z) (st : Store) : Outcome User * Store :=
  if negb (is_pending (status self))
  then (Raised (ValueError "Invitation is not pending"), st)
  else if is_expired now self then
    let self := with_status EXPIRED self in
    let (self, rows) := save self (invitations st) in
    (Raised (ValueError "Invitation has expired"), mkStore rows (users st))
  else
    match create_user self user_data (users st) with
    | (Raised e, users) => (Raised e, mkStore (invitations st) users)
    | (Returned user, users) =>
        let self := with_status ACCEPTED self in
        let self := with_accepted_at (Some accepted_time) self in
        let (self, rows) := save self (invitations st) in
        (Returned user, mkStore rows users)
    end.

(** The condition of the serializer's lookup:
    [token=token, status=PENDING]. *)
Definition pending_with_token (tok : string) (i : TenantInvitation) : bool :=
  String.eqb (token i) tok && is_pending (status i).

(** [AcceptInvitationSerializer.validate] at the clock reading [now]. *)
Definition validate (data : Data) (now : Z) (st : Store)
  : Outcome TenantInvitation * Store :=
  if negb (String.eqb (data_password data) (data_confirm_password data))
  then (Raised (ValidationError "confirm_password"), st)
  else if negb (password_ok (data_password data))
  then (Raised (ValidationError "non_field_errors"), st)
  else
    match objects_get (pending_with_token (data_token data)) (invitations st) with
    | DoesNotExist => (Raised (ValidationError "token"), st)
    | MultipleObjects => (Raised MultipleObjectsReturned, st)
    | Found invitation =>
        if is_expired now invitation then
          let invitation := with_status EXPIRED invitation in
          let (invitation, rows) := save invitation (invitations st) in
          (Raised (ValidationError "token"), mkStore rows (users st))
        else (Returned invitation, st)
    end.

(** [AcceptInvitationSerializer.save]. *)
Definition serializer_save (data : Data) (invitation : TenantInvitation)
    (now accepted_time : Z) (st : Store) : Outcome User * Store :=
  let user_data :=
    mkUserData (data_username data) (data_first_name data)
               (data_last_name data) (data_password data) in
  accept invitation user_data now accepted_time st.

(** [AcceptInvitationView.post] for a request whose fields are all
    there: [is_valid()] reads the clock at [now], [accept] reads it at
    [later] and at [accepted_time].  A [ValidationError] becomes the 400
    answer; any other exception leaves the view. *)
Definition post (data : Data) (now later accepted_time : Z) (st : Store)
  : Outcome Response * Store :=
  match validate data now st with
  | (Returned invitation, st) =>
      match serializer_save data invitation later accepted_time st with
      | (Returned user, st) =>
          (Returned (Response200 "Invitation accepted successfully"), st)
      | (Raised e, st) => (Raised e, st)
      end
  | (Raised (ValidationError _), st) => (Returned Response400, st)
  | (Raised e, st) => (Raised e, st)
  end.

(** [TenantInvitationViewSet.get_object]: the row with the primary key
    among the invitations of the user's tenant; a user without tenant
    membership sees none. *)
Definition get_object (user_tenant : option Z) (key : Z)
    (rows : list TenantInvitation) : Outcome TenantInvitation :=
  match user_tenant with
  | None => Raised Http404
  | Some tid =>
      match objects_get (fun i => (pk i =? key))
                        (filter (fun i => tenant_id i =? tid) rows) with
      | Found i => Returned i
      | DoesNotExist => Raised Http404
      | MultipleObjects => Raised MultipleObjectsReturned
      end
  end.

(** [TenantInvitationViewSet.resend] at the clock reading [now]. *)
Definition resend (user_tenant : option Z) (key : Z) (now : Z) (st : Store)
  : Outcome Response * Store :=
  match get_object user_tenant key (invitations st) with
  | Raised e => (Raised e, st)
  | Returned invitation =>
      if negb (is_pending (status invitation)) then (Returned Response400, st)
      else
        let invitation := with_expires_at (now + days 7) invitation in
        let (invitation, rows) := save invitation (invitations st) in
        (Returned (Response200 "Invitation resent"), mkStore rows (users st))
  end.

(** [TenantInvitationViewSet.revoke]. *)
Definition revoke (user_tenant : option Z) (key : Z) (st : Store)
  : Outcome Response * Store :=
  match get_object user_tenant key (invitations st) with
  | Raised e => (Raised e, st)
  | Returned invitation =>
      let invitation := with_status REVOKED invitation in
      let (invitation, rows) := save invitation (invitations st) in
      (Returned (Response200 "Invitation revoked"), mkStore rows (users st))
  end.

(** The calls that reach the invitation table. *)
Inductive Call : Type :=
| Post (data : Data) (now later accepted_time : Z)
| Resend (user_tenant : option Z) (key : Z) (now : Z)
| Revoke (user_tenant : option Z) (key : Z).

Definition call (c : Call) (st : Store) : Store :=
  match c with
  | Post data now later accepted_time => snd (post data now later accepted_time st)
  | Resend user_tenant key now => snd (resend user_tenant key now st)
  | Revoke user_tenant key => snd (revoke user_tenant key st)
  end.

(** A series of calls, one after the other. *)
Definition calls (cs : list Call) (st : Store) : Store :=
  fold_left (fun st c => call c st) cs st.

End Store.

Arguments mkStore {Users} invitations users.
Arguments invitations {Users} s.
Arguments users {Users} s.
Arguments accept {Users User} create_user fresh_token self user_data now accepted_time st.
Arguments validate {Users} password_ok fresh_token data now st.
Arguments serializer_save {Users User} create_user fresh_token data invitation now accepted_time st.
Arguments post {Users User} create_user password_ok fresh_token data now later accepted_time st.
Arguments resend {Users} fresh_token user_tenant key now st.
Arguments revoke {Users} fresh_token user_tenant key st.
Arguments call {Users User} create_user password_ok fresh_token c st.
Arguments calls {Users User} create_user password_ok fresh_token cs st.

End Invitations.

(* ================================================================== *)
(** ** users/views.py: [AuthenticationView.authenticate_tenant_user] *)

Module Login.
Import Models.

(** What the block under [try] comes to: the serializer accepts the
    credentials and the tokens are built, the serializer rejects them,
    or an exception is raised on the way. *)
Inductive Attempt (User : Type) : Type :=
| Valid (user : User)
| Invalid
| Failed.
Arguments Valid {User} user.
Arguments Invalid {User}.
Arguments Failed {User}.

Inductive Response (User : Type) : Type :=
| Response200 (tenant : Tenant) (user : User)
| Response400
| Response404
| Response500.
Arguments Response200 {User} tenant user.
Arguments Response400 {User}.
Arguments Response404 {User}.
Arguments Response500 {User}.

(** [Tenant.objects.get(domain=d)]. *)
Definition get_by_domain (reg : Registry) (d : string) : GetResult Tenant :=
  objects_get (fun t => String.eqb (domain t) d) (tenants reg).

(** A value of [request.data] or of a header.  [Null] is Python's
    [None], which [get] also gives for a key that is not there; [Str] is
    a JSON string or the value of the header; a value of another kind (a
    float, an array, an object) is taken by what the view can observe of
    it: its truth value, what [int()] makes of it, and what the lookup
    on the text column [domain] makes of it (the text it compares with,
    or the exception of the query). *)
Inductive Value : Type :=
| Null
| Bool (b : bool)
| Number (n : Z)
| Str (s : string)
| Other (truth : bool) (as_int : result Z) (as_text : result string).

(** The truth value of an argument. *)
Definition truthy (v : Value) : bool :=
  match v with
  | Null => false
  | Bool b => b
  | Number n => negb (n =? 0)
  | Str s => Py.truthy s
  | Other truth _ _ => truth
  end.

(** [int(v)]: [TypeError] for [None], arrays and objects,
    [OverflowError] for an infinite float, [ValueError] for a string
    that is no number. *)
Definition int (v : Value) : result Z :=
  match v with
  | Null => Raise Py.TypeError
  | Bool b => Ok (if b then 1 else 0)
  | Number n => Ok n
  | Str s =>
      match Py.int s with
      | Some n => Ok n
      | None => Raise Py.ValueError
      end
  | Other _ as_int _ => as_int
  end.

Section View.

Variable User : Type.

(** [LoginSerializer(data=request.data).is_valid()] and the building of
    the tokens, run on the thread's connection. *)
Variable login :
  DjangoTenants.Connection -> Attempt User * DjangoTenants.Connection.

(** The truth value of the attribute [tenant.is_active]. *)
Variable is_active_attribute : Tenant -> bool.

(** The exception of the database adapter for a text with a NUL
    character. *)
Variable nul_error : exn.

(** The text that [Tenant.objects.get(domain=v)] compares the column
    with: [str(v)] for a value that is no string. *)
Definition domain_text (v : Value) : result string :=
  match v with
  | Null => Ok "None"
  | Bool b => Ok (if b then "True" else "False")
  | Number n => Ok (Py.str n)
  | Str s => if Views.has_nul s then Raise nul_error else Ok s
  | Other _ _ as_text => as_text
  end.

(** The statements after the tenant is known. *)
Definition with_tenant (tenant : Tenant) (c : DjangoTenants.Connection)
  : result (Response User) * DjangoTenants.Connection :=
  if negb (is_active_attribute tenant) then (Ok Response400, c)
  else
    let c := DjangoTenants.set_schema (schema_name tenant) c in
    match login c with
    | (Valid user, c) =>
        (Ok (Response200 tenant user), DjangoTenants.set_schema "public" c)
    | (Invalid, c) => (Ok Response400, DjangoTenants.set_schema "public" c)
    | (Failed, c) => (Ok Response500, DjangoTenants.set_schema "public" c)
    end.

(** [authenticate_tenant_user(request, tenant_domain, tenant_id)].  The
    lookup by id catches [Tenant.DoesNotExist] and [ValueError], the
    lookup by domain [Tenant.DoesNotExist] only; any other exception
    leaves the view. *)
Definition authenticate_tenant_user (reg : Registry)
    (tenant_domain tenant_id : Value) (c : DjangoTenants.Connection)
  : result (Response User) * DjangoTenants.Connection :=
  if truthy tenant_id && negb (truthy tenant_domain) then
    match int tenant_id with
    | Ok n =>
        match get_by_id reg n with
        | Found tenant => with_tenant tenant c
        | DoesNotExist => (Ok Response404, c)
        | MultipleObjects => (Raise Py.MultipleObjectsReturned, c)
        end
    | Raise Py.ValueError => (Ok Response404, c)
    | Raise e => (Raise e, c)
    end
  else if truthy tenant_domain then
    match domain_text tenant_domain with
    | Ok d =>
        match get_by_domain reg d with
        | Found tenant => with_tenant tenant c
        | DoesNotExist => (Ok Response404, c)
        | MultipleObjects => (Raise Py.MultipleObjectsReturned, c)
        end
    | Raise e => (Raise e, c)
    end
  else (Ok Response400, c).

End View.

End Login.

(* ================================================================== *)
(** ** tenants/db_router.py: [TenantDatabaseRouter] *)

Module Router.

Definition tenant_models : list string :=
  [ "tenants.TenantUser";
    "tenants.Department";
    "tenants.TenantSetting";
    "tenants.TenantModule";
    "tenants.TenantInvitation";
    "tenants.TenantActivityLog";
    "tenants.TenantBackup" ].

Definition global_models : list string :=
  [ "tenants.Tenant";
    "tenants.SubscriptionPlan";
    "users.GlobalUser";
    "users.User2FA";
    "users.RSAKey";
    "users.UserSession";
    "users.SecurityEvent";
    "users.UserNotification";
    "core.Country";
    "core.State";
    "core.LGA";
    "core.FacilityType";
    "core.Specialization";
    "core.Language";
    "core.NotificationTemplate";
    "core.SystemSetting";
    "core.AuditLog";
    "core.BackupLog" ].

(** [name in names]. *)
Definition mem (name : string) (names : list string) : bool :=
  existsb (String.eqb name) names.

(** [db_for_read(model)], given the model's [_meta.app_label] and
    [_meta.model_name]; [None] is "no opinion". *)
Definition db_for_read (app_label model_name : string) : option string :=
  let model_name := app_label ++ "." ++ model_name in
  if mem model_name global_models then Some "default"
  else if mem model_name tenant_models then Some "default"
  else None.

(** [db_for_write(model)]. *)
Definition db_for_write (app_label model_name : string) : option string :=
  let model_name := app_label ++ "." ++ model_name in
  if mem model_name global_models then Some "default"
  else if mem model_name tenant_models then Some "default"
  else None.

(** [allow_relation]. *)
Definition allow_relation : bool := true.

(** [allow_migrate(db, app_label, model_name, **hints)]; [schema_name]
    is the hint of that name when the caller passes one. *)
Definition allow_migrate (db app_label : string) (model_name : option string)
    (schema_name : option string) : option bool :=
  let full_model_name :=
    match model_name with
    | Some m => if Py.truthy m then Some (app_label ++ "." ++ m) else None
    | None => None
    end in
  match full_model_name with
  | None => None
  | Some name =>
      if mem name global_models then
        Some (String.eqb db "default"
              && String.eqb (match schema_name with Some s => s | None => "public" end)
                            "public")
      else if mem name tenant_models then
        Some (String.eqb db "default"
              && negb (match schema_name with
                       | Some s => String.eqb s "public"
                       | None => false
                       end))
      else None
  end.

End Router.

(* ================================================================== *)
(** ** More sample data *)

Module Cases.
Import Models.

(** The development tenant. *)
Definition tenant_test : Tenant :=
  mkTenant 9 "Test Hospital" "TEST" "test.example.com" "tenant_test" true TRIAL
           "office@test.example.com" "not_applied".

(** A tenant as the creation form leaves it: no code, no schema name. *)
Definition tenant_new : Tenant :=
  mkTenant 4 "Lagoon Clinic" "" "lagoon.example.com" "" true TRIAL
           "office@lagoon.example.com" "not_applied".

(** A registry that holds the development tenant as well. *)
Definition registry_with_test : Registry :=
  mkRegistry [Sample.tenant_a; Sample.tenant_b; tenant_test]
             [mkTenantDomain "stmary.example.com" Sample.tenant_a true].

(** A command environment over that registry. *)
Definition env_with_test (d : Sql.Database) : Commands.Env :=
  Commands.mkEnv registry_with_test d [] [] [].

(** A request of an authenticated user, without the X-Tenant-ID header. *)
Definition request_of (u : Middleware.User) (host : string) : Middleware.Request :=
  Middleware.mkRequest "/api/v1/patients/" None (Some u) host.

(** The request carries no header that the header step can use: none
    at all, one that is no number, or one that names no tenant. *)
Definition no_usable_header (reg : Registry) (r : Middleware.Request) : Prop :=
  Middleware.x_tenant_id r = None
  \/ exists h, Middleware.x_tenant_id r = Some h
               /\ (Py.int h = None
                   \/ exists n, Py.int h = Some n /\ get_by_id reg n = DoesNotExist).

(** The user's tenant_id attribute names no tenant: it is absent, zero,
    or the id of no row. *)
Definition no_usable_claim (reg : Registry) (u : Middleware.User) : Prop :=
  Middleware.tenant_id u = None
  \/ Middleware.tenant_id u = Some 0
  \/ exists n, Middleware.tenant_id u = Some n /\ get_by_id reg n = DoesNotExist.

(** A connection whose active schema is the schema of its tenant
    object. *)
Definition consistent (c : DjangoTenants.Connection) : Prop :=
  exists o, DjangoTenants.tenant c = Some o
            /\ DjangoTenants.schema_name c = DjangoTenants.schema_name_of o.

(** The ids the public tenant list shows. *)
Definition listed_ids (order_by_name : list Tenant -> list Tenant)
    (reg : Registry) (c : DjangoTenants.Connection) : list Z :=
  map Directory.entry_id (fst (Directory.get order_by_name reg c)).

(** The three lifecycle actions of [TenantViewSet] under one name. *)
Inductive Action : Type := Suspend | Activate | Cancel.

Definition run (icontains : string -> string -> bool) (nul_error : exn)
    (a : Action) (params : Views.QueryParams) (pk : Z)
  : Eff.M Views.Site Views.Response :=
  match a with
  | Suspend => Views.suspend icontains nul_error params pk
  | Activate => Views.activate icontains nul_error params pk
  | Cancel => Views.cancel icontains nul_error params pk
  end.

(** The status and the flag an action assigns. *)
Definition assigned (a : Action) (t : Tenant) : Tenant :=
  match a with
  | Suspend => Views.assign SUSPENDED false t
  | Activate => Views.assign ACTIVE true t
  | Cancel => Views.assign CANCELLED false t
  end.

(** Query parameters that ask for the active tenants whose name, code,
    domain or email holds "mary". *)
Definition params_active : Views.QueryParams :=
  Views.mkQueryParams (Some "active") None (Some "MARY").

(** The query parameters of the request leave the tenant in the
    queryset of [TenantViewSet]: they hold no NUL character and their
    filters pass the tenant. *)
Definition shows (icontains : string -> string -> bool)
    (params : Views.QueryParams) (t : Tenant) : Prop :=
  Views.clean params = true /\ Views.shown icontains params t = true.

(** The status an action stores. *)
Definition status_of (a : Action) : SubscriptionStatus :=
  match a with
  | Suspend => SUSPENDED
  | Activate => ACTIVE
  | Cancel => CANCELLED
  end.

(** The row has a code and a schema name, as every row written by
    [Tenant.save] has; [save] then generates neither. *)
Definition has_identifiers (t : Tenant) : Prop :=
  Py.truthy (code t) = true /\ Py.truthy (Models.schema_name t) = true.

(** A stand-in for the password hasher: the password is stored as it
    is. *)
Definition plain_check (raw encoded : string) : bool := String.eqb raw encoded.

(** A stand-in for the address column: two addresses are known. *)
Definition known_inet (ip : string) : bool :=
  String.eqb ip "10.0.0.7" || String.eqb ip "10.0.0.8".

(** Three users of [Sample.tenant_a]: an active one, a deactivated one
    with three failed attempts, and an active one that is locked until
    time 5000. *)
Definition user_ada : Auth.TenantUser :=
  Auth.mkTenantUser 11 1 "ada" "s3cret" true 0 None None None.

Definition user_bob : Auth.TenantUser :=
  Auth.mkTenantUser 12 1 "bob" "hunter2" false 3 None None (Some "10.0.0.8").

Definition user_eve : Auth.TenantUser :=
  Auth.mkTenantUser 13 1 "eve" "pw" true 5 (Some 5000) None None.

Definition users : list Auth.TenantUser := [user_ada; user_bob; user_eve].

(** A login request that the middleware resolved to [Sample.tenant_a]. *)
Definition login_request : Auth.Request :=
  Auth.mkRequest (Some Sample.tenant_a) (Some "10.0.0.7, 172.16.0.1") None.

(** The address that [get_client_ip] reads from the request is one the
    column takes. *)
Definition address_ok (inet_ok : string -> bool) (request : Auth.Request) : bool :=
  match Auth.get_client_ip request with
  | Some ip => inet_ok ip
  | None => true
  end.

(** A stand-in for the user table: the user names taken; creating a
    user fails when the name is taken. *)
Definition create_named (i : Invitations.TenantInvitation)
    (user_data : Invitations.UserData) (names : list string)
  : Invitations.Outcome string * list string :=
  if existsb (String.eqb (Invitations.username user_data)) names
  then (Invitations.Raised Invitations.CreationError, names)
  else (Invitations.Returned (Invitations.username user_data),
        Invitations.username user_data :: names).

(** A stand-in for the password validators: eight characters. *)
Definition long_enough (p : string) : bool := (8 <=? String.length p)%nat.

(** A pending invitation that expires at time 1000 and an accepted
    one. *)
Definition invitation_new : Invitations.TenantInvitation :=
  Invitations.mkTenantInvitation 21 1 "new@example.com" "tok-21"
    Invitations.PENDING None 1000.

Definition invitation_old : Invitations.TenantInvitation :=
  Invitations.mkTenantInvitation 22 1 "old@example.com" "tok-22"
    Invitations.ACCEPTED (Some 500) 900.

Definition invitation_store : Invitations.Store (list string) :=
  Invitations.mkStore [invitation_new; invitation_old] ["ada"].

Definition accept_data : Invitations.Data :=
  Invitations.mkData "tok-21" "newcomer" "New" "Comer" "correct horse"
                     "correct horse".

(** The table holds, under unique primary keys, a row for the
    invitation [inv] that is not pending, has the status of [inv] or is
    revoked, and has the acceptance time of [inv]. *)
Definition settled_as (inv : Invitations.TenantInvitation)
    (rows : list Invitations.TenantInvitation) : Prop :=
  NoDup (map Invitations.pk rows)
  /\ exists inv',
      In inv' rows
      /\ Invitations.pk inv' = Invitations.pk inv
      /\ Invitations.is_pending (Invitations.status inv') = false
      /\ (Invitations.status inv' = Invitations.status inv
          \/ Invitations.status inv' = Invitations.REVOKED)
      /\ Invitations.accepted_at inv' = Invitations.accepted_at inv.

(** The string and what is left of it after each of its characters. *)
Fixpoint suffixes (s : string) : list string :=
  s :: match s with
       | EmptyString => []
       | String _ r => suffixes r
       end.

(** No name of the list ends, after a dot, in a part without an upper
    case letter. *)
Definition capitalised (names : list string) : bool :=
  forallb
    (fun name =>
       forallb (fun s => match s with
                         | String "." m => negb (String.eqb (Py.lower m) m)
                         | _ => true
                         end)
               (suffixes name))
    names.

(** The string has no comma. *)
Fixpoint comma_free (s : string) : bool :=
  match s with
  | EmptyString => true
  | String c r => negb (Ascii.eqb c ",") && comma_free r
  end.

(** The row that an attempt on an inactive account writes at the clock
    reading [now]: one more failed attempt, and from the fifth on a lock
    of thirty minutes. *)
Definition counted (now : Z) (u : Auth.TenantUser) : Auth.TenantUser :=
  let user :=
    Auth.with_failed_login_attempts (Auth.failed_login_attempts u + 1) u in
  if 5 <=? Auth.failed_login_attempts user
  then Auth.with_account_locked_until (Some (now + Auth.minutes 30)) user
  else user.

End Cases.

(* ================================================================== *)
(** * Properties *)

(** ** Built-ins *)

Lemma startswith_app (p rest : string) : Py.startswith (p ++ rest) p = true.
Proof.
  unfold Py.startswith.
  induction p as [|c p IH]; simpl.
  - destruct rest; reflexivity.
  - destruct (ascii_dec c c); [exact IH | congruence].
Qed.

Lemma startswith_inv (s p : string) :
  Py.startswith s p = true -> exists rest, s = p ++ rest.
Proof.
  unfold Py.startswith. revert s.
  induction p as [|c p IH]; intros s H.
  - exists s. reflexivity.
  - destruct s as [|d s]; simpl in H; [discriminate|].
    destruct (ascii_dec c d) as [->|]; [|discriminate].
    destruct (IH s H) as [rest ->]. exists rest. reflexivity.
Qed.

Example int_accepts :
  Py.int "7" = Some 7 /\ Py.int " 42 " = Some 42 /\ Py.int "+007" = Some 7
  /\ Py.int "-1_000" = Some (-1000).
Proof. repeat split. Qed.

Example int_rejects :
  Py.int "" = None /\ Py.int "seven" = None /\ Py.int "1__0" = None
  /\ Py.int "_1" = None /\ Py.int "1_" = None /\ Py.int "- 5" = None
  /\ Py.int "1 2" = None /\ Py.int "0x10" = None.
Proof. repeat split. Qed.

(** A string that [int()] accepts is not empty, hence true. *)
Lemma int_some_truthy (h : string) (n : Z) :
  Py.int h = Some n -> Py.truthy h = true.
Proof. destruct h; [discriminate | reflexivity]. Qed.

(** ** The ORM lookups *)

Lemma objects_get_found_cond {A} (cond : A -> bool) rows a :
  Models.objects_get cond rows = Models.Found a -> cond a = true /\ In a rows.
Proof.
  unfold Models.objects_get. intros H.
  destruct (filter cond rows) as [|x [|y l]] eqn:E; inversion H; subst.
  assert (In a (filter cond rows)) as Hin by (rewrite E; left; reflexivity).
  apply filter_In in Hin. tauto.
Qed.

Lemma get_by_id_found_id reg n t :
  Models.get_by_id reg n = Models.Found t -> Models.id t = n.
Proof.
  intros H. apply objects_get_found_cond in H as [H _]. lia.
Qed.


(** ** The resolver *)

Section Resolver.
Import Models Middleware.

Variable reg : Registry.
Variable request : Request.
Variable w : Worker.

Lemma is_public_prefix (path url rest : string) :
  In url PUBLIC_SCHEMA_URLS -> path = url ++ rest -> is_public path = true.
Proof.
  intros Hin ->. unfold is_public. apply existsb_exists.
  exists url. split; [exact Hin | apply startswith_app].
Qed.

(** The public paths are exactly those that extend a configured prefix. *)
Lemma is_public_iff (path : string) :
  is_public path = true
  <-> exists url rest, In url PUBLIC_SCHEMA_URLS /\ path = url ++ rest.
Proof.
  split.
  - unfold is_public. intros H. apply existsb_exists in H as (url & Hin & Hpre).
    apply startswith_inv in Hpre as [rest ->]. exists url, rest. tauto.
  - intros (url & rest & Hin & Hpath). exact (is_public_prefix _ _ _ Hin Hpath).
Qed.

Lemma header_found h n t :
  x_tenant_id request = Some h ->
  Py.int h = Some n ->
  get_by_id reg n = Found t ->
  from_header reg request w = resolve_to t w.
Proof.
  intros Hh Hint Hget. unfold from_header.
  rewrite Hh, (int_some_truthy _ _ Hint), Hint, Hget. reflexivity.
Qed.

Lemma header_unusable h :
  x_tenant_id request = Some h ->
  Py.int h = None \/ (exists n, Py.int h = Some n /\ get_by_id reg n = DoesNotExist) ->
  from_header reg request w = from_test_tenant reg request w.
Proof.
  intros Hh Hbad. unfold from_header. rewrite Hh.
  destruct (Py.truthy h); [|reflexivity].
  destruct Hbad as [Hnone | (n & Hint & Hget)].
  - rewrite Hnone. reflexivity.
  - rewrite Hint, Hget. reflexivity.
Qed.

End Resolver.

(** C2.  A request whose path starts with one of the configured public
    prefixes resolves to "public": [process_request] returns normally
    having switched the connection to the public schema, and nothing
    else happens, whatever header, user, host or registry come with it
    (the result names none of them, and the thread-local tenant is left
    as it was). *)
Theorem public_path_resolves_to_public :
  forall (reg : Models.Registry) (request : Middleware.Request)
         (w : Middleware.Worker) (url rest : string),
    In url Middleware.PUBLIC_SCHEMA_URLS ->
    Middleware.path_info request = url ++ rest ->
    Middleware.process_request reg request w
      = (Ok tt, Middleware.on_connection DjangoTenants.set_schema_to_public w)
    /\ Middleware.active_schema (snd (Middleware.process_request reg request w))
       = "public"
    /\ Middleware.get_current_tenant (snd (Middleware.process_request reg request w))
       = Middleware.get_current_tenant w.
Proof.
  intros reg request w url rest Hin Hpath.
  assert (Middleware.process_request reg request w
          = Middleware.resolve_public w) as E.
  { unfold Middleware.process_request.
    rewrite (is_public_prefix _ url rest Hin Hpath). reflexivity. }
  rewrite E. repeat split.
Qed.

Lemma public_path_resolves_to_public_witness :
  Middleware.process_request Sample.registry
      (Sample.request "/api/v1/auth/login/" (Some "7")) Sample.worker
    = (Ok tt, Middleware.on_connection DjangoTenants.set_schema_to_public Sample.worker)
  /\ Middleware.active_schema
       (snd (Middleware.process_request Sample.registry
               (Sample.request "/api/v1/auth/login/" (Some "7")) Sample.worker))
     = "public"
  /\ Middleware.get_current_tenant
       (snd (Middleware.process_request Sample.registry
               (Sample.request "/api/v1/auth/login/" (Some "7")) Sample.worker))
     = Middleware.get_current_tenant Sample.worker.
Proof.
  apply (public_path_resolves_to_public Sample.registry
           (Sample.request "/api/v1/auth/login/" (Some "7")) Sample.worker
           "/api/v1/auth/" "login/").
  - simpl. tauto.
  - reflexivity.
Defined.

(** C3.  On a non-public path, a tenant-id header whose number is the id
    of an existing tenant resolves to that tenant: [process_request]
    returns normally, and the handlers that follow run in a state where
    the connection's tenant is that tenant and the active schema is its
    schema name (the thread-local tenant is set as well). *)
Theorem valid_header_resolves_to_tenant :
  forall (reg : Models.Registry) (request : Middleware.Request)
         (w : Middleware.Worker) (h : string) (n : Z) (t : Models.Tenant),
    Middleware.is_public (Middleware.path_info request) = false ->
    Middleware.x_tenant_id request = Some h ->
    Py.int h = Some n ->
    Models.get_by_id reg n = Models.Found t ->
    Middleware.process_request reg request w
      = (Ok tt,
         Middleware.mkWorker (Some t)
           (DjangoTenants.mkConnection (Some (DjangoTenants.Row t)) (Models.schema_name t)))
    /\ Middleware.active_schema (snd (Middleware.process_request reg request w))
       = Models.schema_name t
    /\ (forall get_response : Middleware.Worker -> result unit * Middleware.Worker,
          Middleware.call get_response reg request w
          = get_response
              (Middleware.mkWorker (Some t)
                 (DjangoTenants.mkConnection (Some (DjangoTenants.Row t))
                    (Models.schema_name t)))).
Proof.
  intros reg request w h n t Hpub Hh Hint Hget.
  unfold Middleware.call, Middleware.process_request. rewrite Hpub.
  rewrite (header_found reg request w h n t Hh Hint Hget).
  repeat split.
Qed.

Lemma valid_header_resolves_to_tenant_witness :
  Middleware.process_request Sample.registry
      (Sample.request "/api/v1/patients/" (Some "1")) Sample.worker
    = (Ok tt,
       Middleware.mkWorker (Some Sample.tenant_a)
         (DjangoTenants.mkConnection (Some (DjangoTenants.Row Sample.tenant_a))
            (Models.schema_name Sample.tenant_a)))
  /\ Middleware.active_schema
       (snd (Middleware.process_request Sample.registry
               (Sample.request "/api/v1/patients/" (Some "1")) Sample.worker))
     = Models.schema_name Sample.tenant_a
  /\ (forall get_response : Middleware.Worker -> result unit * Middleware.Worker,
        Middleware.call get_response Sample.registry
          (Sample.request "/api/v1/patients/" (Some "1")) Sample.worker
        = get_response
            (Middleware.mkWorker (Some Sample.tenant_a)
               (DjangoTenants.mkConnection (Some (DjangoTenants.Row Sample.tenant_a))
                  (Models.schema_name Sample.tenant_a)))).
Proof.
  apply (valid_header_resolves_to_tenant Sample.registry
           (Sample.request "/api/v1/patients/" (Some "1")) Sample.worker
           "1" 1 Sample.tenant_a); reflexivity.
Defined.

(** C4.  On a non-public path, a tenant-id header that is not a number
    or that names no tenant is treated as absent: [process_request]
    does exactly what it does for the same request without the header,
    namely go on with the next step of the chain (the development
    tenant).  The header step itself raises nothing. *)
Theorem bad_header_falls_through :
  forall (reg : Models.Registry) (request : Middleware.Request)
         (w : Middleware.Worker) (h : string),
    Middleware.is_public (Middleware.path_info request) = false ->
    Middleware.x_tenant_id request = Some h ->
    (Py.int h = None \/
     exists n, Py.int h = Some n /\ Models.get_by_id reg n = Models.DoesNotExist) ->
    Middleware.process_request reg request w
      = Middleware.process_request reg (Sample.without_header request) w
    /\ Middleware.process_request reg request w
       = Middleware.from_test_tenant reg request w.
Proof.
  intros reg request w h Hpub Hh Hbad.
  unfold Middleware.process_request. simpl. rewrite Hpub.
  rewrite (header_unusable reg request w h Hh Hbad).
  split; reflexivity.
Qed.

Lemma bad_header_falls_through_witness :
  Middleware.process_request Sample.registry
      (Sample.request "/api/v1/patients/" (Some "seven")) Sample.worker
    = Middleware.process_request Sample.registry
        (Sample.without_header (Sample.request "/api/v1/patients/" (Some "seven")))
        Sample.worker
  /\ Middleware.process_request Sample.registry
       (Sample.request "/api/v1/patients/" (Some "seven")) Sample.worker
     = Middleware.from_test_tenant Sample.registry
         (Sample.request "/api/v1/patients/" (Some "seven")) Sample.worker.
Proof.
  apply (bad_header_falls_through Sample.registry
           (Sample.request "/api/v1/patients/" (Some "seven")) Sample.worker "seven").
  - reflexivity.
  - reflexivity.
  - left. reflexivity.
Defined.

(** C5.  On a non-public path, with a tenant-id header that names no
    existing tenant, no authenticated user, no development tenant and no
    TenantDomain row for the host, the request fails with the
    tenant-not-found error (404); it does not return normally. *)
Theorem unresolved_request_is_not_found :
  forall (reg : Models.Registry) (request : Middleware.Request)
         (w : Middleware.Worker) (h : string) (n : Z),
    Middleware.is_public (Middleware.path_info request) = false ->
    Middleware.x_tenant_id request = Some h ->
    Py.int h = Some n ->
    Models.get_by_id reg n = Models.DoesNotExist ->
    Sample.anonymous request = true ->
    Models.get_by_code reg "TEST" = Models.DoesNotExist ->
    Models.objects_get
      (fun d => String.eqb (Models.domain_name d) (Middleware.host request))
      (Models.domains reg) = Models.DoesNotExist ->
    fst (Middleware.process_request reg request w) = Raise Py.Http404.
Proof.
  intros reg request w h n Hpub Hh Hint Hget Hanon Htest Hdom.
  unfold Middleware.process_request. rewrite Hpub.
  rewrite (header_unusable reg request w h Hh) by (right; eauto).
  unfold Middleware.from_test_tenant. rewrite Htest.
  assert (Middleware.from_user reg request w = Middleware.from_domain reg request w) as ->.
  { unfold Middleware.from_user, Sample.anonymous in *.
    destruct (Middleware.user request) as [u|]; [|reflexivity].
    destruct (Middleware.is_authenticated u); [discriminate | reflexivity]. }
  unfold Middleware.from_domain, DjangoTenants.process_request.
  rewrite Hdom. reflexivity.
Qed.

Lemma unresolved_request_is_not_found_witness :
  fst (Middleware.process_request
         (Models.mkRegistry [Sample.tenant_a] [])
         (Sample.request "/api/v1/patients/" (Some "7")) Sample.worker)
  = Raise Py.Http404.
Proof.
  apply (unresolved_request_is_not_found
           (Models.mkRegistry [Sample.tenant_a] [])
           (Sample.request "/api/v1/patients/" (Some "7")) Sample.worker "7" 7);
    reflexivity.
Defined.

(** A lookup in a table whose rows were rewritten without touching the
    columns the condition reads finds the rewritten row of the row it
    found before. *)
Lemma objects_get_map {A} (cond : A -> bool) (f : A -> A) (rows : list A) :
  (forall x, cond (f x) = cond x) ->
  Models.objects_get cond (map f rows)
  = match Models.objects_get cond rows with
    | Models.Found a => Models.Found (f a)
    | Models.DoesNotExist => Models.DoesNotExist
    | Models.MultipleObjects => Models.MultipleObjects
    end.
Proof.
  intros Hc. unfold Models.objects_get.
  assert (filter cond (map f rows) = map f (filter cond rows)) as ->.
  { induction rows as [|x l IH]; simpl; [reflexivity|].
    rewrite Hc. destruct (cond x); simpl; rewrite IH; reflexivity. }
  destruct (filter cond rows) as [|x [|y l]]; reflexivity.
Qed.

(** Resolution on a relabelled registry: every step takes the branch it
    took, and ends on the relabelled tenant. *)
Lemma process_request_relabelled
    (status : Models.Tenant -> Models.SubscriptionStatus)
    (active : Models.Tenant -> bool)
    (reg : Models.Registry) (request : Middleware.Request)
    (w : Middleware.Worker) :
  fst (Middleware.process_request (Sample.relabel_registry status active reg)
         (Sample.relabel_request status active request) w)
  = fst (Middleware.process_request reg request w)
  /\ Middleware.active_schema
       (snd (Middleware.process_request (Sample.relabel_registry status active reg)
               (Sample.relabel_request status active request) w))
     = Middleware.active_schema (snd (Middleware.process_request reg request w))
  /\ (fst (Middleware.process_request reg request w) = Ok tt ->
      DjangoTenants.tenant
        (Middleware.connection
           (snd (Middleware.process_request
                   (Sample.relabel_registry status active reg)
                   (Sample.relabel_request status active request) w)))
      = option_map (Sample.relabel_like status active)
          (DjangoTenants.tenant
             (Middleware.connection
                (snd (Middleware.process_request reg request w))))).
Proof.
  unfold Middleware.process_request, Middleware.from_header,
    Middleware.from_test_tenant, Middleware.from_user,
    Middleware.from_membership, Middleware.from_domain,
    DjangoTenants.process_request, Models.get_by_id, Models.get_by_code.
  destruct request as [path header user host]. simpl.
  destruct (Middleware.is_public path); [repeat split|].
  destruct user as [[auth claim [[mt]|]]|]; simpl;
    repeat (first [rewrite objects_get_map by reflexivity | case_innermost]);
    simpl; repeat split; try reflexivity; try congruence;
    intros; try discriminate; reflexivity.
Qed.

(** C8.  The resolver does not look at the subscription status.  For a
    tenant that is suspended or cancelled, the lookup by tenant-id header
    on a non-public path succeeds as for any other tenant, and the
    active schema becomes the tenant's schema name.  More generally no
    step of [process_request] gates on the status: whatever subscription
    status and activity flag the tenants are given (in the tenant table,
    in the rows the domain table joins and behind the user's
    membership), the request has the same outcome, the same active
    schema, and when it completes the connection holds the same tenant
    with the other status. *)
Theorem inactive_tenant_still_resolves :
  forall (reg : Models.Registry) (request : Middleware.Request)
         (w : Middleware.Worker),
    (forall (h : string) (n : Z) (t : Models.Tenant),
        Models.subscription_status t = Models.SUSPENDED
          \/ Models.subscription_status t = Models.CANCELLED ->
        Middleware.is_public (Middleware.path_info request) = false ->
        Middleware.x_tenant_id request = Some h ->
        Py.int h = Some n ->
        Models.get_by_id reg n = Models.Found t ->
        fst (Middleware.process_request reg request w) = Ok tt
        /\ DjangoTenants.tenant
             (Middleware.connection (snd (Middleware.process_request reg request w)))
           = Some (DjangoTenants.Row t)
        /\ Middleware.active_schema (snd (Middleware.process_request reg request w))
           = Models.schema_name t)
    /\ (forall (status : Models.Tenant -> Models.SubscriptionStatus)
               (active : Models.Tenant -> bool),
          fst (Middleware.process_request
                 (Sample.relabel_registry status active reg)
                 (Sample.relabel_request status active request) w)
          = fst (Middleware.process_request reg request w)
          /\ Middleware.active_schema
               (snd (Middleware.process_request
                       (Sample.relabel_registry status active reg)
                       (Sample.relabel_request status active request) w))
             = Middleware.active_schema
                 (snd (Middleware.process_request reg request w))
          /\ (fst (Middleware.process_request reg request w) = Ok tt ->
              DjangoTenants.tenant
                (Middleware.connection
                   (snd (Middleware.process_request
                           (Sample.relabel_registry status active reg)
                           (Sample.relabel_request status active request) w)))
              = option_map (Sample.relabel_like status active)
                  (DjangoTenants.tenant
                     (Middleware.connection
                        (snd (Middleware.process_request reg request w)))))).
Proof.
  intros reg request w. split.
  - intros h n t _ Hpub Hh Hint Hget.
    unfold Middleware.process_request. rewrite Hpub.
    rewrite (header_found reg request w h n t Hh Hint Hget).
    repeat split.
  - intros status active. apply process_request_relabelled.
Qed.

Lemma inactive_tenant_still_resolves_witness :
  (fst (Middleware.process_request Sample.registry
          (Sample.request "/api/v1/patients/" (Some "2")) Sample.worker) = Ok tt
   /\ DjangoTenants.tenant
        (Middleware.connection
           (snd (Middleware.process_request Sample.registry
                   (Sample.request "/api/v1/patients/" (Some "2")) Sample.worker)))
      = Some (DjangoTenants.Row Sample.tenant_b)
   /\ Middleware.active_schema
        (snd (Middleware.process_request Sample.registry
                (Sample.request "/api/v1/patients/" (Some "2")) Sample.worker))
      = Models.schema_name Sample.tenant_b)
  /\ Middleware.active_schema
       (snd (Middleware.process_request
               (Sample.relabel_registry (fun _ => Models.CANCELLED) (fun _ => false)
                  Sample.registry)
               (Sample.relabel_request (fun _ => Models.CANCELLED) (fun _ => false)
                  (Sample.request "/api/v1/patients/" (Some "1")))
               Sample.worker))
     = "tenant_stm1234".
Proof.
  destruct (inactive_tenant_still_resolves Sample.registry
              (Sample.request "/api/v1/patients/" (Some "2")) Sample.worker)
    as [Hheader _].
  destruct (inactive_tenant_still_resolves Sample.registry
              (Sample.request "/api/v1/patients/" (Some "1")) Sample.worker)
    as [_ Hblind].
  split.
  - apply (Hheader "2" 2 Sample.tenant_b);
      [left; reflexivity | reflexivity ..].
  - destruct (Hblind (fun _ => Models.CANCELLED) (fun _ => false)) as (_ & -> & _).
    reflexivity.
Defined.

(** ** Two requests on one worker *)

(** Given the rows its reads return, what [process_request] returns,
    and the connection it leaves when it returns normally, do not depend
    on the state the worker was in. *)
Lemma process_request_fresh_connection
    (reg : Models.Registry) (request : Middleware.Request)
    (w w' : Middleware.Worker) :
  fst (Middleware.process_request reg request w)
    = fst (Middleware.process_request reg request w')
  /\ (fst (Middleware.process_request reg request w) = Ok tt ->
      Middleware.connection (snd (Middleware.process_request reg request w))
      = Middleware.connection (snd (Middleware.process_request reg request w'))).
Proof.
  unfold Middleware.process_request, Middleware.from_header,
    Middleware.from_test_tenant, Middleware.from_user,
    Middleware.from_membership, Middleware.from_domain,
    DjangoTenants.process_request, Middleware.resolve_to,
    Middleware.resolve_public.
  repeat case_innermost;
    simpl; split; try reflexivity; intros; try discriminate; reflexivity.
Qed.






(** Given the rows its reads return, [Thread.process_request] is
    [Middleware.process_request]. *)
Lemma process_request_as_read
    (db : Thread.Database) (request : Thread.Request) (w : Middleware.Worker)
    (reg : Models.Registry) (read : Middleware.Request) :
  Thread.as_read (Thread.visible db (Middleware.connection w)) request
  = Some (reg, read) ->
  Thread.process_request db request w = Middleware.process_request reg read w.
Proof.
  intros H. unfold Thread.as_read, Thread.membership in H.
  unfold Thread.process_request, Thread.from_header,
    Thread.from_test_tenant, Thread.from_user,
    Thread.from_membership, Thread.from_domain, Thread.Tenant_objects_get,
    Middleware.process_request, Middleware.from_header,
    Middleware.from_test_tenant, Middleware.from_user,
    Middleware.from_membership, Middleware.from_domain,
    Models.get_by_id, Models.get_by_code.
  destruct (Thread.visible db (Middleware.connection w)) as [[ts|] [ds|] ms];
    simpl in H; try discriminate.
  destruct request as [path header [u|] hostname]; simpl in H.
  - destruct ms as [ms|]; [|discriminate].
    destruct (Models.objects_get (Thread.belongs_to u) ms) as [r| |] eqn:Em;
      [destruct (Models.objects_get
                   (fun t => Models.id t =? Thread.membership_tenant_id r) ts)
         as [t| |] eqn:Et|..];
      try discriminate; inversion H; subst; clear H; simpl;
      repeat (first [rewrite Em | rewrite Et | case_innermost]);
      try reflexivity; try congruence.
  - inversion H; subst; clear H; simpl.
    repeat case_innermost; try reflexivity; try congruence.
Qed.



(** The condition on the reads cannot be dropped.  Where the schema of
    a tenant holds a membership table of its own, the request of a user
    without header and without claim is resolved through the table the
    previous request left on the search path: after a request that
    resolved to tenant 1 it ends on the schema of tenant 2, after a
    request on a public path it ends on public. *)
Lemma first_request_reaches_second_request :
  Middleware.active_schema
    (snd (Thread.process_request Sample.shadowed
            (Sample.thread_request "/api/v1/patients/" None
               (Some (Thread.mkUser true None 5)))
            (snd (Thread.call Sample.idle_view Sample.shadowed
                    (Sample.thread_request "/api/v1/patients/" (Some "1") None)
                    Sample.worker))))
  = "tenant_gen5678"
  /\ Middleware.active_schema
       (snd (Thread.process_request Sample.shadowed
               (Sample.thread_request "/api/v1/patients/" None
                  (Some (Thread.mkUser true None 5)))
               (snd (Thread.call Sample.idle_view Sample.shadowed
                       (Sample.thread_request "/api/v1/auth/login/" None None)
                       Sample.worker))))
     = "public".
Proof. split; reflexivity. Qed.

(** The thread-local tenant is written on the branches that resolve to
    a tenant and on no other: a request on a public path that follows a
    tenant request runs on the public schema while
    [get_current_tenant()] still answers with the earlier tenant. *)
Lemma thread_local_survives_public_request :
  Middleware.process_request Sample.registry
    (Sample.request "/api/v1/auth/login/" None)
    (snd (Middleware.call Sample.idle_view Sample.registry
            (Sample.request "/api/v1/patients/" (Some "1")) Sample.worker))
  = (Ok tt,
     Middleware.mkWorker (Some Sample.tenant_a)
       (DjangoTenants.mkConnection (Some (DjangoTenants.FakeTenant "public")) "public")).
Proof. reflexivity. Qed.

(** ** Saving a tenant and looking it up again *)

Lemma filter_map_stable {A} (p : A -> bool) (f : A -> A) (l : list A) :
  (forall x, p (f x) = p x) ->
  filter p (map f l) = map f (filter p l).
Proof.
  intros Hp. induction l as [|x l IH]; simpl; [reflexivity|].
  rewrite Hp. destruct (p x); simpl; rewrite IH; reflexivity.
Qed.

Lemma objects_get_found_filter {A} (cond : A -> bool) rows a :
  Models.objects_get cond rows = Models.Found a -> filter cond rows = [a].
Proof.
  unfold Models.objects_get.
  destruct (filter cond rows) as [|x [|y l]]; intros H; inversion H; reflexivity.
Qed.

(** After [t'.save()], the lookup by the primary key of [t'] gives [t'],
    provided the key named exactly one row before. *)
Lemma get_by_id_save reg pk t t' :
  Models.get_by_id reg pk = Models.Found t ->
  Models.id t' = pk ->
  Models.get_by_id (Models.save t' reg) pk = Models.Found t'.
Proof.
  intros Hget Hid.
  pose proof (get_by_id_found_id _ _ _ Hget) as Hidt.
  apply objects_get_found_filter in Hget.
  unfold Models.get_by_id, Models.objects_get, Models.save. simpl.
  rewrite filter_map_stable.
  - rewrite Hget. simpl. rewrite Hid, <- Hidt, Z.eqb_refl. reflexivity.
  - intros x. destruct (Models.id x =? Models.id t') eqn:E; [|reflexivity].
    apply Z.eqb_eq in E. rewrite Hid at 1. rewrite E, Hid. reflexivity.
Qed.

(** ** The lifecycle actions *)

Section Lifecycle.
Import Models Views.

Variable icontains : string -> string -> bool.
Variable nul_error : exn.
Variable params : QueryParams.
Variable site : Site.
Variable pk : Z.
Variable t : Tenant.
Hypothesis Hrow : get_by_id (registry site) pk = Found t.

(** The lookup in the queryset, for a primary key that names one row
    of the table: the row when the filters show it, nothing otherwise. *)
Lemma queryset_lookup :
  objects_get (fun r => id r =? pk) (get_queryset icontains params site)
  = if shown icontains params t then Found t else DoesNotExist.
Proof.
  unfold objects_get, get_queryset.
  assert (filter (fun r => id r =? pk)
                 (filter (shown icontains params) (tenants (registry site)))
          = filter (shown icontains params)
                   (filter (fun r => id r =? pk) (tenants (registry site)))) as ->.
  { induction (tenants (registry site)) as [|x l IH]; simpl; [reflexivity|].
    destruct (shown icontains params x) eqn:Es; destruct (id x =? pk) eqn:Ei;
      simpl; rewrite ?Es, ?Ei, IH; reflexivity. }
  unfold get_by_id in Hrow. rewrite (objects_get_found_filter _ _ _ Hrow).
  simpl. destruct (shown icontains params t); reflexivity.
Qed.

Hypothesis Hclean : clean params = true.

Lemma get_object_hidden :
  shown icontains params t = false ->
  get_object icontains nul_error params pk site = (Raise Py.Http404, site).
Proof.
  intros Hs. unfold get_object. rewrite Hclean, queryset_lookup, Hs. reflexivity.
Qed.

Hypothesis Hshown : shown icontains params t = true.

Lemma get_object_found :
  get_object icontains nul_error params pk site = (Ok t, site).
Proof.
  unfold get_object. rewrite Hclean, queryset_lookup, Hshown. reflexivity.
Qed.

Lemma assign_id st a : id (assign st a t) = pk.
Proof. simpl. exact (get_by_id_found_id _ _ _ Hrow). Qed.

Lemma stored_after_save st a log :
  stored_status (mkSite (save (assign st a t) (registry site)) log) pk = Some st.
Proof.
  unfold stored_status. simpl.
  rewrite (get_by_id_save _ pk t (assign st a t) Hrow (assign_id st a)).
  reflexivity.
Qed.

Lemma activate_unconditional :
  fst (activate icontains nul_error params pk site)
    = Ok (mkResponse 200 "Tenant activated successfully")
  /\ stored_status (snd (activate icontains nul_error params pk site)) pk
     = Some ACTIVE.
Proof.
  unfold activate, Eff.bind. rewrite get_object_found. simpl.
  split; [reflexivity | apply stored_after_save].
Qed.

Lemma suspend_unconditional :
  fst (suspend icontains nul_error params pk site)
    = Ok (mkResponse 200 "Tenant suspended successfully")
  /\ stored_status (snd (suspend icontains nul_error params pk site)) pk
     = Some SUSPENDED.
Proof.
  unfold suspend, Eff.bind. rewrite get_object_found. simpl.
  split; [reflexivity | apply stored_after_save].
Qed.

Lemma cancel_unconditional :
  fst (cancel icontains nul_error params pk site)
    = Ok (mkResponse 200 "Tenant subscription cancelled")
  /\ stored_status (snd (cancel icontains nul_error params pk site)) pk
     = Some CANCELLED.
Proof.
  unfold cancel, Eff.bind. rewrite get_object_found. simpl.
  split; [reflexivity | apply stored_after_save].
Qed.

End Lifecycle.

(** Without query parameters the queryset shows every tenant. *)
Lemma no_params_show_all icontains (t : Models.Tenant) :
  Views.shown icontains Views.no_params t = true.
Proof. reflexivity. Qed.

(** C6, as stated, fails: [activate] has no guard.  On the expired
    tenant 3 it answers with success and the stored status changes from
    expired to active. *)
Lemma activate_accepts_expired_tenant :
  Views.stored_status (Views.mkSite Sample.registry []) 3 = Some Models.EXPIRED
  /\ fst (Views.activate Sample.icontains Py.Http404 Views.no_params 3
            (Views.mkSite Sample.registry []))
     = Ok (Views.mkResponse 200 "Tenant activated successfully")
  /\ Views.stored_status
       (snd (Views.activate Sample.icontains Py.Http404 Views.no_params 3
               (Views.mkSite Sample.registry []))) 3
     = Some Models.ACTIVE.
Proof. repeat split. Qed.

(** C6, amended.  The lifecycle actions check no transition.  For an
    existing tenant in any subscription status, expired and cancelled
    included, that the queryset of the request shows, [activate],
    [suspend] and [cancel] answer with success and store the status
    active, suspended and cancelled.  The queryset shows every tenant
    when the request has no query parameters; the parameters [status],
    [nhis_accreditation] and [search] of the request narrow it, and for
    a tenant they filter out each action answers 404 and stores
    nothing.  So the one way in which the tenant's current status makes
    an action fail is a [status] parameter of the request that names
    another status. *)
Theorem lifecycle_actions_check_no_transition :
  forall (icontains : string -> string -> bool) (nul_error : exn)
         (params : Views.QueryParams)
         (site : Views.Site) (pk : Z) (t : Models.Tenant),
    Models.get_by_id (Views.registry site) pk = Models.Found t ->
    Views.clean params = true ->
    (Views.shown icontains params t = true ->
     (fst (Views.activate icontains nul_error params pk site)
        = Ok (Views.mkResponse 200 "Tenant activated successfully")
      /\ Views.stored_status
           (snd (Views.activate icontains nul_error params pk site)) pk
         = Some Models.ACTIVE)
     /\ (fst (Views.suspend icontains nul_error params pk site)
           = Ok (Views.mkResponse 200 "Tenant suspended successfully")
         /\ Views.stored_status
              (snd (Views.suspend icontains nul_error params pk site)) pk
            = Some Models.SUSPENDED)
     /\ (fst (Views.cancel icontains nul_error params pk site)
           = Ok (Views.mkResponse 200 "Tenant subscription cancelled")
         /\ Views.stored_status
              (snd (Views.cancel icontains nul_error params pk site)) pk
            = Some Models.CANCELLED))
    /\ (Views.shown icontains params t = false ->
        Views.activate icontains nul_error params pk site = (Raise Py.Http404, site)
        /\ Views.suspend icontains nul_error params pk site = (Raise Py.Http404, site)
        /\ Views.cancel icontains nul_error params pk site = (Raise Py.Http404, site))
    /\ Views.shown icontains Views.no_params t = true
    /\ (Views.shown icontains params t = false ->
        Views.param_nhis_accreditation params = None ->
        Views.param_search params = None ->
        exists status_filter,
          Views.param_status params = Some status_filter
          /\ status_filter <> Models.status_value (Models.subscription_status t)).
Proof.
  intros icontains nul_error params site pk t Hrow Hclean.
  split; [|split; [|split]].
  - intros Hshown. split; [|split].
    + exact (activate_unconditional icontains nul_error params site pk t
               Hrow Hclean Hshown).
    + exact (suspend_unconditional icontains nul_error params site pk t
               Hrow Hclean Hshown).
    + exact (cancel_unconditional icontains nul_error params site pk t
               Hrow Hclean Hshown).
  - intros Hhidden.
    pose proof (get_object_hidden icontains nul_error params site pk t
                  Hrow Hclean Hhidden) as Hobj.
    unfold Views.activate, Views.suspend, Views.cancel, Eff.bind.
    rewrite Hobj. repeat split.
  - reflexivity.
  - intros Hhidden Hn Hs. unfold Views.shown in Hhidden.
    rewrite Hn, Hs in Hhidden. simpl in Hhidden.
    rewrite !andb_true_r in Hhidden.
    destruct (Views.param_status params) as [v|]; simpl in Hhidden;
      [|discriminate].
    exists v. split; [reflexivity|].
    destruct (Py.truthy v); [|discriminate].
    intros ->. rewrite String.eqb_refl in Hhidden. discriminate.
Qed.

Lemma lifecycle_actions_check_no_transition_witness :
  (fst (Views.activate Sample.icontains Py.Http404 Views.no_params 3
          (Views.mkSite Sample.registry []))
     = Ok (Views.mkResponse 200 "Tenant activated successfully")
   /\ Views.stored_status
        (snd (Views.activate Sample.icontains Py.Http404 Views.no_params 3
                (Views.mkSite Sample.registry []))) 3
      = Some Models.ACTIVE)
  /\ (fst (Views.suspend Sample.icontains Py.Http404 Views.no_params 3
             (Views.mkSite Sample.registry []))
        = Ok (Views.mkResponse 200 "Tenant suspended successfully")
      /\ Views.stored_status
           (snd (Views.suspend Sample.icontains Py.Http404 Views.no_params 3
                   (Views.mkSite Sample.registry []))) 3
         = Some Models.SUSPENDED)
  /\ (fst (Views.cancel Sample.icontains Py.Http404 Views.no_params 3
             (Views.mkSite Sample.registry []))
        = Ok (Views.mkResponse 200 "Tenant subscription cancelled")
      /\ Views.stored_status
           (snd (Views.cancel Sample.icontains Py.Http404 Views.no_params 3
                   (Views.mkSite Sample.registry []))) 3
         = Some Models.CANCELLED).
Proof.
  apply (lifecycle_actions_check_no_transition Sample.icontains Py.Http404
           Views.no_params (Views.mkSite Sample.registry []) 3 Sample.tenant_c);
    reflexivity.
Defined.

(** After [suspend] and after [cancel], the header lookup still
    resolves to the tenant's schema. *)
Lemma resolution_after_status_change
    (reg : Models.Registry) (request : Middleware.Request) (w : Middleware.Worker)
    (h : string) (pk : Z) (t : Models.Tenant)
    (st : Models.SubscriptionStatus) (a : bool) :
  Models.get_by_id reg pk = Models.Found t ->
  Middleware.is_public (Middleware.path_info request) = false ->
  Middleware.x_tenant_id request = Some h ->
  Py.int h = Some pk ->
  fst (Middleware.process_request (Models.save (Views.assign st a t) reg) request w)
    = Ok tt
  /\ Middleware.active_schema
       (snd (Middleware.process_request
               (Models.save (Views.assign st a t) reg) request w))
     = Models.schema_name t.
Proof.
  intros Hrow Hpub Hh Hint.
  assert (Models.get_by_id (Models.save (Views.assign st a t) reg) pk
          = Models.Found (Views.assign st a t)) as Hget.
  { apply (get_by_id_save _ pk t); [exact Hrow|].
    simpl. exact (get_by_id_found_id _ _ _ Hrow). }
  unfold Middleware.process_request. rewrite Hpub.
  rewrite (header_found _ request w h pk _ Hh Hint Hget).
  split; reflexivity.
Qed.

(** What an action leaves in the tenant table: the table as it was
    (the answers 404 and the error of a NUL character), or the table
    with the tenant's row saved with a new status. *)
Lemma registry_after_action
    (icontains : string -> string -> bool) (nul_error : exn)
    (params : Views.QueryParams) (site : Views.Site) (pk : Z) (t : Models.Tenant) :
  Models.get_by_id (Views.registry site) pk = Models.Found t ->
  forall act,
    In act [Views.suspend icontains nul_error params pk;
            Views.activate icontains nul_error params pk;
            Views.cancel icontains nul_error params pk] ->
    Views.registry (snd (act site)) = Views.registry site
    \/ exists st a,
        Views.registry (snd (act site))
        = Models.save (Views.assign st a t) (Views.registry site).
Proof.
  intros Hrow act Hact.
  pose proof (queryset_lookup icontains params site pk t Hrow) as Hq.
  simpl in Hact.
  destruct Hact as [<- | [<- | [<- | []]]];
    unfold Views.suspend, Views.activate, Views.cancel, Eff.bind, Views.get_object;
    destruct (Views.clean params); simpl; try (left; reflexivity);
    rewrite Hq; destruct (Views.shown icontains params t); simpl;
    try (left; reflexivity); right; eexists; eexists; reflexivity.
Qed.

Lemma resolution_after_suspend_or_cancel
    (icontains : string -> string -> bool) (nul_error : exn)
    (params : Views.QueryParams)
    (site : Views.Site) (request : Middleware.Request) (w : Middleware.Worker)
    (h : string) (pk : Z) (t : Models.Tenant) :
  Models.get_by_id (Views.registry site) pk = Models.Found t ->
  Middleware.is_public (Middleware.path_info request) = false ->
  Middleware.x_tenant_id request = Some h ->
  Py.int h = Some pk ->
  forall act,
    In act [Views.suspend icontains nul_error params pk;
            Views.activate icontains nul_error params pk;
            Views.cancel icontains nul_error params pk] ->
    fst (Middleware.process_request (Views.registry (snd (act site))) request w)
      = Ok tt
    /\ Middleware.active_schema
         (snd (Middleware.process_request
                 (Views.registry (snd (act site))) request w))
       = Models.schema_name t.
Proof.
  intros Hrow Hpub Hh Hint act Hact.
  destruct (registry_after_action icontains nul_error params site pk t Hrow act Hact)
    as [-> | (st & a & ->)].
  - unfold Middleware.process_request. rewrite Hpub.
    rewrite (header_found _ request w h pk t Hh Hint Hrow).
    split; reflexivity.
  - apply (resolution_after_status_change _ request w h pk t _ _ Hrow Hpub Hh Hint).
Qed.

(** ** The schema catalogue *)

Section Catalogue.
Import Sql.

Lemma add_table_name n t s : schema_name (add_table n t s) = schema_name s.
Proof. unfold add_table. destruct (_ && _); reflexivity. Qed.

Lemma names_add_table n t l :
  map schema_name (map (add_table n t) l) = map schema_name l.
Proof.
  rewrite map_map. apply map_ext. intros s. apply add_table_name.
Qed.

Lemma has_table_last t ts : existsb (String.eqb t) (ts ++ [t]) = true.
Proof.
  rewrite existsb_app. simpl. rewrite String.eqb_refl.
  rewrite orb_true_r. reflexivity.
Qed.

Lemma add_table_idem n t s : add_table n t (add_table n t s) = add_table n t s.
Proof.
  assert (add_table n t s = if String.eqb (schema_name s) n && negb (has_table t s)
                            then mkSchema (schema_name s) (tables s ++ [t])
                            else s) as -> by reflexivity.
  destruct (String.eqb (schema_name s) n && negb (has_table t s)) eqn:E.
  - unfold add_table, has_table. simpl. rewrite has_table_last.
    rewrite andb_false_r. reflexivity.
  - unfold add_table. rewrite E. reflexivity.
Qed.

Lemma has_schema_In name db : has_schema name db = true <-> In name (names db).
Proof.
  unfold has_schema. rewrite existsb_exists. split.
  - intros (x & Hin & Heq). apply String.eqb_eq in Heq. subst. exact Hin.
  - intros Hin. exists name. split; [exact Hin | apply String.eqb_refl].
Qed.

Lemma fetchone_select name db :
  fetchone (filter (String.eqb name) (names db)) = has_schema name db.
Proof.
  unfold has_schema. generalize (names db). intros l.
  induction l as [|x l IH]; simpl; [reflexivity|].
  destruct (String.eqb name x); simpl; [reflexivity | exact IH].
Qed.

(** Creating a schema that is absent keeps the catalogue free of
    duplicates and makes the schema present. *)
Lemma create_absent_nodup name l :
  existsb (String.eqb name) (map schema_name l) = false ->
  NoDup (map schema_name l) ->
  NoDup (map schema_name (l ++ [mkSchema name []])).
Proof.
  intros Habs Hnd. rewrite map_app. simpl.
  apply NoDup_app; [exact Hnd | repeat constructor; intros [] | ].
  intros x Hin [<-|[]].
  assert (existsb (String.eqb name) (map schema_name l) = true) as Hex.
  { apply existsb_exists. exists name. split; [exact Hin | apply String.eqb_refl]. }
  congruence.
Qed.

End Catalogue.

(** ** Provisioning *)

Section Provisioning.
Import Sql.

Variable name : string.
Variable db : Database.

(** After [CREATE SCHEMA IF NOT EXISTS name] the schema is present. *)
Lemma ensured_present :
  existsb (String.eqb name)
    (map schema_name (schemas (snd (execute (CREATE_SCHEMA true name) db)))) = true.
Proof.
  unfold execute, has_schema, names.
  destruct (existsb (String.eqb name) (map schema_name (schemas db))) eqn:E;
    simpl; [exact E|].
  rewrite map_app, existsb_app. simpl. rewrite String.eqb_refl.
  rewrite orb_true_r. reflexivity.
Qed.

(** It adds no duplicate. *)
Lemma ensured_nodup :
  NoDup (names db) ->
  NoDup (map schema_name (schemas (snd (execute (CREATE_SCHEMA true name) db)))).
Proof.
  unfold execute, has_schema, names. intros Hnd.
  destruct (existsb (String.eqb name) (map schema_name (schemas db))) eqn:E;
    simpl; [exact Hnd|].
  apply create_absent_nodup; assumption.
Qed.

End Provisioning.

Section Holding.
Import Sql.

(** Whether a schema holds a table is a matter of the schemas, not of
    the search path. *)
Lemma holds_schemas name t (l : list Schema) p q :
  holds name t (mkDatabase l p) = holds name t (mkDatabase l q).
Proof. reflexivity. Qed.

Lemma holds_schemas_of name t (d : Database) p :
  holds name t (mkDatabase (schemas d) p) = holds name t d.
Proof. reflexivity. Qed.

(** [CREATE SCHEMA] adds at most an empty schema. *)
Lemma holds_after_create_schema b name key t db :
  holds key t (snd (execute (CREATE_SCHEMA b name) db)) = holds key t db.
Proof.
  unfold execute. destruct (has_schema name db); [destruct b; reflexivity|].
  unfold holds. simpl. rewrite existsb_app. simpl.
  rewrite andb_false_r. rewrite !orb_false_r. reflexivity.
Qed.

(** Once added, the table is held. *)
Lemma holds_after_add_table key t (l : list Schema) p :
  existsb (String.eqb key) (map schema_name l) = true ->
  holds key t (mkDatabase (map (add_table key t) l) p) = true.
Proof.
  unfold holds. simpl. intros H.
  apply existsb_exists in H as (n & Hin & Hn). apply String.eqb_eq in Hn. subst n.
  apply in_map_iff in Hin as (s0 & Hs0 & Hin).
  apply existsb_exists. exists (add_table key t s0). split.
  - apply in_map. exact Hin.
  - rewrite add_table_name, Hs0, String.eqb_refl. simpl.
    unfold add_table. rewrite Hs0, String.eqb_refl. simpl.
    destruct (has_table t s0) eqn:E; simpl; [exact E|].
    unfold has_table. simpl. apply has_table_last.
Qed.

(** [CREATE SCHEMA IF NOT EXISTS] of a schema that is there. *)
Lemma create_present_same key (l : list Schema) p :
  existsb (String.eqb key) (map schema_name l) = true ->
  schemas (snd (execute (CREATE_SCHEMA true key) (mkDatabase l p))) = l.
Proof.
  intros Hl. unfold execute, has_schema, names. simpl. rewrite Hl. reflexivity.
Qed.

End Holding.

(** What [utils.create_tenant_schema] returns and leaves behind, for a
    schema name the server reads as [key].  The schema is there
    afterwards in each case.  When it holds the tenant user table
    already, nothing else is done.  When it does not, the table is
    created if the schema holds [tenants_tenant], the table the new one
    references; if it does not, [CREATE TABLE] fails, and the search
    path stays on the tenant's schema. *)
Lemma create_tenant_schema_run
    (server : Sql.statement -> Eff.M Sql.Database (list string))
    (tenant : Models.Tenant) (key : string) (db : Sql.Database) :
  Sql.unquoted (Models.schema_name tenant) = Some key ->
  Utils.create_tenant_schema server tenant db
  = if Sql.holds key "tenants_tenantuser" db then
      (Ok (Models.schema_name tenant),
       Sql.mkDatabase
         (Sql.schemas (snd (Sql.execute (Sql.CREATE_SCHEMA true key) db)))
         "public")
    else if Sql.holds key "tenants_tenant" db then
      (Ok (Models.schema_name tenant),
       Sql.mkDatabase
         (map (Sql.add_table key "tenants_tenantuser")
              (Sql.schemas (snd (Sql.execute (Sql.CREATE_SCHEMA true key) db))))
         "public")
    else
      (Raise Py.ProgrammingError,
       Sql.mkDatabase
         (Sql.schemas (snd (Sql.execute (Sql.CREATE_SCHEMA true key) db)))
         key).
Proof.
  intros Hkey.
  pose proof (ensured_present key db) as Hp.
  pose proof (holds_after_create_schema true key key "tenants_tenantuser" db) as Hu.
  pose proof (holds_after_create_schema true key key "tenants_tenant" db) as Ht.
  unfold Utils.create_tenant_schema, Sql.execute_f. rewrite Hkey.
  unfold Eff.bind, Eff.ret.
  destruct (Sql.execute (Sql.CREATE_SCHEMA true key) db) as [[rows|e] d1] eqn:E1.
  2:{ unfold Sql.execute in E1.
      destruct (Sql.has_schema key db); discriminate. }
  simpl in Hp, Hu, Ht. simpl.
  unfold Sql.has_schema, Sql.names. simpl. rewrite Hp.
  rewrite !holds_schemas_of, Hu, Ht, andb_true_r.
  destruct (Sql.holds key "tenants_tenantuser" db); [reflexivity|].
  destruct (Sql.holds key "tenants_tenant" db); reflexivity.
Qed.

(** A second call does what the first did, and changes nothing but the
    search path. *)
Lemma create_tenant_schema_twice
    (server : Sql.statement -> Eff.M Sql.Database (list string))
    (tenant : Models.Tenant) (key : string) (db : Sql.Database) :
  Sql.unquoted (Models.schema_name tenant) = Some key ->
  Py.is_ok (fst (Utils.create_tenant_schema server tenant
                   (snd (Utils.create_tenant_schema server tenant db))))
  = Py.is_ok (fst (Utils.create_tenant_schema server tenant db))
  /\ Sql.schemas (snd (Utils.create_tenant_schema server tenant
                        (snd (Utils.create_tenant_schema server tenant db))))
     = Sql.schemas (snd (Utils.create_tenant_schema server tenant db))
  /\ Sql.has_schema key (snd (Utils.create_tenant_schema server tenant db)) = true
  /\ (NoDup (Sql.names db) ->
      NoDup (Sql.names (snd (Utils.create_tenant_schema server tenant db)))).
Proof.
  intros Hkey.
  pose proof (ensured_present key db) as Hp.
  pose proof (ensured_nodup key db) as Hnd.
  pose proof (holds_after_create_schema true key key "tenants_tenantuser" db) as Hu.
  pose proof (holds_after_create_schema true key key "tenants_tenant" db) as Ht.
  rewrite (create_tenant_schema_run server tenant key _ Hkey).
  rewrite (create_tenant_schema_run server tenant key db Hkey).
  set (d1 := snd (Sql.execute (Sql.CREATE_SCHEMA true key) db)) in *.
  assert (forall l p, existsb (String.eqb key) (map Sql.schema_name l) = true ->
            Sql.schemas (snd (Sql.execute (Sql.CREATE_SCHEMA true key)
                                (Sql.mkDatabase l p))) = l) as Hsame.
  { intros l p Hl. unfold Sql.execute, Sql.has_schema, Sql.names. simpl.
    rewrite Hl. reflexivity. }
  destruct (Sql.holds key "tenants_tenantuser" db) eqn:Eu.
  - cbn [fst snd]. rewrite holds_schemas_of, Hu. cbn [fst snd Py.is_ok].
    rewrite (Hsame _ "public" Hp). unfold Sql.has_schema, Sql.names.
    cbn [Sql.schemas]. auto.
  - destruct (Sql.holds key "tenants_tenant" db) eqn:Et.
    + cbn [fst snd].
      rewrite (holds_after_add_table key "tenants_tenantuser" _ "public" Hp).
      cbn [fst snd Py.is_ok].
      rewrite Hsame by (rewrite names_add_table; exact Hp).
      unfold Sql.has_schema, Sql.names. cbn [Sql.schemas].
      rewrite names_add_table. auto.
    + cbn [fst snd]. rewrite !holds_schemas_of, Hu, Ht. cbn [fst snd Py.is_ok].
      rewrite (Hsame _ key Hp). unfold Sql.has_schema, Sql.names.
      cbn [Sql.schemas]. auto.
Qed.

Section CreateCommand.
Import Models Commands.

Variable server : Sql.statement -> Eff.M Sql.Database (list string).
Variable migrate : string -> Eff.M Sql.Database unit.

(** The migration runner creates and alters tables; it leaves the list
    of schemas as it is, also when it fails. *)
Hypothesis migrate_keeps_schemas :
  forall s d, Sql.names (snd (migrate s d)) = Sql.names d.

Variable tenant_id : Z.
Variable tenant : Tenant.

(** On a catalogue that has the schema under the name as it is
    written, the command reports it and returns; the catalogue is not
    touched. *)
Lemma handle_existing (env : Env) :
  get_by_id (registry env) tenant_id = Found tenant ->
  Sql.has_schema (schema_name tenant) (db env) = true ->
  create_tenant_schema.handle server migrate tenant_id env
  = (Ok tt,
     mkEnv (registry env) (db env) (stdin env)
           (stdout env ++ ["Schema " ++ schema_name tenant ++ " already exists"])
           (stderr env)).
Proof.
  intros Hget Hhas. destruct env as [reg d i o e]. simpl in *.
  unfold create_tenant_schema.handle, Eff.bind, Eff.get. simpl. rewrite Hget.
  unfold cursor_execute, Eff.zoom. simpl.
  rewrite fetchone_select, Hhas. reflexivity.
Qed.

(** For a schema name that the catalogue stores as it is written:
    whatever the first run does (report, create and migrate, or fail in
    the migration), the tenant table is as before and the schema is in
    the catalogue afterwards, once. *)
Lemma handle_first (env : Env) :
  get_by_id (registry env) tenant_id = Found tenant ->
  Sql.unquoted (schema_name tenant) = Some (schema_name tenant) ->
  registry (snd (create_tenant_schema.handle server migrate tenant_id env))
  = registry env
  /\ Sql.has_schema (schema_name tenant)
       (db (snd (create_tenant_schema.handle server migrate tenant_id env))) = true
  /\ (NoDup (Sql.names (db env)) ->
      NoDup (Sql.names
               (db (snd (create_tenant_schema.handle server migrate tenant_id env))))).
Proof.
  intros Hget Hkey. destruct env as [reg d i o e]. simpl in *.
  unfold create_tenant_schema.handle, Eff.bind, Eff.get. simpl. rewrite Hget.
  unfold cursor_execute, cursor_execute_f, Eff.zoom, Sql.execute_f. simpl.
  rewrite Hkey. simpl.
  rewrite fetchone_select.
  destruct (Sql.has_schema (schema_name tenant) d) eqn:E; simpl.
  - auto.
  - rewrite ?E. simpl.
    match goal with
    | |- context [migrate ?s ?d0] =>
        pose proof (migrate_keeps_schemas s d0) as Hm;
        destruct (migrate s d0) as [r dm]
    end.
    simpl in Hm.
    assert (Sql.has_schema (schema_name tenant) dm = true) as Hhas.
    { unfold Sql.has_schema. rewrite Hm. unfold Sql.names. simpl.
      rewrite map_app, existsb_app. simpl. rewrite String.eqb_refl.
      rewrite orb_true_r. reflexivity. }
    assert (NoDup (Sql.names d) -> NoDup (Sql.names dm)) as Hnd.
    { intros H. rewrite Hm. unfold Sql.names. simpl.
      apply create_absent_nodup; assumption. }
    destruct r; simpl; auto.
Qed.

Lemma handle_twice (env : Env) :
  get_by_id (registry env) tenant_id = Found tenant ->
  Sql.unquoted (schema_name tenant) = Some (schema_name tenant) ->
  fst (create_tenant_schema.handle server migrate tenant_id
         (snd (create_tenant_schema.handle server migrate tenant_id env))) = Ok tt
  /\ db (snd (create_tenant_schema.handle server migrate tenant_id
                (snd (create_tenant_schema.handle server migrate tenant_id env))))
     = db (snd (create_tenant_schema.handle server migrate tenant_id env))
  /\ (NoDup (Sql.names (db env)) ->
      NoDup (Sql.names
               (db (snd (create_tenant_schema.handle server migrate tenant_id env))))).
Proof.
  intros Hget Hkey.
  destruct (handle_first env Hget Hkey) as (Hreg & Hhas & Hnd).
  rewrite <- Hreg in Hget.
  rewrite (handle_existing _ Hget Hhas). simpl. auto.
Qed.

End CreateCommand.

(** C7.  Provisioning by [utils.create_tenant_schema] is not idempotent
    in the sense of the claim: on a schema that is new, or that holds
    neither the tenant user table nor a table [tenants_tenant] of its
    own, the call fails, the first time and the second.
    [CREATE TABLE ... REFERENCES tenants_tenant(id)] is issued after the
    search path has been set to the tenant's schema, where the referenced
    table is not found.  No duplicate schema arises and the second call
    changes nothing, but it does not complete: the schema stays without
    the table and the search path stays on the tenant's schema.  The
    call completes, the first time and the second, exactly when the
    schema holds the tenant user table or [tenants_tenant] beforehand.
    The management command does complete on its second run and leaves
    the schemas as the first run left them, for a schema name that the
    catalogue stores as it is written. *)
Theorem provisioning_fails_on_new_schema :
  forall (server : Sql.statement -> Eff.M Sql.Database (list string))
         (migrate : string -> Eff.M Sql.Database unit)
         (tenant : Models.Tenant) (key : string) (d : Sql.Database)
         (env : Commands.Env) (tenant_id : Z),
    Sql.unquoted (Models.schema_name tenant) = Some key ->
    NoDup (Sql.names d) ->
    (Sql.holds key "tenants_tenantuser" d = false ->
     Sql.holds key "tenants_tenant" d = false ->
     fst (Utils.create_tenant_schema server tenant d) = Raise Py.ProgrammingError
     /\ Utils.create_tenant_schema server tenant
          (snd (Utils.create_tenant_schema server tenant d))
        = (Raise Py.ProgrammingError,
           snd (Utils.create_tenant_schema server tenant d))
     /\ Sql.holds key "tenants_tenantuser"
          (snd (Utils.create_tenant_schema server tenant d)) = false
     /\ Sql.search_path (snd (Utils.create_tenant_schema server tenant d)) = key)
    /\ (Py.is_ok (fst (Utils.create_tenant_schema server tenant d))
        = Sql.holds key "tenants_tenantuser" d || Sql.holds key "tenants_tenant" d)
    /\ (Py.is_ok (fst (Utils.create_tenant_schema server tenant
                         (snd (Utils.create_tenant_schema server tenant d))))
        = Py.is_ok (fst (Utils.create_tenant_schema server tenant d)))
    /\ Sql.schemas
         (snd (Utils.create_tenant_schema server tenant
                 (snd (Utils.create_tenant_schema server tenant d))))
       = Sql.schemas (snd (Utils.create_tenant_schema server tenant d))
    /\ Sql.has_schema key (snd (Utils.create_tenant_schema server tenant d)) = true
    /\ NoDup (Sql.names (snd (Utils.create_tenant_schema server tenant d)))
    /\ ((forall s d0, Sql.names (snd (migrate s d0)) = Sql.names d0) ->
        Models.get_by_id (Commands.registry env) tenant_id = Models.Found tenant ->
        key = Models.schema_name tenant ->
        NoDup (Sql.names (Commands.db env)) ->
        fst (Commands.create_tenant_schema.handle server migrate tenant_id
               (snd (Commands.create_tenant_schema.handle server migrate tenant_id
                       env)))
          = Ok tt
        /\ Sql.schemas
             (Commands.db
                (snd (Commands.create_tenant_schema.handle server migrate tenant_id
                        (snd (Commands.create_tenant_schema.handle server migrate
                                tenant_id env)))))
           = Sql.schemas
               (Commands.db
                  (snd (Commands.create_tenant_schema.handle server migrate
                          tenant_id env)))
        /\ Sql.has_schema (Models.schema_name tenant)
             (Commands.db
                (snd (Commands.create_tenant_schema.handle server migrate
                        tenant_id env)))
           = true
        /\ NoDup (Sql.names
                    (Commands.db
                       (snd (Commands.create_tenant_schema.handle server migrate
                               tenant_id env))))).
Proof.
  intros server migrate tenant key d env tenant_id Hkey Hd.
  destruct (create_tenant_schema_twice server tenant key d Hkey)
    as (Hok2 & Hsch2 & Hhas & Hnd).
  split; [|split; [|split; [exact Hok2|split; [exact Hsch2|split;
    [exact Hhas|split; [exact (Hnd Hd)|]]]]]].
  - intros Hu Ht.
    pose proof (create_tenant_schema_run server tenant key d Hkey) as Hrun.
    rewrite Hu, Ht in Hrun.
    pose proof (holds_after_create_schema true key key "tenants_tenantuser" d) as Hu1.
    pose proof (holds_after_create_schema true key key "tenants_tenant" d) as Ht1.
    rewrite Hu in Hu1. rewrite Ht in Ht1.
    assert (Sql.holds key "tenants_tenantuser"
              (snd (Utils.create_tenant_schema server tenant d)) = false) as Hu2
      by (rewrite Hrun; exact Hu1).
    assert (Sql.holds key "tenants_tenant"
              (snd (Utils.create_tenant_schema server tenant d)) = false) as Ht2
      by (rewrite Hrun; exact Ht1).
    split; [rewrite Hrun; reflexivity|].
    split; [|split; [exact Hu2 | rewrite Hrun; reflexivity]].
    rewrite (create_tenant_schema_run server tenant key _ Hkey).
    rewrite Hu2, Ht2. f_equal.
    rewrite Hrun. cbn [snd]. f_equal.
    apply create_present_same. apply ensured_present.
  - rewrite (create_tenant_schema_run server tenant key d Hkey).
    destruct (Sql.holds key "tenants_tenantuser" d); [reflexivity|].
    destruct (Sql.holds key "tenants_tenant" d); reflexivity.
  - intros Hmig Hget -> Henv.
    destruct (handle_twice server migrate Hmig tenant_id tenant env Hget Hkey)
      as (H1 & H2 & H3).
    destruct (handle_first server migrate Hmig tenant_id tenant env Hget Hkey)
      as (_ & H4 & _).
    rewrite H2. repeat split; auto.
Qed.

Lemma provisioning_fails_on_new_schema_witness :
  fst (Utils.create_tenant_schema Sample.syntax_error Sample.tenant_a Sample.database)
  = Raise Py.ProgrammingError
  /\ Utils.create_tenant_schema Sample.syntax_error Sample.tenant_a
       (snd (Utils.create_tenant_schema Sample.syntax_error Sample.tenant_a
               Sample.database))
     = (Raise Py.ProgrammingError,
        snd (Utils.create_tenant_schema Sample.syntax_error Sample.tenant_a
               Sample.database))
  /\ Sql.search_path
       (snd (Utils.create_tenant_schema Sample.syntax_error Sample.tenant_a
               Sample.database))
     = "tenant_stm1234"
  /\ fst (Commands.create_tenant_schema.handle Sample.syntax_error
            Sample.failing_migrate 1
            (snd (Commands.create_tenant_schema.handle Sample.syntax_error
                    Sample.failing_migrate 1 (Sample.env Sample.database))))
     = Ok tt.
Proof.
  destruct (provisioning_fails_on_new_schema Sample.syntax_error
              Sample.failing_migrate Sample.tenant_a "tenant_stm1234"
              Sample.database (Sample.env Sample.database) 1)
    as (Hfail & _ & _ & _ & _ & _ & Hcommand).
  - reflexivity.
  - simpl. repeat constructor. simpl. tauto.
  - destruct Hfail as (H1 & H2 & _ & H4); [reflexivity | reflexivity |].
    destruct Hcommand as (H5 & _).
    + intros s d0. reflexivity.
    + reflexivity.
    + reflexivity.
    + simpl. repeat constructor. simpl. tauto.
    + repeat split; assumption.
Defined.

(** The call completes where the schema has the tables: on a schema
    that holds the tenant user table nothing is created, on one that
    holds a table [tenants_tenant] of its own the tenant user table is
    created next to it. *)
Lemma provisioning_completes_on_held_tables :
  Utils.create_tenant_schema Sample.syntax_error Sample.tenant_a Sample.provisioned
  = (Ok "tenant_stm1234", Sample.provisioned)
  /\ Utils.create_tenant_schema Sample.syntax_error Sample.tenant_a Sample.migrated
     = (Ok "tenant_stm1234",
        Sql.mkDatabase
          [Sql.mkSchema "public" ["tenants_tenant"];
           Sql.mkSchema "tenant_stm1234" ["tenants_tenant"; "tenants_tenantuser"]]
          "public").
Proof. split; reflexivity. Qed.

(** A schema name with capital letters is stored in lower case, and the
    command looks for it as it is written: the second run does not find
    the schema the first created, and its [CREATE SCHEMA] fails. *)
Lemma command_fails_on_folded_name :
  Sql.unquoted (Models.schema_name Sample.tenant_d) = Some "tenant_new0002"
  /\ fst (Commands.create_tenant_schema.handle Sample.syntax_error
            (fun _ d => (Ok tt, d)) 4
            (Commands.mkEnv (Models.mkRegistry [Sample.tenant_d] [])
               Sample.database [] [] []))
     = Ok tt
  /\ fst (Commands.create_tenant_schema.handle Sample.syntax_error
            (fun _ d => (Ok tt, d)) 4
            (snd (Commands.create_tenant_schema.handle Sample.syntax_error
                    (fun _ d => (Ok tt, d)) 4
                    (Commands.mkEnv (Models.mkRegistry [Sample.tenant_d] [])
                       Sample.database [] [] []))))
     = Raise Py.ProgrammingError.
Proof. repeat split. Qed.

(** ** Tearing a schema down *)




(** ** The tenant context manager *)

(** The active schema does make the round trip: inside the block it is
    the schema of the tenant passed in, and after the block, on normal
    exit and on an exception alike, it is the schema of the tenant that
    was current before (public when there was none). *)
Lemma tenant_context_schema_round_trip
    {A} (t : option DjangoTenants.TenantLike)
    (body : Eff.M DjangoTenants.Connection A)
    (conn : DjangoTenants.Connection) :
  DjangoTenants.schema_name (Utils.enter (Utils.tenant_context t conn) conn)
    = match t with
      | Some o => DjangoTenants.schema_name_of o
      | None => "public"
      end
  /\ DjangoTenants.schema_name (snd (Utils.with_tenant_context t body conn))
     = match Utils.get_current_tenant conn with
       | Some o => DjangoTenants.schema_name_of o
       | None => "public"
       end
  /\ fst (Utils.with_tenant_context t body conn)
     = fst (body (Utils.enter (Utils.tenant_context t conn) conn)).
Proof.
  unfold Utils.with_tenant_context.
  destruct (body (Utils.enter (Utils.tenant_context t conn) conn)) as [r c'].
  unfold Utils.enter, Utils.exit, Utils.tenant_context, Utils.set_current_tenant.
  simpl. repeat split.
  - destruct t; reflexivity.
  - destruct (Utils.get_current_tenant conn); reflexivity.
Qed.

(** C10.  What [tenant_context] does to the current tenant.  Entering
    [tenant_context(t)] for a tenant row [t] does not make [t] the
    current tenant, whatever was current before; and with a tenant row
    [c] current (as the middleware's [connection.set_tenant(c)] leaves
    it), leaving the block, normally or by an exception, does not bring
    [c] back.  In both places [set_schema], called right after the
    assignment to [connection.tenant], replaces the attribute by a
    placeholder that carries the schema name only. *)
Theorem tenant_context_loses_the_tenant :
  forall (t c : Models.Tenant) (conn conn0 : DjangoTenants.Connection),
    Utils.get_current_tenant
      (Utils.enter (Utils.tenant_context (Some (DjangoTenants.Row t)) conn) conn)
      = Some (DjangoTenants.FakeTenant (Models.schema_name t))
    /\ Utils.get_current_tenant (DjangoTenants.set_tenant (DjangoTenants.Row c) conn0)
       = Some (DjangoTenants.Row c)
    /\ (forall (A : Type) (body : Eff.M DjangoTenants.Connection A),
          Utils.get_current_tenant
            (snd (Utils.with_tenant_context (Some (DjangoTenants.Row t)) body
                    (DjangoTenants.set_tenant (DjangoTenants.Row c) conn0)))
          = Some (DjangoTenants.FakeTenant (Models.schema_name c))).
Proof.
  intros t c conn conn0. repeat split.
  intros A body. unfold Utils.with_tenant_context.
  destruct (body _) as [r c']. reflexivity.
Qed.

(* ================================================================== *)
(** * Further properties of the resolver *)

Lemma header_step_skipped reg request w :
  Cases.no_usable_header reg request ->
  Middleware.from_header reg request w = Middleware.from_test_tenant reg request w.
Proof.
  intros [Hnone | (h & Hh & Hbad)].
  - unfold Middleware.from_header. rewrite Hnone. reflexivity.
  - exact (header_unusable reg request w h Hh Hbad).
Qed.

Lemma claim_step_skipped reg u w :
  Middleware.is_authenticated u = true ->
  Cases.no_usable_claim reg u ->
  forall request, Middleware.user request = Some u ->
  Middleware.from_user reg request w = Middleware.from_membership u w.
Proof.
  intros Hauth Hclaim request Hu. unfold Middleware.from_user.
  rewrite Hu, Hauth.
  destruct Hclaim as [H | [H | (n & H & Hget)]]; rewrite H; try reflexivity.
  destruct (n =? 0); [reflexivity | rewrite Hget; reflexivity].
Qed.

(** X1.  The development tenant takes every request the header step
    lets through: when a tenant with code TEST exists, a request on a
    non-public path without a usable header resolves to it, whoever the
    user is and whatever the host. *)
Theorem test_tenant_takes_precedence :
  forall (reg : Models.Registry) (request : Middleware.Request)
         (w : Middleware.Worker) (t : Models.Tenant),
    Middleware.is_public (Middleware.path_info request) = false ->
    Cases.no_usable_header reg request ->
    Models.get_by_code reg "TEST" = Models.Found t ->
    Middleware.process_request reg request w
    = (Ok tt,
       Middleware.mkWorker (Some t)
         (DjangoTenants.mkConnection (Some (DjangoTenants.Row t))
            (Models.schema_name t))).
Proof.
  intros reg request w t Hpub Hhdr Htest.
  unfold Middleware.process_request. rewrite Hpub.
  rewrite (header_step_skipped _ _ _ Hhdr).
  unfold Middleware.from_test_tenant. rewrite Htest. reflexivity.
Qed.

Lemma test_tenant_takes_precedence_witness :
  Middleware.process_request Cases.registry_with_test
    (Cases.request_of
       (Middleware.mkUser true (Some 1) (Some (Middleware.mkTenantUser Sample.tenant_b)))
       "stmary.example.com")
    Sample.worker
  = (Ok tt,
     Middleware.mkWorker (Some Cases.tenant_test)
       (DjangoTenants.mkConnection (Some (DjangoTenants.Row Cases.tenant_test))
          (Models.schema_name Cases.tenant_test))).
Proof.
  apply (test_tenant_takes_precedence Cases.registry_with_test
           (Cases.request_of
              (Middleware.mkUser true (Some 1)
                 (Some (Middleware.mkTenantUser Sample.tenant_b)))
              "stmary.example.com")
           Sample.worker Cases.tenant_test).
  - reflexivity.
  - left. reflexivity.
  - reflexivity.
Defined.

(** X2.  For an authenticated user the tenant_id attribute comes before
    the membership: without usable header and without development
    tenant, a tenant_id that names an existing tenant resolves to that
    tenant, also when the user's membership record belongs to another
    tenant and the host to a third. *)
Theorem claim_comes_before_membership :
  forall (reg : Models.Registry) (request : Middleware.Request)
         (w : Middleware.Worker) (u : Middleware.User) (n : Z) (t : Models.Tenant),
    Middleware.is_public (Middleware.path_info request) = false ->
    Cases.no_usable_header reg request ->
    Models.get_by_code reg "TEST" = Models.DoesNotExist ->
    Middleware.user request = Some u ->
    Middleware.is_authenticated u = true ->
    Middleware.tenant_id u = Some n ->
    n <> 0 ->
    Models.get_by_id reg n = Models.Found t ->
    Middleware.process_request reg request w
    = (Ok tt,
       Middleware.mkWorker (Some t)
         (DjangoTenants.mkConnection (Some (DjangoTenants.Row t))
            (Models.schema_name t))).
Proof.
  intros reg request w u n t Hpub Hhdr Htest Hu Hauth Hid Hn Hget.
  unfold Middleware.process_request. rewrite Hpub.
  rewrite (header_step_skipped _ _ _ Hhdr).
  unfold Middleware.from_test_tenant. rewrite Htest.
  unfold Middleware.from_user. rewrite Hu, Hauth, Hid.
  apply Z.eqb_neq in Hn. rewrite Hn, Hget. reflexivity.
Qed.

Lemma claim_comes_before_membership_witness :
  Middleware.process_request Sample.registry
    (Cases.request_of
       (Middleware.mkUser true (Some 1) (Some (Middleware.mkTenantUser Sample.tenant_b)))
       "old.example.com")
    Sample.worker
  = (Ok tt,
     Middleware.mkWorker (Some Sample.tenant_a)
       (DjangoTenants.mkConnection (Some (DjangoTenants.Row Sample.tenant_a))
          (Models.schema_name Sample.tenant_a))).
Proof.
  apply (claim_comes_before_membership Sample.registry
           (Cases.request_of
              (Middleware.mkUser true (Some 1)
                 (Some (Middleware.mkTenantUser Sample.tenant_b)))
              "old.example.com")
           Sample.worker
           (Middleware.mkUser true (Some 1)
              (Some (Middleware.mkTenantUser Sample.tenant_b)))
           1 Sample.tenant_a).
  - reflexivity.
  - left. reflexivity.
  - reflexivity.
  - reflexivity.
  - reflexivity.
  - reflexivity.
  - discriminate.
  - reflexivity.
Defined.

(** X3.  An authenticated user never reaches the domain lookup.  Without
    usable header, development tenant and usable tenant_id, the request
    resolves to the tenant of the user's membership record when there is
    one and to the public schema otherwise; it returns normally in both
    cases and the host plays no part. *)
Theorem authenticated_user_ends_at_membership_or_public :
  forall (reg : Models.Registry) (request : Middleware.Request)
         (w : Middleware.Worker) (u : Middleware.User),
    Middleware.is_public (Middleware.path_info request) = false ->
    Cases.no_usable_header reg request ->
    Models.get_by_code reg "TEST" = Models.DoesNotExist ->
    Middleware.user request = Some u ->
    Middleware.is_authenticated u = true ->
    Cases.no_usable_claim reg u ->
    Middleware.process_request reg request w
    = match Middleware.tenant_user u with
      | Some tu =>
          (Ok tt,
           Middleware.mkWorker (Some (Middleware.membership_tenant tu))
             (DjangoTenants.mkConnection
                (Some (DjangoTenants.Row (Middleware.membership_tenant tu)))
                (Models.schema_name (Middleware.membership_tenant tu))))
      | None =>
          (Ok tt,
           Middleware.mkWorker (Middleware.get_current_tenant w)
             (DjangoTenants.mkConnection
                (Some (DjangoTenants.FakeTenant "public")) "public"))
      end.
Proof.
  intros reg request w u Hpub Hhdr Htest Hu Hauth Hclaim.
  unfold Middleware.process_request. rewrite Hpub.
  rewrite (header_step_skipped _ _ _ Hhdr).
  unfold Middleware.from_test_tenant. rewrite Htest.
  rewrite (claim_step_skipped reg u w Hauth Hclaim request Hu).
  unfold Middleware.from_membership.
  destruct (Middleware.tenant_user u); reflexivity.
Qed.

Lemma authenticated_user_ends_at_membership_or_public_witness :
  Middleware.process_request Sample.registry
    (Cases.request_of (Middleware.mkUser true None None) "stmary.example.com")
    Sample.worker
  = match Middleware.tenant_user (Middleware.mkUser true None None) with
    | Some tu =>
        (Ok tt,
         Middleware.mkWorker (Some (Middleware.membership_tenant tu))
           (DjangoTenants.mkConnection
              (Some (DjangoTenants.Row (Middleware.membership_tenant tu)))
              (Models.schema_name (Middleware.membership_tenant tu))))
    | None =>
        (Ok tt,
         Middleware.mkWorker (Middleware.get_current_tenant Sample.worker)
           (DjangoTenants.mkConnection
              (Some (DjangoTenants.FakeTenant "public")) "public"))
    end.
Proof.
  apply (authenticated_user_ends_at_membership_or_public Sample.registry
           (Cases.request_of (Middleware.mkUser true None None) "stmary.example.com")
           Sample.worker (Middleware.mkUser true None None)).
  - reflexivity.
  - left. reflexivity.
  - reflexivity.
  - reflexivity.
  - reflexivity.
  - left. reflexivity.
Defined.

(** ** What the resolver can raise *)







(* ================================================================== *)
(** * Further properties of the lifecycle actions *)

Section SaveFacts.
Import Models.

Lemma save_same_key reg t1 t2 :
  id t1 = id t2 -> save t2 (save t1 reg) = save t2 reg.
Proof.
  intros Hid. unfold save. simpl. f_equal.
  rewrite map_map. apply map_ext. intros r.
  destruct (id r =? id t1) eqn:E.
  - rewrite Hid in E. rewrite E. rewrite Hid, Z.eqb_refl. reflexivity.
  - reflexivity.
Qed.

Lemma save_other_key reg t' pk' :
  id t' <> pk' -> get_by_id (save t' reg) pk' = get_by_id reg pk'.
Proof.
  intros Hne. unfold get_by_id, objects_get, save. simpl.
  rewrite filter_map_stable.
  - assert (map (fun r => if id r =? id t' then t' else r)
                (filter (fun t => id t =? pk') (tenants reg))
            = filter (fun t => id t =? pk') (tenants reg)) as ->; [|reflexivity].
    rewrite <- (map_id (filter _ _)) at 2.
    apply map_ext_in. intros r Hr. apply filter_In in Hr as [_ Hr].
    apply Z.eqb_eq in Hr.
    destruct (id r =? id t') eqn:E; [|reflexivity].
    apply Z.eqb_eq in E. congruence.
  - intros r. destruct (id r =? id t') eqn:E; [|reflexivity].
    apply Z.eqb_eq in E.
    transitivity false; [|symmetry]; apply Z.eqb_neq; congruence.
Qed.

Lemma save_length reg t' :
  List.length (tenants (save t' reg)) = List.length (tenants reg).
Proof. unfold save. simpl. apply length_map. Qed.

End SaveFacts.

(** What one lifecycle action does, for the row it finds. *)
Lemma lifecycle_action_run
    (icontains : string -> string -> bool) (nul_error : exn)
    (params : Views.QueryParams)
    (site : Views.Site) (pk : Z) (t : Models.Tenant) :
  Models.get_by_id (Views.registry site) pk = Models.Found t ->
  Cases.shows icontains params t ->
  snd (Views.suspend icontains nul_error params pk site)
  = Views.mkSite
      (Models.save (Views.assign Models.SUSPENDED false t) (Views.registry site))
      (Views.audit_log site
       ++ [Views.mkAuditLog "suspend_tenant" "tenant" (Py.str pk) "suspended" false])
  /\ snd (Views.activate icontains nul_error params pk site)
     = Views.mkSite
         (Models.save (Views.assign Models.ACTIVE true t) (Views.registry site))
         (Views.audit_log site
          ++ [Views.mkAuditLog "activate_tenant" "tenant" (Py.str pk) "active" true])
  /\ snd (Views.cancel icontains nul_error params pk site)
     = Views.mkSite
         (Models.save (Views.assign Models.CANCELLED false t) (Views.registry site))
         (Views.audit_log site
          ++ [Views.mkAuditLog "cancel_tenant" "tenant" (Py.str pk) "cancelled" false]).
Proof.
  intros Hrow [Hclean Hshown]. pose proof (get_by_id_found_id _ _ _ Hrow) as Hid.
  unfold Views.suspend, Views.activate, Views.cancel, Eff.bind.
  rewrite (get_object_found icontains nul_error params site pk t Hrow Hclean Hshown).
  simpl. rewrite Hid. repeat split.
Qed.

(** The lookup in the queryset finds nothing when the table has no row
    with the key. *)
Lemma queryset_lookup_none
    (icontains : string -> string -> bool) (params : Views.QueryParams)
    (site : Views.Site) (pk : Z) :
  Models.get_by_id (Views.registry site) pk = Models.DoesNotExist ->
  Models.objects_get (fun r => Models.id r =? pk)
    (Views.get_queryset icontains params site)
  = Models.DoesNotExist.
Proof.
  unfold Models.get_by_id, Models.objects_get, Views.get_queryset.
  intros Hget.
  assert (filter (fun r => Models.id r =? pk) (Models.tenants (Views.registry site))
          = []) as Hnil
    by (destruct (filter _ _) as [|x [|y l]]; [reflexivity | discriminate ..]).
  assert (filter (fun r => Models.id r =? pk)
            (filter (Views.shown icontains params)
                    (Models.tenants (Views.registry site))) = []) as ->;
    [|reflexivity].
  revert Hnil. clear Hget.
  induction (Models.tenants (Views.registry site)) as [|x l IH]; simpl;
    [reflexivity|].
  destruct (Models.id x =? pk) eqn:Ei; [discriminate|].
  intros Hnil. destruct (Views.shown icontains params x); simpl;
    rewrite ?Ei; auto.
Qed.

(** X5.  A lifecycle action for a primary key that no tenant has fails
    with 404 and changes nothing: no row is written and no audit entry is
    made, whatever query parameters the request carries (with a NUL
    character in a parameter the failure is the one of the query). *)
Theorem lifecycle_action_on_unknown_tenant :
  forall (icontains : string -> string -> bool) (nul_error : exn)
         (params : Views.QueryParams) (site : Views.Site) (pk : Z),
    Models.get_by_id (Views.registry site) pk = Models.DoesNotExist ->
    Views.suspend icontains nul_error params pk site
    = (Raise (if Views.clean params then Py.Http404 else nul_error), site)
    /\ Views.activate icontains nul_error params pk site
       = (Raise (if Views.clean params then Py.Http404 else nul_error), site)
    /\ Views.cancel icontains nul_error params pk site
       = (Raise (if Views.clean params then Py.Http404 else nul_error), site).
Proof.
  intros icontains nul_error params site pk Hget.
  unfold Views.suspend, Views.activate, Views.cancel, Eff.bind, Views.get_object.
  destruct (Views.clean params); simpl; [|repeat split].
  rewrite (queryset_lookup_none icontains params site pk Hget).
  repeat split.
Qed.

Lemma lifecycle_action_on_unknown_tenant_witness :
  Views.suspend Sample.icontains Py.Http404 Views.no_params 7
    (Views.mkSite Sample.registry [])
    = (Raise Py.Http404, Views.mkSite Sample.registry [])
  /\ Views.activate Sample.icontains Py.Http404 Views.no_params 7
       (Views.mkSite Sample.registry [])
     = (Raise Py.Http404, Views.mkSite Sample.registry [])
  /\ Views.cancel Sample.icontains Py.Http404 Views.no_params 7
       (Views.mkSite Sample.registry [])
     = (Raise Py.Http404, Views.mkSite Sample.registry []).
Proof.
  apply (lifecycle_action_on_unknown_tenant Sample.icontains Py.Http404
           Views.no_params (Views.mkSite Sample.registry []) 7).
  reflexivity.
Defined.

Lemma run_registry
    (icontains : string -> string -> bool) (nul_error : exn)
    (a : Cases.Action) (params : Views.QueryParams)
    (site : Views.Site) (pk : Z) (t : Models.Tenant) :
  Models.get_by_id (Views.registry site) pk = Models.Found t ->
  Cases.shows icontains params t ->
  Views.registry (snd (Cases.run icontains nul_error a params pk site))
  = Models.save (Cases.assigned a t) (Views.registry site)
  /\ Py.is_ok (fst (Cases.run icontains nul_error a params pk site)) = true.
Proof.
  intros Hrow Hshows.
  destruct (lifecycle_action_run icontains nul_error params site pk t Hrow Hshows)
    as (Hs & Ha & Hc).
  destruct Hshows as [Hclean Hshown].
  destruct a; simpl; [rewrite Hs | rewrite Ha | rewrite Hc]; simpl;
    (split; [reflexivity|]);
    unfold Views.suspend, Views.activate, Views.cancel, Eff.bind;
    rewrite (get_object_found icontains nul_error params site pk t
               Hrow Hclean Hshown);
    reflexivity.
Qed.

Lemma assigned_id (a : Cases.Action) (t : Models.Tenant) :
  Models.id (Cases.assigned a t) = Models.id t.
Proof. destruct a; reflexivity. Qed.

Lemma assigned_twice (a b : Cases.Action) (t : Models.Tenant) :
  Cases.assigned b (Cases.assigned a t) = Cases.assigned b t.
Proof. destruct a, b; reflexivity. Qed.

(** X6.  A lifecycle action touches one row and its status.  After
    [suspend], [activate] or [cancel] for an existing tenant that the
    request's query parameters leave in the queryset and that has a code
    and a schema name (so that [Tenant.save] generates nothing), the
    tenant's row carries the status of the action and the id, name, code,
    domain, schema name, email and accreditation it had; every other
    primary key looks up as before, the table has as many rows, and the
    domain table is unchanged. *)
Theorem lifecycle_action_touches_one_row :
  forall (icontains : string -> string -> bool) (nul_error : exn)
         (a : Cases.Action) (params : Views.QueryParams)
         (site : Views.Site) (pk : Z) (t : Models.Tenant),
    Models.get_by_id (Views.registry site) pk = Models.Found t ->
    Cases.shows icontains params t ->
    Cases.has_identifiers t ->
    (exists t',
        Models.get_by_id
          (Views.registry (snd (Cases.run icontains nul_error a params pk site))) pk
        = Models.Found t'
        /\ Models.subscription_status t' = Cases.status_of a
        /\ Models.id t' = Models.id t
        /\ Models.name t' = Models.name t
        /\ Models.code t' = Models.code t
        /\ Models.domain t' = Models.domain t
        /\ Models.schema_name t' = Models.schema_name t
        /\ Models.email t' = Models.email t
        /\ Models.nhis_accreditation t' = Models.nhis_accreditation t)
    /\ (forall pk', pk' <> pk ->
          Models.get_by_id
            (Views.registry (snd (Cases.run icontains nul_error a params pk site)))
            pk'
          = Models.get_by_id (Views.registry site) pk')
    /\ List.length
         (Models.tenants
            (Views.registry (snd (Cases.run icontains nul_error a params pk site))))
       = List.length (Models.tenants (Views.registry site))
    /\ Models.domains
         (Views.registry (snd (Cases.run icontains nul_error a params pk site)))
       = Models.domains (Views.registry site).
Proof.
  intros icontains nul_error a params site pk t Hrow Hshows _.
  pose proof (get_by_id_found_id _ _ _ Hrow) as Hid.
  destruct (run_registry icontains nul_error a params site pk t Hrow Hshows)
    as [-> _].
  split; [|split; [|split]].
  - exists (Cases.assigned a t). split.
    + apply (get_by_id_save _ pk t); [exact Hrow|].
      rewrite assigned_id. exact Hid.
    + destruct a; repeat split; reflexivity.
  - intros pk' Hne. apply save_other_key. rewrite assigned_id. congruence.
  - apply save_length.
  - reflexivity.
Qed.

Lemma lifecycle_action_touches_one_row_witness :
  (exists t',
      Models.get_by_id
        (Views.registry
           (snd (Cases.run Sample.icontains Py.Http404 Cases.Suspend
                   Cases.params_active 1 (Views.mkSite Sample.registry []))))
        1
      = Models.Found t'
      /\ Models.subscription_status t' = Cases.status_of Cases.Suspend
      /\ Models.schema_name t' = Models.schema_name Sample.tenant_a)
  /\ List.length
       (Models.tenants
          (Views.registry
             (snd (Cases.run Sample.icontains Py.Http404 Cases.Suspend
                     Cases.params_active 1 (Views.mkSite Sample.registry [])))))
     = List.length (Models.tenants (Views.registry (Views.mkSite Sample.registry []))).
Proof.
  destruct (lifecycle_action_touches_one_row Sample.icontains Py.Http404
              Cases.Suspend Cases.params_active
              (Views.mkSite Sample.registry []) 1 Sample.tenant_a)
    as ((t' & Hget & Hst & _ & _ & _ & _ & Hsch & _) & _ & Hlen & _).
  - reflexivity.
  - split; reflexivity.
  - split; reflexivity.
  - split; [|exact Hlen]. exists t'. repeat split; assumption.
Defined.

(** X7.  The last lifecycle action wins.  For an existing tenant with
    a code and a schema name, when the query parameters of the first
    request leave the tenant in the queryset and those of the second
    leave it there as the first action stored it, the second action
    succeeds, whatever the first one was (no status is terminal), and
    the tenant table after the two is the table after the second alone;
    in particular each action is idempotent on the table. *)
Theorem last_lifecycle_action_wins :
  forall (icontains : string -> string -> bool) (nul_error : exn)
         (a b : Cases.Action) (params_a params_b : Views.QueryParams)
         (site : Views.Site) (pk : Z) (t : Models.Tenant),
    Models.get_by_id (Views.registry site) pk = Models.Found t ->
    Cases.has_identifiers t ->
    Cases.shows icontains params_a t ->
    Cases.shows icontains params_b t ->
    Cases.shows icontains params_b (Cases.assigned a t) ->
    Py.is_ok
      (fst (Cases.run icontains nul_error b params_b pk
              (snd (Cases.run icontains nul_error a params_a pk site)))) = true
    /\ Views.registry
         (snd (Cases.run icontains nul_error b params_b pk
                 (snd (Cases.run icontains nul_error a params_a pk site))))
       = Views.registry (snd (Cases.run icontains nul_error b params_b pk site)).
Proof.
  intros icontains nul_error a b params_a params_b site pk t Hrow _ Ha Hb Hb'.
  pose proof (get_by_id_found_id _ _ _ Hrow) as Hid.
  assert (Models.get_by_id
            (Views.registry (snd (Cases.run icontains nul_error a params_a pk site)))
            pk
          = Models.Found (Cases.assigned a t)) as Hrow'.
  { destruct (run_registry icontains nul_error a params_a site pk t Hrow Ha)
      as [-> _].
    apply (get_by_id_save _ pk t); [exact Hrow|].
    rewrite assigned_id. exact Hid. }
  destruct (run_registry icontains nul_error b params_b _ pk _ Hrow' Hb')
    as [Hreg Hok].
  split; [exact Hok|].
  rewrite Hreg.
  destruct (run_registry icontains nul_error a params_a site pk t Hrow Ha) as [-> _].
  destruct (run_registry icontains nul_error b params_b site pk t Hrow Hb) as [-> _].
  rewrite assigned_twice. apply save_same_key.
  rewrite !assigned_id. reflexivity.
Qed.

Lemma last_lifecycle_action_wins_witness :
  Py.is_ok
    (fst (Cases.run Sample.icontains Py.Http404 Cases.Activate Views.no_params 1
            (snd (Cases.run Sample.icontains Py.Http404 Cases.Cancel
                    Cases.params_active 1 (Views.mkSite Sample.registry [])))))
  = true
  /\ Views.registry
       (snd (Cases.run Sample.icontains Py.Http404 Cases.Activate Views.no_params 1
               (snd (Cases.run Sample.icontains Py.Http404 Cases.Cancel
                       Cases.params_active 1 (Views.mkSite Sample.registry [])))))
     = Views.registry
         (snd (Cases.run Sample.icontains Py.Http404 Cases.Activate Views.no_params 1
                 (Views.mkSite Sample.registry []))).
Proof.
  apply (last_lifecycle_action_wins Sample.icontains Py.Http404
           Cases.Cancel Cases.Activate Cases.params_active Views.no_params
           (Views.mkSite Sample.registry []) 1 Sample.tenant_a);
    try reflexivity; split; reflexivity.
Defined.

(** X8.  No lifecycle action cuts a tenant off from resolution: after
    [suspend], [cancel] or [activate] for an existing tenant with a code
    and a schema name, whatever query parameters the request of the
    action carried and whatever it answered, a request on a non-public
    path with the tenant's id in the header resolves, and the active
    schema is the tenant's schema name as before. *)
Theorem lifecycle_keeps_resolution :
  forall (icontains : string -> string -> bool) (nul_error : exn)
         (a : Cases.Action) (params : Views.QueryParams)
         (site : Views.Site) (request : Middleware.Request)
         (w : Middleware.Worker) (h : string) (pk : Z) (t : Models.Tenant),
    Models.get_by_id (Views.registry site) pk = Models.Found t ->
    Cases.has_identifiers t ->
    Middleware.is_public (Middleware.path_info request) = false ->
    Middleware.x_tenant_id request = Some h ->
    Py.int h = Some pk ->
    fst (Middleware.process_request
           (Views.registry (snd (Cases.run icontains nul_error a params pk site)))
           request w) = Ok tt
    /\ Middleware.active_schema
         (snd (Middleware.process_request
                 (Views.registry
                    (snd (Cases.run icontains nul_error a params pk site)))
                 request w))
       = Models.schema_name t.
Proof.
  intros icontains nul_error a params site request w h pk t Hrow _ Hpub Hh Hint.
  apply (resolution_after_suspend_or_cancel icontains nul_error params site
           request w h pk t Hrow Hpub Hh Hint).
  destruct a; simpl; auto.
Qed.

Lemma lifecycle_keeps_resolution_witness :
  fst (Middleware.process_request
         (Views.registry
            (snd (Cases.run Sample.icontains Py.Http404 Cases.Cancel
                    Views.no_params 1 (Views.mkSite Sample.registry []))))
         (Sample.request "/api/v1/patients/" (Some "1")) Sample.worker) = Ok tt
  /\ Middleware.active_schema
       (snd (Middleware.process_request
               (Views.registry
                  (snd (Cases.run Sample.icontains Py.Http404 Cases.Cancel
                          Views.no_params 1 (Views.mkSite Sample.registry []))))
               (Sample.request "/api/v1/patients/" (Some "1")) Sample.worker))
     = Models.schema_name Sample.tenant_a.
Proof.
  apply (lifecycle_keeps_resolution Sample.icontains Py.Http404 Cases.Cancel
           Views.no_params (Views.mkSite Sample.registry [])
           (Sample.request "/api/v1/patients/" (Some "1")) Sample.worker
           "1" 1 Sample.tenant_a); try reflexivity.
  split; reflexivity.
Defined.

(* ================================================================== *)
(** * The public tenant list and the admin actions *)

Section PublicDirectory.
Import Models.

Variable order_by_name : list Tenant -> list Tenant.
Hypothesis order_is_permutation : forall l, Permutation (order_by_name l) l.

(** The tenants shown are the rows in status active or trial. *)
Lemma listed_iff (reg : Registry) (c : DjangoTenants.Connection) (n : Z) :
  In n (Cases.listed_ids order_by_name reg c)
  <-> exists t, In t (tenants reg) /\ Directory.active_or_trial t = true /\ id t = n.
Proof.
  unfold Cases.listed_ids, Directory.get. simpl. rewrite map_map. simpl.
  rewrite in_map_iff. split.
  - intros (t & Hid & Hin).
    apply (Permutation_in _ (order_is_permutation _)) in Hin.
    apply filter_In in Hin as [Hin Hst]. exists t. auto.
  - intros (t & Hin & Hst & Hid). exists t. split; [exact Hid|].
    apply (Permutation_in _ (Permutation_sym (order_is_permutation _))).
    apply filter_In. auto.
Qed.

Lemma saved_rows (reg : Registry) (t' x : Tenant) :
  In x (tenants (save t' reg)) ->
  x = t' \/ (In x (tenants reg) /\ id x <> id t').
Proof.
  unfold save. simpl. rewrite in_map_iff. intros (r & Hx & Hin).
  destruct (id r =? id t') eqn:E.
  - left. congruence.
  - right. subst x. split; [exact Hin|]. apply Z.eqb_neq. exact E.
Qed.

Lemma saved_row_present (reg : Registry) (t t' : Tenant) :
  In t (tenants reg) -> id t = id t' -> In t' (tenants (save t' reg)).
Proof.
  intros Hin Hid. unfold save. simpl. apply in_map_iff.
  exists t. rewrite Hid, Z.eqb_refl. auto.
Qed.

End PublicDirectory.

(** X9.  The public tenant list follows the lifecycle actions.  It
    shows the tenants in status active or trial; so after [suspend] or
    [cancel] for an existing tenant that the query parameters of the
    action's request leave in the queryset its id is no longer shown,
    after [activate] it is, and the view leaves the connection on the
    public schema. *)
Theorem public_list_follows_lifecycle :
  forall (icontains : string -> string -> bool) (nul_error : exn)
         (order_by_name : list Models.Tenant -> list Models.Tenant)
         (params : Views.QueryParams)
         (site : Views.Site) (c : DjangoTenants.Connection)
         (pk : Z) (t : Models.Tenant),
    (forall l, Permutation (order_by_name l) l) ->
    Models.get_by_id (Views.registry site) pk = Models.Found t ->
    Cases.shows icontains params t ->
    ~ In pk (Cases.listed_ids order_by_name
               (Views.registry
                  (snd (Cases.run icontains nul_error Cases.Suspend params pk site)))
               c)
    /\ ~ In pk (Cases.listed_ids order_by_name
                  (Views.registry
                     (snd (Cases.run icontains nul_error Cases.Cancel params pk
                             site))) c)
    /\ In pk (Cases.listed_ids order_by_name
                (Views.registry
                   (snd (Cases.run icontains nul_error Cases.Activate params pk
                           site))) c)
    /\ snd (Directory.get order_by_name (Views.registry site) c)
       = DjangoTenants.mkConnection (Some (DjangoTenants.FakeTenant "public")) "public".
Proof.
  intros icontains nul_error order_by_name params site c pk t Hperm Hrow Hshows.
  pose proof (get_by_id_found_id _ _ _ Hrow) as Hid.
  assert (forall a, Directory.active_or_trial (Cases.assigned a t) = false ->
            ~ In pk (Cases.listed_ids order_by_name
                       (Views.registry
                          (snd (Cases.run icontains nul_error a params pk site)))
                       c)) as Hgone.
  { intros a Hst Hin.
    destruct (run_registry icontains nul_error a params site pk t Hrow Hshows)
      as [Hreg _].
    rewrite Hreg in Hin.
    apply (listed_iff order_by_name Hperm) in Hin as (x & Hx & Hxst & Hxid).
    apply saved_rows in Hx as [-> | [_ Hne]].
    - congruence.
    - rewrite assigned_id in Hne. congruence. }
  split; [apply Hgone; reflexivity|].
  split; [apply Hgone; reflexivity|].
  split; [|reflexivity].
  destruct (run_registry icontains nul_error Cases.Activate params site pk t
              Hrow Hshows) as [Hreg _].
  rewrite Hreg.
  apply (listed_iff order_by_name Hperm).
  exists (Cases.assigned Cases.Activate t). split; [|split].
  - apply (saved_row_present _ t); [|reflexivity].
    apply objects_get_found_cond in Hrow. tauto.
  - reflexivity.
  - exact Hid.
Qed.

Lemma public_list_follows_lifecycle_witness :
  ~ In 1 (Cases.listed_ids (fun l => l)
            (Views.registry
               (snd (Cases.run Sample.icontains Py.Http404 Cases.Suspend
                       Cases.params_active 1 (Views.mkSite Sample.registry []))))
            DjangoTenants.fresh)
  /\ ~ In 1 (Cases.listed_ids (fun l => l)
               (Views.registry
                  (snd (Cases.run Sample.icontains Py.Http404 Cases.Cancel
                          Cases.params_active 1 (Views.mkSite Sample.registry []))))
               DjangoTenants.fresh)
  /\ In 1 (Cases.listed_ids (fun l => l)
             (Views.registry
                (snd (Cases.run Sample.icontains Py.Http404 Cases.Activate
                        Cases.params_active 1 (Views.mkSite Sample.registry []))))
             DjangoTenants.fresh)
  /\ snd (Directory.get (fun l => l)
            (Views.registry (Views.mkSite Sample.registry [])) DjangoTenants.fresh)
     = DjangoTenants.mkConnection (Some (DjangoTenants.FakeTenant "public")) "public".
Proof.
  apply (public_list_follows_lifecycle Sample.icontains Py.Http404 (fun l => l)
           Cases.params_active
           (Views.mkSite Sample.registry []) DjangoTenants.fresh 1 Sample.tenant_a).
  - intros l. apply Permutation_refl.
  - reflexivity.
  - split; reflexivity.
Defined.

(** Admin actions and the public list: the rows an administrator
    selects get the new status, whatever they had. *)
Lemma admin_update_rows (selected : Models.Tenant -> bool)
    (st : Models.SubscriptionStatus) (reg : Models.Registry) (x : Models.Tenant) :
  In x (Models.tenants (snd (Admin.queryset_update selected st reg)))
  <-> exists r, In r (Models.tenants reg)
                /\ x = (if selected r then Admin.with_status st r else r).
Proof.
  unfold Admin.queryset_update. simpl. rewrite in_map_iff.
  split; intros (r & H1 & H2); exists r; auto.
Qed.

Lemma admin_turns_off
    (order_by_name : list Models.Tenant -> list Models.Tenant)
    (selected : Models.Tenant -> bool) (st : Models.SubscriptionStatus)
    (reg : Models.Registry) (c : DjangoTenants.Connection) (n : Z) :
  (forall l, Permutation (order_by_name l) l) ->
  (forall r, Directory.active_or_trial (Admin.with_status st r) = false) ->
  In n (Cases.listed_ids order_by_name
          (snd (Admin.queryset_update selected st reg)) c)
  <-> exists t, In t (Models.tenants reg)
                /\ Directory.active_or_trial t = true
                /\ selected t = false /\ Models.id t = n.
Proof.
  intros Hperm Hst. rewrite (listed_iff order_by_name Hperm). split.
  - intros (x & Hx & Hxst & Hxid).
    apply admin_update_rows in Hx as (r & Hr & ->).
    destruct (selected r) eqn:E.
    + rewrite Hst in Hxst. discriminate.
    + exists r. auto.
  - intros (t & Hin & Htst & Hns & Hid). exists t. split; [|auto].
    apply admin_update_rows. exists t. rewrite Hns. auto.
Qed.

(** X10.  The admin's bulk actions check no transition either and work
    on the selected rows only.  After "suspend selected tenants" or
    "cancel selected subscriptions" the public tenant list shows exactly
    the tenants that were shown before and were not selected; after
    "activate selected tenants" every selected tenant is shown, whatever
    its status was.  The message reports the number of selected rows. *)
Theorem admin_actions_and_public_list :
  forall (order_by_name : list Models.Tenant -> list Models.Tenant)
         (selected : Models.Tenant -> bool) (s : Admin.Site)
         (c : DjangoTenants.Connection),
    (forall l, Permutation (order_by_name l) l) ->
    (forall n,
        In n (Cases.listed_ids order_by_name
                (Admin.registry (Admin.suspend_tenants selected s)) c)
        <-> exists t, In t (Models.tenants (Admin.registry s))
                      /\ Directory.active_or_trial t = true
                      /\ selected t = false /\ Models.id t = n)
    /\ (forall n,
          In n (Cases.listed_ids order_by_name
                  (Admin.registry (Admin.cancel_subscriptions selected s)) c)
          <-> exists t, In t (Models.tenants (Admin.registry s))
                        /\ Directory.active_or_trial t = true
                        /\ selected t = false /\ Models.id t = n)
    /\ (forall t, In t (Models.tenants (Admin.registry s)) -> selected t = true ->
          In (Models.id t)
             (Cases.listed_ids order_by_name
                (Admin.registry (Admin.activate_tenants selected s)) c))
    /\ Admin.messages (Admin.suspend_tenants selected s)
       = (Admin.messages s
          ++ [(Py.str (Z.of_nat (List.length
                                   (filter selected (Models.tenants (Admin.registry s)))))
               ++ " tenant(s) suspended.")%string])%list.
Proof.
  intros order_by_name selected s c Hperm.
  split; [|split; [|split]].
  - intros n. apply (admin_turns_off order_by_name selected Models.SUSPENDED);
      [exact Hperm | reflexivity].
  - intros n. apply (admin_turns_off order_by_name selected Models.CANCELLED);
      [exact Hperm | reflexivity].
  - intros t Hin Hs. apply (listed_iff order_by_name Hperm).
    exists (Admin.with_status Models.ACTIVE t). split; [|split].
    + unfold Admin.activate_tenants. simpl.
      apply (admin_update_rows selected Models.ACTIVE). exists t. rewrite Hs. auto.
    + reflexivity.
    + reflexivity.
  - reflexivity.
Qed.

Lemma admin_actions_and_public_list_witness :
  (forall n,
      In n (Cases.listed_ids (fun l => l)
              (Admin.registry
                 (Admin.suspend_tenants (fun t => (Models.id t =? 1)%Z)
                    (Admin.mkSite Sample.registry [])))
              DjangoTenants.fresh)
      <-> exists t, In t (Models.tenants (Admin.registry (Admin.mkSite Sample.registry [])))
                    /\ Directory.active_or_trial t = true
                    /\ (Models.id t =? 1)%Z = false /\ Models.id t = n)
  /\ (forall n,
        In n (Cases.listed_ids (fun l => l)
                (Admin.registry
                   (Admin.cancel_subscriptions (fun t => (Models.id t =? 1)%Z)
                      (Admin.mkSite Sample.registry [])))
                DjangoTenants.fresh)
        <-> exists t, In t (Models.tenants (Admin.registry (Admin.mkSite Sample.registry [])))
                      /\ Directory.active_or_trial t = true
                      /\ (Models.id t =? 1)%Z = false /\ Models.id t = n)
  /\ (forall t, In t (Models.tenants (Admin.registry (Admin.mkSite Sample.registry []))) ->
        (Models.id t =? 1)%Z = true ->
        In (Models.id t)
           (Cases.listed_ids (fun l => l)
              (Admin.registry
                 (Admin.activate_tenants (fun t => (Models.id t =? 1)%Z)
                    (Admin.mkSite Sample.registry [])))
              DjangoTenants.fresh))
  /\ Admin.messages
       (Admin.suspend_tenants (fun t => (Models.id t =? 1)%Z) (Admin.mkSite Sample.registry []))
     = (Admin.messages (Admin.mkSite Sample.registry [])
        ++ [(Py.str (Z.of_nat (List.length
                                 (filter (fun t => (Models.id t =? 1)%Z)
                                    (Models.tenants
                                       (Admin.registry (Admin.mkSite Sample.registry []))))))
             ++ " tenant(s) suspended.")%string])%list.
Proof.
  apply (admin_actions_and_public_list (fun l => l) (fun t => (Models.id t =? 1)%Z)
           (Admin.mkSite Sample.registry []) DjangoTenants.fresh).
  intros l. apply Permutation_refl.
Defined.

(* ================================================================== *)
(** * The connection and the tenant context manager *)

(** Every operation of the wrapper and of [utils] leaves the connection
    consistent. *)
Lemma set_tenant_consistent o c : Cases.consistent (DjangoTenants.set_tenant o c).
Proof. exists o. split; reflexivity. Qed.

Lemma set_current_tenant_consistent t c :
  Cases.consistent (Utils.set_current_tenant t c).
Proof. destruct t; apply set_tenant_consistent. Qed.

(** X11.  [tenant_context] restores the active schema.  On a connection
    whose active schema is the schema of its tenant object (the wrapper's
    own operations and [utils.set_current_tenant] always leave it so),
    the schema after the block is the schema before it, whatever the
    block did to the connection and also when it raised, in which case
    the exception goes on to the caller; inside the block the schema is
    the one of the tenant passed in, public for [None]. *)
Theorem tenant_context_restores_schema :
  forall (A : Type) (t : option DjangoTenants.TenantLike)
         (body : Eff.M DjangoTenants.Connection A)
         (conn : DjangoTenants.Connection),
    Cases.consistent conn ->
    DjangoTenants.schema_name (snd (Utils.with_tenant_context t body conn))
      = DjangoTenants.schema_name conn
    /\ Cases.consistent (snd (Utils.with_tenant_context t body conn))
    /\ fst (Utils.with_tenant_context t body conn)
       = fst (body (Utils.enter (Utils.tenant_context t conn) conn))
    /\ DjangoTenants.schema_name (Utils.enter (Utils.tenant_context t conn) conn)
       = match t with
         | Some o => DjangoTenants.schema_name_of o
         | None => "public"
         end.
Proof.
  intros A t body conn (o & Ho & Hs).
  destruct (tenant_context_schema_round_trip t body conn) as (He & Hx & Hf).
  split; [|split; [|split]].
  - rewrite Hx. unfold Utils.get_current_tenant. rewrite Ho, Hs. reflexivity.
  - unfold Utils.with_tenant_context.
    destruct (body _) as [r c']. apply set_current_tenant_consistent.
  - exact Hf.
  - exact He.
Qed.

Lemma tenant_context_restores_schema_witness :
  DjangoTenants.schema_name
    (snd (Utils.with_tenant_context (Some (DjangoTenants.Row Sample.tenant_a))
            (fun c => (@Raise unit Py.ProgrammingError,
                       DjangoTenants.set_schema "tenant_old0001" c))
            (DjangoTenants.set_tenant (DjangoTenants.Row Sample.tenant_b)
               DjangoTenants.fresh)))
    = DjangoTenants.schema_name
        (DjangoTenants.set_tenant (DjangoTenants.Row Sample.tenant_b) DjangoTenants.fresh)
  /\ Cases.consistent
       (snd (Utils.with_tenant_context (Some (DjangoTenants.Row Sample.tenant_a))
               (fun c => (@Raise unit Py.ProgrammingError,
                          DjangoTenants.set_schema "tenant_old0001" c))
               (DjangoTenants.set_tenant (DjangoTenants.Row Sample.tenant_b)
                  DjangoTenants.fresh)))
  /\ fst (Utils.with_tenant_context (Some (DjangoTenants.Row Sample.tenant_a))
            (fun c => (@Raise unit Py.ProgrammingError,
                       DjangoTenants.set_schema "tenant_old0001" c))
            (DjangoTenants.set_tenant (DjangoTenants.Row Sample.tenant_b)
               DjangoTenants.fresh))
     = fst ((fun c => (@Raise unit Py.ProgrammingError,
                       DjangoTenants.set_schema "tenant_old0001" c))
              (Utils.enter
                 (Utils.tenant_context (Some (DjangoTenants.Row Sample.tenant_a))
                    (DjangoTenants.set_tenant (DjangoTenants.Row Sample.tenant_b)
                       DjangoTenants.fresh))
                 (DjangoTenants.set_tenant (DjangoTenants.Row Sample.tenant_b)
                    DjangoTenants.fresh)))
  /\ DjangoTenants.schema_name
       (Utils.enter
          (Utils.tenant_context (Some (DjangoTenants.Row Sample.tenant_a))
             (DjangoTenants.set_tenant (DjangoTenants.Row Sample.tenant_b)
                DjangoTenants.fresh))
          (DjangoTenants.set_tenant (DjangoTenants.Row Sample.tenant_b)
             DjangoTenants.fresh))
     = match Some (DjangoTenants.Row Sample.tenant_a) with
       | Some o => DjangoTenants.schema_name_of o
       | None => "public"
       end.
Proof.
  apply (tenant_context_restores_schema unit
           (Some (DjangoTenants.Row Sample.tenant_a))
           (fun c => (@Raise unit Py.ProgrammingError,
                      DjangoTenants.set_schema "tenant_old0001" c))
           (DjangoTenants.set_tenant (DjangoTenants.Row Sample.tenant_b)
              DjangoTenants.fresh)).
  exists (DjangoTenants.Row Sample.tenant_b). split; reflexivity.
Defined.

(* ================================================================== *)
(** * Further properties of provisioning and tear-down *)

(** X12.  Both schema commands treat an unknown tenant id alike: the
    message goes to the error stream, the command ends normally, and
    nothing else happens; the delete command does not ask and does not
    drop, with or without [--force]. *)
Theorem commands_on_unknown_tenant :
  forall (server : Sql.statement -> Eff.M Sql.Database (list string))
         (migrate : string -> Eff.M Sql.Database unit)
         (env : Commands.Env) (tenant_id : Z) (force : bool),
    Models.get_by_id (Commands.registry env) tenant_id = Models.DoesNotExist ->
    Commands.create_tenant_schema.handle server migrate tenant_id env
    = (Ok tt,
       Commands.mkEnv (Commands.registry env) (Commands.db env) (Commands.stdin env)
         (Commands.stdout env)
         (Commands.stderr env
          ++ ["Tenant with ID " ++ Py.str tenant_id ++ " does not exist"]))
    /\ Commands.delete_tenant_schema.handle tenant_id force env
       = (Ok tt,
          Commands.mkEnv (Commands.registry env) (Commands.db env) (Commands.stdin env)
            (Commands.stdout env)
            (Commands.stderr env
             ++ ["Tenant with ID " ++ Py.str tenant_id ++ " does not exist"])).
Proof.
  intros server migrate env tenant_id force Hget.
  unfold Commands.create_tenant_schema.handle, Commands.delete_tenant_schema.handle,
    Eff.bind, Eff.get.
  rewrite Hget. split; reflexivity.
Qed.

Lemma commands_on_unknown_tenant_witness :
  Commands.create_tenant_schema.handle Sample.syntax_error Sample.failing_migrate 7
    (Sample.env Sample.provisioned)
  = (Ok tt,
     Commands.mkEnv (Commands.registry (Sample.env Sample.provisioned))
       (Commands.db (Sample.env Sample.provisioned))
       (Commands.stdin (Sample.env Sample.provisioned))
       (Commands.stdout (Sample.env Sample.provisioned))
       (Commands.stderr (Sample.env Sample.provisioned)
        ++ ["Tenant with ID " ++ Py.str 7 ++ " does not exist"]))
  /\ Commands.delete_tenant_schema.handle 7 true (Sample.env Sample.provisioned)
     = (Ok tt,
        Commands.mkEnv (Commands.registry (Sample.env Sample.provisioned))
          (Commands.db (Sample.env Sample.provisioned))
          (Commands.stdin (Sample.env Sample.provisioned))
          (Commands.stdout (Sample.env Sample.provisioned))
          (Commands.stderr (Sample.env Sample.provisioned)
           ++ ["Tenant with ID " ++ Py.str 7 ++ " does not exist"])).
Proof.
  apply (commands_on_unknown_tenant Sample.syntax_error Sample.failing_migrate
           (Sample.env Sample.provisioned) 7 true).
  reflexivity.
Defined.

Section TearDown.
Import Sql.

(** Dropping what was just created gives the schemas back. *)
Lemma drop_created (n : string) (l : list Schema) :
  existsb (String.eqb n) (map schema_name l) = false ->
  filter (fun s => negb (String.eqb (schema_name s) n)) (l ++ [mkSchema n []])
  = l.
Proof.
  intros Habs. rewrite filter_app. simpl.
  rewrite String.eqb_refl. simpl. rewrite app_nil_r.
  induction l as [|s l IH]; simpl in *; [reflexivity|].
  apply orb_false_iff in Habs as [Hs Hl].
  rewrite String.eqb_sym in Hs.
  rewrite Hs. simpl. rewrite (IH Hl). reflexivity.
Qed.

Lemma filter_twice {A} (p : A -> bool) (l : list A) :
  filter p (filter p l) = filter p l.
Proof.
  induction l as [|x l IH]; simpl; [reflexivity|].
  destruct (p x) eqn:E; simpl; rewrite ?E, IH; reflexivity.
Qed.

(** A schema that is not there holds no table. *)
Lemma absent_holds_nothing (n t : string) (d : Database) :
  has_schema n d = false -> holds n t d = false.
Proof.
  unfold has_schema, holds, names. induction (schemas d) as [|s l IH]; simpl;
    [reflexivity|].
  intros H. apply orb_false_iff in H as [Hs Hl].
  rewrite String.eqb_sym in Hs. rewrite Hs. simpl. apply IH. exact Hl.
Qed.

(** A name the server stores as it is written starts with "tenant_". *)
Lemma unquoted_prefix (text key : string) :
  unquoted text = Some key -> exists rest, key = "tenant_" ++ rest.
Proof.
  unfold unquoted. intros H.
  destruct (is_word text); simpl in H; [|discriminate].
  destruct (Py.startswith (Py.lower text) "tenant_") eqn:Ep; simpl in H;
    [|discriminate].
  destruct (String.length text <=? 63)%nat; [|discriminate].
  inversion H. subst. apply startswith_inv. exact Ep.
Qed.

End TearDown.

Lemma forced_delete_run (env : Commands.Env) (tenant_id : Z) (tenant : Models.Tenant) :
  Models.get_by_id (Commands.registry env) tenant_id = Models.Found tenant ->
  fst (Commands.delete_tenant_schema.handle tenant_id true env) = Ok tt
  /\ Commands.registry (snd (Commands.delete_tenant_schema.handle tenant_id true env))
     = Commands.registry env
  /\ Sql.schemas (Commands.db (snd (Commands.delete_tenant_schema.handle tenant_id true env)))
     = filter (fun s => negb (String.eqb (Sql.schema_name s) (Models.schema_name tenant)))
              (Sql.schemas (Commands.db env)).
Proof.
  intros Hget. destruct env as [reg d i o e]. simpl in *.
  unfold Commands.delete_tenant_schema.handle, Eff.bind, Eff.get. simpl.
  rewrite Hget. simpl. repeat split.
Qed.

(** X13.  A provisioning that fails leaves the schema behind, and
    tear-down removes it.  For a tenant whose schema name the catalogue
    stores as it is written ("tenant_", then lower-case letters, digits
    and underscores) and whose schema is not yet in the catalogue:
    [create_tenant_schema] fails at [CREATE TABLE], after it has created
    the schema; the name is then among the tenant schemas that
    [list_tenant_schemas] reports, the public schema never is; the
    forced delete command gives back exactly the schemas there were
    before, and a second forced delete ends normally and changes
    nothing. *)
Theorem provision_then_tear_down :
  forall (server : Sql.statement -> Eff.M Sql.Database (list string))
         (env : Commands.Env) (tenant_id : Z) (tenant : Models.Tenant),
    Models.get_by_id (Commands.registry env) tenant_id = Models.Found tenant ->
    Sql.unquoted (Models.schema_name tenant) = Some (Models.schema_name tenant) ->
    Sql.has_schema (Models.schema_name tenant) (Commands.db env) = false ->
    fst (Utils.create_tenant_schema server tenant (Commands.db env))
    = Raise Py.ProgrammingError
    /\ (exists rows,
        UtilsMore.list_tenant_schemas
          (snd (Utils.create_tenant_schema server tenant (Commands.db env)))
        = (Ok rows, snd (Utils.create_tenant_schema server tenant (Commands.db env)))
        /\ In (Models.schema_name tenant) rows
        /\ ~ In "public" rows)
    /\ Sql.schemas
         (Commands.db
            (snd (Commands.delete_tenant_schema.handle tenant_id true
                    (Commands.with_db
                       (snd (Utils.create_tenant_schema server tenant
                               (Commands.db env)))
                       env))))
       = Sql.schemas (Commands.db env)
    /\ fst (Commands.delete_tenant_schema.handle tenant_id true
              (snd (Commands.delete_tenant_schema.handle tenant_id true
                      (Commands.with_db
                         (snd (Utils.create_tenant_schema server tenant
                                 (Commands.db env)))
                         env))))
       = Ok tt
    /\ Sql.schemas
         (Commands.db
            (snd (Commands.delete_tenant_schema.handle tenant_id true
                    (snd (Commands.delete_tenant_schema.handle tenant_id true
                            (Commands.with_db
                               (snd (Utils.create_tenant_schema server tenant
                                       (Commands.db env)))
                               env))))))
       = Sql.schemas (Commands.db env).
Proof.
  intros server env tenant_id tenant Hget Hkey Habs.
  pose proof (create_tenant_schema_run server tenant _ (Commands.db env) Hkey) as Hrun.
  rewrite !(absent_holds_nothing _ _ _ Habs) in Hrun.
  unfold Sql.execute in Hrun. rewrite Habs in Hrun. cbn [snd Sql.schemas] in Hrun.
  set (d1 := snd (Utils.create_tenant_schema server tenant (Commands.db env))).
  assert (Sql.schemas d1
          = (Sql.schemas (Commands.db env)
             ++ [Sql.mkSchema (Models.schema_name tenant) []])%list) as Hd1
    by (unfold d1; rewrite Hrun; reflexivity).
  assert (Models.get_by_id (Commands.registry (Commands.with_db d1 env)) tenant_id
          = Models.Found tenant) as Hget1 by exact Hget.
  destruct (forced_delete_run _ tenant_id tenant Hget1) as (Hok1 & Hreg1 & Hs1).
  assert (Sql.schemas
            (Commands.db
               (snd (Commands.delete_tenant_schema.handle tenant_id true
                       (Commands.with_db d1 env))))
          = Sql.schemas (Commands.db env)) as Hback.
  { rewrite Hs1. simpl. rewrite Hd1. apply drop_created. exact Habs. }
  assert (Models.get_by_id
            (Commands.registry
               (snd (Commands.delete_tenant_schema.handle tenant_id true
                       (Commands.with_db d1 env)))) tenant_id
          = Models.Found tenant) as Hget2 by (rewrite Hreg1; exact Hget).
  destruct (forced_delete_run _ tenant_id tenant Hget2) as (Hok2 & _ & Hs2).
  split; [rewrite Hrun; reflexivity|].
  split; [|split; [exact Hback | split; [exact Hok2|]]].
  - eexists. split; [reflexivity|]. split.
    + apply filter_In. split.
      * unfold Sql.names. rewrite Hd1, map_app. simpl.
        apply in_or_app. right. left. reflexivity.
      * destruct (unquoted_prefix _ _ Hkey) as [rest ->]. reflexivity.
    + intros Hin. apply filter_In in Hin as [_ Hin]. discriminate.
  - rewrite Hs2, Hs1. rewrite filter_twice. rewrite <- Hs1. exact Hback.
Qed.

Lemma provision_then_tear_down_witness :
  fst (Utils.create_tenant_schema Sample.syntax_error Cases.tenant_test
         (Commands.db (Cases.env_with_test Sample.database)))
  = Raise Py.ProgrammingError
  /\ (exists rows,
      UtilsMore.list_tenant_schemas
        (snd (Utils.create_tenant_schema Sample.syntax_error Cases.tenant_test
                (Commands.db (Cases.env_with_test Sample.database))))
      = (Ok rows,
         snd (Utils.create_tenant_schema Sample.syntax_error Cases.tenant_test
                (Commands.db (Cases.env_with_test Sample.database))))
      /\ In (Models.schema_name Cases.tenant_test) rows
      /\ ~ In "public" rows)
  /\ Sql.schemas
       (Commands.db
          (snd (Commands.delete_tenant_schema.handle 9 true
                  (Commands.with_db
                     (snd (Utils.create_tenant_schema Sample.syntax_error
                             Cases.tenant_test
                             (Commands.db (Cases.env_with_test Sample.database))))
                     (Cases.env_with_test Sample.database)))))
     = Sql.schemas (Commands.db (Cases.env_with_test Sample.database))
  /\ fst (Commands.delete_tenant_schema.handle 9 true
            (snd (Commands.delete_tenant_schema.handle 9 true
                    (Commands.with_db
                       (snd (Utils.create_tenant_schema Sample.syntax_error
                               Cases.tenant_test
                               (Commands.db (Cases.env_with_test Sample.database))))
                       (Cases.env_with_test Sample.database)))))
     = Ok tt
  /\ Sql.schemas
       (Commands.db
          (snd (Commands.delete_tenant_schema.handle 9 true
                  (snd (Commands.delete_tenant_schema.handle 9 true
                          (Commands.with_db
                             (snd (Utils.create_tenant_schema Sample.syntax_error
                                     Cases.tenant_test
                                     (Commands.db
                                        (Cases.env_with_test Sample.database))))
                             (Cases.env_with_test Sample.database)))))))
     = Sql.schemas (Commands.db (Cases.env_with_test Sample.database)).
Proof.
  apply (provision_then_tear_down Sample.syntax_error
           (Cases.env_with_test Sample.database) 9 Cases.tenant_test);
    reflexivity.
Defined.

(* ================================================================== *)
(** * [Tenant.save] and the trial countdown *)

Lemma truthy_app_right (a b : string) :
  Py.truthy b = true -> Py.truthy (a ++ b) = true.
Proof.
  intros Hb. destruct a; simpl; [exact Hb | reflexivity].
Qed.

Lemma four_digits_truthy (r : string) :
  String.length r = 4%nat -> Py.truthy r = true.
Proof. destruct r; simpl; [discriminate | reflexivity]. Qed.

Lemma before_save_identifiers (r : string) (t : Models.Tenant) :
  String.length r = 4%nat ->
  Cases.has_identifiers (TenantMethods.before_save r t).
Proof.
  intros Hr. unfold Cases.has_identifiers, TenantMethods.before_save.
  destruct (Py.truthy (Models.code t)) eqn:Hc;
    destruct (Py.truthy (Models.schema_name t)) eqn:Hs; simpl;
    rewrite ?Hs, ?Hc; simpl;
    repeat split;
    try assumption; try reflexivity;
    apply truthy_app_right, four_digits_truthy; exact Hr.
Qed.

Lemma before_save_complete (r : string) (t : Models.Tenant) :
  Cases.has_identifiers t -> TenantMethods.before_save r t = t.
Proof.
  intros [Hc Hs]. unfold TenantMethods.before_save.
  rewrite Hc. simpl. rewrite Hs. reflexivity.
Qed.

Lemma before_save_id (r : string) (t : Models.Tenant) :
  Models.id (TenantMethods.before_save r t) = Models.id t.
Proof.
  unfold TenantMethods.before_save.
  destruct (Py.truthy (Models.code t)); simpl;
    destruct (Py.truthy (Models.schema_name t)); reflexivity.
Qed.

(** X14.  [Tenant.save] completes the identifiers once, for a tenant
    whose name and code are ASCII.  A code or a
    schema name that the instance has is kept; a missing code is the
    first three characters of the name in upper case followed by the
    four random digits, and a missing schema name is "tenant_" followed
    by the code in lower case.  After these statements both are
    non-empty, so a later [save] of the instance generates nothing,
    whatever digits it would draw, and writes the instance as it is. *)
Theorem tenant_save_completes_identifiers :
  forall (r1 r2 : string) (t : Models.Tenant),
    String.length r1 = 4%nat ->
    PyMore.is_ascii (Models.name t) = true ->
    PyMore.is_ascii (Models.code t) = true ->
    let t1 := TenantMethods.before_save r1 t in
    Py.truthy (Models.code t1) = true
    /\ Py.truthy (Models.schema_name t1) = true
    /\ Models.code t1
       = (if Py.truthy (Models.code t) then Models.code t
          else PyMore.upper (PyMore.take 3 (Models.name t)) ++ r1)
    /\ Models.schema_name t1
       = (if Py.truthy (Models.schema_name t) then Models.schema_name t
          else "tenant_" ++ Py.lower (Models.code t1))
    /\ Models.id t1 = Models.id t
    /\ Models.name t1 = Models.name t
    /\ Models.domain t1 = Models.domain t
    /\ Models.subscription_status t1 = Models.subscription_status t
    /\ (forall reg, TenantMethods.save r2 t1 reg = (t1, Models.save t1 reg)).
Proof.
  intros r1 r2 t Hr _ _ t1.
  pose proof (before_save_identifiers r1 t Hr) as Hids.
  subst t1. destruct Hids as [Hc Hs].
  split; [exact Hc|]. split; [exact Hs|].
  split; [|split; [|split; [|split; [|split; [|split]]]]].
  - unfold TenantMethods.before_save.
    destruct (Py.truthy (Models.code t)) eqn:E; simpl;
      destruct (Py.truthy (Models.schema_name t)); reflexivity.
  - unfold TenantMethods.before_save.
    destruct (Py.truthy (Models.code t)) eqn:E; simpl;
      destruct (Py.truthy (Models.schema_name t)) eqn:E'; simpl;
      rewrite ?E'; reflexivity.
  - apply before_save_id.
  - unfold TenantMethods.before_save.
    destruct (Py.truthy (Models.code t)); simpl;
      destruct (Py.truthy (Models.schema_name t)); reflexivity.
  - unfold TenantMethods.before_save.
    destruct (Py.truthy (Models.code t)); simpl;
      destruct (Py.truthy (Models.schema_name t)); reflexivity.
  - unfold TenantMethods.before_save.
    destruct (Py.truthy (Models.code t)); simpl;
      destruct (Py.truthy (Models.schema_name t)); reflexivity.
  - intros reg. unfold TenantMethods.save.
    rewrite (before_save_complete r2 _ (conj Hc Hs)). reflexivity.
Qed.

Lemma tenant_save_completes_identifiers_witness :
  Models.code (TenantMethods.before_save "4821" Cases.tenant_new) = "LAG4821"
  /\ Models.schema_name (TenantMethods.before_save "4821" Cases.tenant_new)
     = "tenant_lag4821"
  /\ TenantMethods.save "0007" (TenantMethods.before_save "4821" Cases.tenant_new)
       Sample.registry
     = (TenantMethods.before_save "4821" Cases.tenant_new,
        Models.save (TenantMethods.before_save "4821" Cases.tenant_new)
          Sample.registry).
Proof.
  pose proof (tenant_save_completes_identifiers "4821" "0007" Cases.tenant_new
                eq_refl eq_refl eq_refl) as H.
  simpl in H.
  destruct H as (_ & _ & Hc & Hs & _ & _ & _ & _ & Hsave).
  split; [exact Hc|]. split; [exact Hs|]. exact (Hsave Sample.registry).
Defined.

(** X15.  The trial countdown is a pure function of the stored dates
    and today's date.  It is never negative, it is zero for a tenant
    that is not in trial, thirty without an end date, and for a trial
    with an end date it is the number of days left: it never grows as
    the days pass, goes down by one per day while positive, and is zero
    exactly from the end date on. *)
Theorem trial_countdown :
  forall (today today' : Z) (end_date : option Z) (t : Models.Tenant),
    today <= today' ->
    0 <= TenantMethods.days_remaining_in_trial today end_date t
    /\ TenantMethods.days_remaining_in_trial today' end_date t
       <= TenantMethods.days_remaining_in_trial today end_date t
    /\ (TenantMethods.is_trial t = false ->
        TenantMethods.days_remaining_in_trial today end_date t = 0)
    /\ (TenantMethods.is_trial t = true ->
        TenantMethods.days_remaining_in_trial today None t = 30
        /\ forall e,
            (TenantMethods.days_remaining_in_trial today (Some e) t = 0
             <-> e <= today)
            /\ (today < e ->
                TenantMethods.days_remaining_in_trial (today + 1) (Some e) t
                = TenantMethods.days_remaining_in_trial today (Some e) t - 1)).
Proof.
  intros today today' end_date t Hle.
  unfold TenantMethods.days_remaining_in_trial, PyMore.max.
  destruct (TenantMethods.is_trial t); simpl.
  - split; [destruct end_date; lia|].
    split; [destruct end_date; lia|].
    split; [discriminate|].
    intros _. split; [reflexivity|].
    intros e. split; [split; lia | lia].
  - split; [lia|]. split; [lia|]. split; [reflexivity | discriminate].
Qed.

Lemma trial_countdown_witness :
  0 <= TenantMethods.days_remaining_in_trial 100 (Some 110) Cases.tenant_test
  /\ TenantMethods.days_remaining_in_trial 104 (Some 110) Cases.tenant_test
     <= TenantMethods.days_remaining_in_trial 100 (Some 110) Cases.tenant_test.
Proof.
  pose proof (trial_countdown 100 104 (Some 110) Cases.tenant_test) as H.
  destruct H as (H0 & H1 & _); [lia|].
  split; [exact H0 | exact H1].
Defined.

(* ================================================================== *)
(** * The tenant authentication backend *)

Lemma filter_andb {A} (f g : A -> bool) (l : list A) :
  filter (fun x => f x && g x) l = filter g (filter f l).
Proof.
  induction l as [|x l IH]; simpl; [reflexivity|].
  destruct (f x); simpl; [destruct (g x)|]; rewrite IH; reflexivity.
Qed.

Lemma filter_map_in {A} (p : A -> bool) (f : A -> A) (l : list A) :
  (forall x, In x l -> p (f x) = p x) ->
  filter p (map f l) = map f (filter p l).
Proof.
  induction l as [|x l IH]; simpl; intros Hp; [reflexivity|].
  rewrite (Hp x (or_introl eq_refl)).
  destruct (p x); simpl; rewrite IH; auto.
Qed.

Lemma unique_key_row {A B} (f : A -> B) (l : list A) (x y : A) :
  NoDup (map f l) -> In x l -> In y l -> f x = f y -> x = y.
Proof.
  induction l as [|a l IH]; simpl; intros Hnd Hx Hy Hf; [contradiction|].
  inversion Hnd as [|? ? Ha Hnd']; subst.
  destruct Hx as [-> | Hx], Hy as [-> | Hy].
  - reflexivity.
  - exfalso. apply Ha. rewrite Hf. apply in_map. exact Hy.
  - exfalso. apply Ha. rewrite <- Hf. apply in_map. exact Hx.
  - apply IH; assumption.
Qed.

Section BackendFacts.
Import Auth.

Variable check_password : string -> string -> bool.
Variable inet_ok : string -> bool.

Lemma save_storable (u : TenantUser) (users : list TenantUser) :
  storable inet_ok u = true ->
  save inet_ok u users = (Returned tt, written u users).
Proof. intros H. unfold save. rewrite H. reflexivity. Qed.

Lemma written_twice (u : TenantUser) (users : list TenantUser) :
  written u (written u users) = written u users.
Proof.
  unfold written. rewrite map_map. apply map_ext. intros r.
  destruct (pk r =? pk u) eqn:E; [rewrite Z.eqb_refl | rewrite E]; reflexivity.
Qed.

Lemma written_written (u1 u2 : TenantUser) (users : list TenantUser) :
  pk u2 = pk u1 -> written u2 (written u1 users) = written u2 users.
Proof.
  intros Hpk. unfold written. rewrite map_map. apply map_ext. intros r.
  rewrite Hpk. destruct (pk r =? pk u1) eqn:E; [rewrite Z.eqb_refl | rewrite E];
    reflexivity.
Qed.

Lemma written_self (u : TenantUser) (users : list TenantUser) :
  NoDup (map pk users) -> In u users -> written u users = users.
Proof.
  intros Hnd Hin. unfold written. rewrite <- (map_id users) at 2.
  apply map_ext_in. intros r Hr.
  destruct (pk r =? pk u) eqn:E; [|reflexivity].
  apply Z.eqb_eq in E. symmetry.
  apply (unique_key_row pk users r u Hnd Hr Hin E).
Qed.

Lemma written_keys (u : TenantUser) (users : list TenantUser) :
  map pk (written u users) = map pk users.
Proof.
  unfold written. rewrite map_map. apply map_ext. intros r.
  destruct (pk r =? pk u) eqn:E; [|reflexivity].
  apply Z.eqb_eq in E. congruence.
Qed.

(** A lookup after the [save] of a row that answers the condition as
    the stored row did. *)
Lemma written_filter (cond : TenantUser -> bool) (u u' : TenantUser)
    (users : list TenantUser) :
  NoDup (map pk users) -> In u users -> pk u' = pk u -> cond u' = cond u ->
  filter cond (written u' users) = written u' (filter cond users).
Proof.
  intros Hnd Hin Hpk Hcond. unfold written. apply filter_map_in.
  intros x Hx. destruct (pk x =? pk u') eqn:E; [|reflexivity].
  apply Z.eqb_eq in E.
  rewrite (unique_key_row pk users x u Hnd Hx Hin); [exact Hcond | congruence].
Qed.

Lemma found_in {A} (cond : A -> bool) (rows : list A) (a : A) :
  Models.objects_get cond rows = Models.Found a -> In a rows /\ cond a = true.
Proof.
  intros H. apply objects_get_found_filter in H.
  assert (In a (filter cond rows)) as Hin by (rewrite H; left; reflexivity).
  apply filter_In in Hin. exact Hin.
Qed.

Lemma written_get (cond : TenantUser -> bool) (u u' : TenantUser)
    (users : list TenantUser) :
  NoDup (map pk users) ->
  Models.objects_get cond users = Models.Found u ->
  pk u' = pk u -> cond u' = true ->
  Models.objects_get cond (written u' users) = Models.Found u'.
Proof.
  intros Hnd Hget Hpk Hcond.
  destruct (found_in _ _ _ Hget) as [Hin Hu].
  unfold Models.objects_get.
  rewrite (written_filter cond u u' users Hnd Hin Hpk) by congruence.
  rewrite (objects_get_found_filter _ _ _ Hget). simpl.
  rewrite <- Hpk, Z.eqb_refl. reflexivity.
Qed.

(** An inactive member is no active member. *)
Lemma inactive_member_not_found (name : string) (t : Models.Tenant)
    (u : TenantUser) (users : list TenantUser) :
  Models.objects_get (member name t) users = Models.Found u ->
  is_active u = false ->
  Models.objects_get (active_member name t) users = Models.DoesNotExist.
Proof.
  intros Hget Hin. unfold Models.objects_get, active_member.
  rewrite (filter_andb (member name t) is_active).
  rewrite (objects_get_found_filter _ _ _ Hget). simpl. rewrite Hin. reflexivity.
Qed.

Lemma counted_storable (now : Z) (u : TenantUser) :
  storable inet_ok u = true ->
  failed_login_attempts u + 1 <= 2147483647 ->
  storable inet_ok (Cases.counted now u) = true.
Proof.
  unfold storable, Cases.counted, int4. intros H Hmax.
  apply andb_prop in H as [Hr Hip]. apply andb_prop in Hr as [Hlo _].
  apply Z.leb_le in Hlo.
  destruct (5 <=? _); simpl; rewrite Hip, andb_true_r;
    apply andb_true_intro; split; apply Z.leb_le; lia.
Qed.

Lemma inactive_attempt (request : Request) (name raw_password : string)
    (now login_time : Z) (t : Models.Tenant) (u : TenantUser)
    (users : list TenantUser) :
  tenant request = Some t ->
  Models.objects_get (member name t) users = Models.Found u ->
  is_active u = false ->
  storable inet_ok u = true ->
  failed_login_attempts u + 1 <= 2147483647 ->
  authenticate check_password inet_ok request name raw_password now login_time users
  = (Returned None, written (Cases.counted now u) users).
Proof.
  intros Ht Hget Hin Hst Hmax.
  pose proof (counted_storable now u Hst Hmax) as Hst'.
  unfold authenticate. rewrite Ht.
  rewrite (inactive_member_not_found name t u users Hget Hin), Hget.
  unfold Cases.counted in *. cbv zeta in *.
  destruct (5 <=? failed_login_attempts
                    (with_failed_login_attempts (failed_login_attempts u + 1) u)).
  - unfold lock_account. cbv zeta.
    rewrite (save_storable _ _ Hst'), (save_storable _ _ Hst'), written_twice.
    reflexivity.
  - rewrite (save_storable _ _ Hst'). reflexivity.
Qed.

End BackendFacts.

Section BackendRuns.
Import Auth.

Variable check_password : string -> string -> bool.
Variable inet_ok : string -> bool.

Lemma counted_fields (now : Z) (u : TenantUser) :
  pk (Cases.counted now u) = pk u
  /\ tenant_id (Cases.counted now u) = tenant_id u
  /\ username (Cases.counted now u) = username u
  /\ password (Cases.counted now u) = password u
  /\ is_active (Cases.counted now u) = is_active u
  /\ last_login (Cases.counted now u) = last_login u
  /\ last_login_ip (Cases.counted now u) = last_login_ip u
  /\ failed_login_attempts (Cases.counted now u) = failed_login_attempts u + 1
  /\ account_locked_until (Cases.counted now u)
     = (if 5 <=? failed_login_attempts u + 1 then Some (now + minutes 30)
        else account_locked_until u).
Proof.
  unfold Cases.counted. cbv zeta. simpl.
  destruct (5 <=? failed_login_attempts u + 1); simpl; repeat split; reflexivity.
Qed.

(** X16.  Rejected attempts leave no trace on an active account.  For
    a user that is active in the request's tenant, a series of calls of
    [authenticate] of any length in which every call has a wrong
    password, or comes while the account is locked, returns None each
    time and leaves the user table as it was: no failed attempt is
    counted and the account is never locked by it. *)
Theorem rejections_leave_no_trace_on_active_account
    (request : Request) (name : string) (t : Models.Tenant)
    (u : TenantUser) (tries : list (string * Z * Z)) (users : list TenantUser) :
  tenant request = Some t ->
  Models.objects_get (active_member name t) users = Models.Found u ->
  (forall p now login_time,
      In (p, now, login_time) tries ->
      check_password p (password u) = false \/ is_account_locked now u = true) ->
  attempts check_password inet_ok request name tries users
  = (map (fun _ => Returned None) tries, users).
Proof.
  intros Ht Hget. induction tries as [|[[p now] lt] rest IH]; intros Hrej;
    [reflexivity|].
  simpl. unfold authenticate at 1. rewrite Ht, Hget.
  assert ((if check_password p (password u)
           then if is_account_locked now u then (Returned None, users)
                else
                  match
                    save inet_ok
                      (with_last_login (Some lt) (get_client_ip request)
                         (with_account_locked_until None
                            (with_failed_login_attempts 0 u))) users
                  with
                  | (Returned _, users0) =>
                      (Returned
                         (Some
                            (with_last_login (Some lt) (get_client_ip request)
                               (with_account_locked_until None
                                  (with_failed_login_attempts 0 u)))), users0)
                  | (Raised e, users0) => (Raised e, users0)
                  end
           else (Returned None, users))
          = (@Returned (option TenantUser) None, users)) as ->.
  { destruct (Hrej p now lt (or_introl eq_refl)) as [-> | ->];
      [reflexivity | destruct (check_password p (password u)); reflexivity]. }
  rewrite IH; [reflexivity|].
  intros p' now' lt' Hin. apply (Hrej p' now' lt'). right. exact Hin.
Qed.

(** X17.  An inactive account counts every attempt and never lets
    anybody in.  For a user of the request's tenant that is not active,
    with unique primary keys in the table and a counter that stays
    within the integer column, every call of [authenticate] returns None
    whatever the password is (the password is not looked at), each call
    adds one to the failed attempts, the table differs from before in
    the user's row only and the user's other attributes are kept, the
    lock is untouched while the counter is below five, and from five on
    the account is locked until thirty minutes after the last attempt. *)
Theorem inactive_account_counts_every_attempt
    (request : Request) (name : string) (t : Models.Tenant)
    (tries : list (string * Z * Z)) :
  tenant request = Some t ->
  forall (users : list TenantUser) (u : TenantUser),
    NoDup (map pk users) ->
    Models.objects_get (member name t) users = Models.Found u ->
    is_active u = false ->
    storable inet_ok u = true ->
    failed_login_attempts u + Z.of_nat (List.length tries) <= 2147483647 ->
    exists u',
      attempts check_password inet_ok request name tries users
      = (map (fun _ => Returned None) tries,
         snd (attempts check_password inet_ok request name tries users))
      /\ Models.objects_get (member name t)
           (snd (attempts check_password inet_ok request name tries users))
         = Models.Found u'
      /\ snd (attempts check_password inet_ok request name tries users)
         = written u' users
      /\ (tries = [] -> u' = u)
      /\ failed_login_attempts u'
         = failed_login_attempts u + Z.of_nat (List.length tries)
      /\ pk u' = pk u /\ password u' = password u /\ is_active u' = false
      /\ last_login u' = last_login u /\ last_login_ip u' = last_login_ip u
      /\ (failed_login_attempts u + Z.of_nat (List.length tries) < 5 ->
          account_locked_until u' = account_locked_until u)
      /\ (forall front p now login_time,
             tries = (front ++ [(p, now, login_time)])%list ->
             5 <= failed_login_attempts u + Z.of_nat (List.length tries) ->
             account_locked_until u' = Some (now + minutes 30)).
Proof.
  intros Ht. induction tries as [|[[p now] lt] rest IH];
    intros users u Hnd Hget Hin Hst Hmax.
  - exists u. simpl. rewrite Z.add_0_r.
    destruct (found_in _ _ _ Hget) as [Hu _].
    rewrite (written_self u users Hnd Hu).
    repeat split; auto.
    intros front p now lt Hfront. destruct front; discriminate.
  - change (List.length ((p, now, lt) :: rest)) with (S (List.length rest)) in *.
    rewrite Nat2Z.inj_succ in *.
    destruct (counted_fields now u)
      as (Hpk & Htid & Hname & Hpw & Hact & Hll & Hip & Hfail & Hlock).
    assert (storable inet_ok (Cases.counted now u) = true) as Hst1
      by (apply counted_storable; [exact Hst | lia]).
    assert (authenticate check_password inet_ok request name p now lt users
            = (Returned None, written (Cases.counted now u) users)) as Hstep
      by (apply (inactive_attempt _ _ _ _ _ _ _ t); auto; lia).
    destruct (found_in _ _ _ Hget) as [_ Hmem].
    assert (Models.objects_get (member name t) (written (Cases.counted now u) users)
            = Models.Found (Cases.counted now u)) as Hget1.
    { apply (written_get _ u); auto.
      unfold member in *. rewrite Hname, Htid. exact Hmem. }
    assert (NoDup (map pk (written (Cases.counted now u) users))) as Hnd1
      by (rewrite written_keys; exact Hnd).
    destruct (IH _ _ Hnd1 Hget1) as
      (u' & Hrun & Hget' & Htab & Hnil & Hfail' & Hpk' & Hpw' & Hact' & Hll' & Hip'
       & Hkeep & Hlast);
      [congruence | exact Hst1 | lia |].
    exists u'. simpl. rewrite Hstep.
    destruct (attempts check_password inet_ok request name rest
                (written (Cases.counted now u) users)) as [rs users'] eqn:Erest.
    simpl in *. inversion Hrun; subst rs.
    split; [congruence|]. split; [exact Hget'|].
    split; [rewrite Htab; apply written_written; congruence|].
    split; [discriminate|]. split; [lia|].
    split; [congruence|]. split; [congruence|]. split; [exact Hact'|].
    split; [congruence|]. split; [congruence|]. split.
    + intros Hlt. rewrite Hkeep by lia. rewrite Hlock.
      destruct (5 <=? failed_login_attempts u + 1) eqn:E; [|reflexivity].
      apply Z.leb_le in E. lia.
    + intros front p' now' lt' Hfront Hge.
      destruct front as [|f front]; simpl in Hfront.
      * injection Hfront as Hp Hrest. subst rest. inversion Hp; subst.
        rewrite (Hnil eq_refl), Hlock. simpl in Hge.
        destruct (5 <=? failed_login_attempts u + 1) eqn:E; [reflexivity|].
        apply Z.leb_gt in E. lia.
      * injection Hfront as _ Hrest.
        apply (Hlast front p' now' lt' Hrest). lia.
Qed.

End BackendRuns.

Lemma rejections_leave_no_trace_on_active_account_witness :
  Auth.attempts Cases.plain_check Cases.known_inet Cases.login_request "ada"
    [("guess1", 100, 101); ("guess2", 200, 201); ("guess3", 300, 301);
     ("guess4", 400, 401); ("guess5", 500, 501); ("guess6", 600, 601)]
    Cases.users
  = (map (fun _ => Auth.Returned None)
       [("guess1", 100, 101); ("guess2", 200, 201); ("guess3", 300, 301);
        ("guess4", 400, 401); ("guess5", 500, 501); ("guess6", 600, 601)],
     Cases.users).
Proof.
  apply (rejections_leave_no_trace_on_active_account Cases.plain_check
           Cases.known_inet Cases.login_request "ada" Sample.tenant_a
           Cases.user_ada).
  - reflexivity.
  - reflexivity.
  - intros p now login_time Hin. left. simpl in Hin.
    repeat (destruct Hin as [Hin | Hin];
            [injection Hin as <- _ _; reflexivity|]).
    contradiction.
Defined.

Lemma inactive_account_counts_every_attempt_witness :
  exists u',
    Models.objects_get (Auth.member "bob" Sample.tenant_a)
      (snd (Auth.attempts Cases.plain_check Cases.known_inet Cases.login_request
              "bob" [("guess", 100, 101); ("hunter2", 200, 201)] Cases.users))
    = Models.Found u'
    /\ Auth.failed_login_attempts u' = 5
    /\ Auth.account_locked_until u' = Some (200 + Auth.minutes 30).
Proof.
  destruct (inactive_account_counts_every_attempt Cases.plain_check
              Cases.known_inet Cases.login_request "bob" Sample.tenant_a
              [("guess", 100, 101); ("hunter2", 200, 201)] eq_refl
              Cases.users Cases.user_bob)
    as (u' & _ & Hget & _ & _ & Hfail & _ & _ & _ & _ & _ & _ & Hlast).
  - repeat constructor; simpl; intuition discriminate.
  - reflexivity.
  - reflexivity.
  - reflexivity.
  - simpl. lia.
  - exists u'. split; [exact Hget|]. split; [exact Hfail|].
    apply (Hlast [("guess", 100, 101)] "hunter2" 200 201); [reflexivity|].
    simpl. lia.
Defined.

Section BackendSuccess.
Import Auth.

Variable check_password : string -> string -> bool.
Variable inet_ok : string -> bool.

Lemma storable_login (request : Request) (login_time : Z) (u : TenantUser) :
  storable inet_ok
    (with_last_login (Some login_time) (get_client_ip request)
       (with_account_locked_until None (with_failed_login_attempts 0 u)))
  = Cases.address_ok inet_ok request.
Proof. reflexivity. Qed.

(** X18.  The right password on an active account has three outcomes.
    While the account is locked the call returns None and writes
    nothing.  Otherwise, when the address read from the request is not
    one the address column takes, the call raises and writes nothing;
    when it is, the call returns the user with the failed attempts at
    zero, no lock, the login time and the address, writes that row, and
    every later call with the same password and request succeeds as
    well, at any clock reading. *)
Theorem right_password_outcomes
    (request : Request) (name raw_password : string) (now login_time : Z)
    (t : Models.Tenant) (u : TenantUser) (users : list TenantUser) :
  tenant request = Some t ->
  NoDup (map pk users) ->
  Models.objects_get (active_member name t) users = Models.Found u ->
  check_password raw_password (password u) = true ->
  (is_account_locked now u = true ->
   authenticate check_password inet_ok request name raw_password now login_time users
   = (Returned None, users))
  /\ (is_account_locked now u = false ->
      Cases.address_ok inet_ok request = false ->
      authenticate check_password inet_ok request name raw_password now login_time
        users
      = (Raised SaveRefused, users))
  /\ (is_account_locked now u = false ->
      Cases.address_ok inet_ok request = true ->
      exists u',
        authenticate check_password inet_ok request name raw_password now
          login_time users
        = (Returned (Some u'), written u' users)
        /\ pk u' = pk u
        /\ failed_login_attempts u' = 0
        /\ account_locked_until u' = None
        /\ last_login u' = Some login_time
        /\ last_login_ip u' = get_client_ip request
        /\ Models.objects_get (active_member name t) (written u' users)
           = Models.Found u'
        /\ forall now' login_time',
            exists u'',
              fst (authenticate check_password inet_ok request name raw_password
                     now' login_time' (written u' users))
              = Returned (Some u'')
              /\ pk u'' = pk u
              /\ last_login u'' = Some login_time').
Proof.
  intros Ht Hnd Hget Hpw.
  destruct (found_in _ _ _ Hget) as [Hin Hmem].
  split; [|split].
  - intros Hlocked. unfold authenticate. rewrite Ht, Hget, Hpw, Hlocked.
    reflexivity.
  - intros Hlocked Haddr. unfold authenticate. rewrite Ht, Hget, Hpw, Hlocked.
    cbv zeta. unfold save. rewrite storable_login, Haddr. reflexivity.
  - intros Hlocked Haddr.
    set (u' := with_last_login (Some login_time) (get_client_ip request)
                 (with_account_locked_until None (with_failed_login_attempts 0 u))).
    assert (Models.objects_get (active_member name t) (written u' users)
            = Models.Found u') as Hget'
      by (apply (written_get _ u); auto).
    exists u'. split.
    { unfold authenticate. rewrite Ht, Hget, Hpw, Hlocked. cbv zeta.
      fold u'. unfold save.
      unfold u' at 1. rewrite storable_login, Haddr. reflexivity. }
    repeat (split; [reflexivity|]).
    split; [exact Hget'|].
    intros now' login_time'.
    exists (with_last_login (Some login_time') (get_client_ip request)
              (with_account_locked_until None (with_failed_login_attempts 0 u'))).
    split; [|split; reflexivity].
    unfold authenticate. rewrite Ht, Hget'.
    change (password u') with (password u). rewrite Hpw.
    change (is_account_locked now' u') with false. cbv zeta.
    unfold save. rewrite storable_login, Haddr. reflexivity.
Qed.

End BackendSuccess.

Lemma right_password_outcomes_witness :
  Auth.authenticate Cases.plain_check Cases.known_inet Cases.login_request
    "eve" "pw" 4000 4001 Cases.users
  = (Auth.Returned None, Cases.users)
  /\ exists u',
      Auth.authenticate Cases.plain_check Cases.known_inet Cases.login_request
        "eve" "pw" 6000 6001 Cases.users
      = (Auth.Returned (Some u'), Auth.written u' Cases.users)
      /\ Auth.failed_login_attempts u' = 0
      /\ Auth.account_locked_until u' = None
      /\ Auth.last_login_ip u' = Some "10.0.0.7".
Proof.
  split.
  - apply (right_password_outcomes Cases.plain_check Cases.known_inet
             Cases.login_request "eve" "pw" 4000 4001 Sample.tenant_a
             Cases.user_eve Cases.users); try reflexivity.
    repeat constructor; simpl; intuition discriminate.
  - destruct (right_password_outcomes Cases.plain_check Cases.known_inet
                Cases.login_request "eve" "pw" 6000 6001 Sample.tenant_a
                Cases.user_eve Cases.users) as (_ & _ & Hok); try reflexivity.
    + repeat constructor; simpl; intuition discriminate.
    + destruct (Hok eq_refl eq_refl)
        as (u' & Hrun & _ & Hfail & Hlock & _ & Hip & _).
      exists u'. repeat split; assumption.
Defined.

(* ================================================================== *)
(** * Invitations *)

Lemma filter_nil {A} (p : A -> bool) (l : list A) :
  (forall x, In x l -> p x = false) -> filter p l = [].
Proof.
  induction l as [|x l IH]; simpl; intros H; [reflexivity|].
  rewrite (H x (or_introl eq_refl)). apply IH. intros y Hy. apply H. right. exact Hy.
Qed.

Section ReplaceByKey.

Variable A : Type.
Variable key : A -> Z.

(** The only row that answers [cond] is replaced by one that does not:
    the lookup finds nothing. *)
Lemma replaced_row_gone (cond : A -> bool) (a a' : A) (rows : list A) :
  NoDup (map key rows) ->
  Models.objects_get cond rows = Models.Found a ->
  key a' = key a -> cond a' = false ->
  Models.objects_get cond (map (fun r => if key r =? key a' then a' else r) rows)
  = Models.DoesNotExist.
Proof.
  intros Hnd Hget Hkey Hcond.
  pose proof (objects_get_found_filter _ _ _ Hget) as Hf.
  unfold Models.objects_get. rewrite filter_nil; [reflexivity|].
  intros x Hx. apply in_map_iff in Hx as (r & Hr & Hin).
  destruct (key r =? key a') eqn:E; subst x; [exact Hcond|].
  destruct (cond r) eqn:Hc; [|reflexivity].
  assert (In r (filter cond rows)) as Hrf by (apply filter_In; auto).
  rewrite Hf in Hrf. destruct Hrf as [<- | []].
  rewrite Hkey, Z.eqb_refl in E. discriminate.
Qed.

(** A row with another key stays in the table. *)
Lemma other_row_stays (a' x : A) (rows : list A) :
  In x rows -> key x <> key a' ->
  In x (map (fun r => if key r =? key a' then a' else r) rows).
Proof.
  intros Hin Hne. apply in_map_iff. exists x. split; [|exact Hin].
  apply Z.eqb_neq in Hne. rewrite Hne. reflexivity.
Qed.

Lemma replaced_row_present (a a' : A) (rows : list A) :
  In a rows -> key a' = key a ->
  In a' (map (fun r => if key r =? key a' then a' else r) rows).
Proof.
  intros Hin Hkey. apply in_map_iff. exists a. split; [|exact Hin].
  rewrite Hkey, Z.eqb_refl. reflexivity.
Qed.

Lemma replaced_keys (a' : A) (rows : list A) :
  map key (map (fun r => if key r =? key a' then a' else r) rows) = map key rows.
Proof.
  rewrite map_map. apply map_ext. intros r.
  destruct (key r =? key a') eqn:E; [|reflexivity].
  apply Z.eqb_eq in E. congruence.
Qed.

End ReplaceByKey.

Section InvitationFacts.
Import Invitations.

Variable Users : Type.
Variable User : Type.
Variable create_user : TenantInvitation -> UserData -> Users -> Outcome User * Users.
Variable password_ok : string -> bool.
Variable fresh_token : string.

Lemma save_with_token (self : TenantInvitation) (rows : list TenantInvitation) :
  Py.truthy (token self) = true ->
  save fresh_token self rows = (self, written self rows).
Proof. intros H. unfold save. rewrite H. reflexivity. Qed.

Lemma save_key (self : TenantInvitation) (rows : list TenantInvitation) :
  pk (fst (save fresh_token self rows)) = pk self
  /\ status (fst (save fresh_token self rows)) = status self
  /\ accepted_at (fst (save fresh_token self rows)) = accepted_at self
  /\ snd (save fresh_token self rows)
     = written (fst (save fresh_token self rows)) rows.
Proof.
  unfold save. destruct (negb (Py.truthy (token self))); simpl; auto.
Qed.

(** A token that names no pending invitation is answered with 400 and
    nothing is written. *)
Lemma post_unknown_token (data : Data) (now later accepted_time : Z)
    (st : Store Users) :
  Models.objects_get (pending_with_token (data_token data)) (invitations st)
  = Models.DoesNotExist ->
  post create_user password_ok fresh_token data now later accepted_time st
  = (Returned Response400, st).
Proof.
  intros Hget. unfold post, validate. rewrite Hget.
  destruct (negb (String.eqb (data_password data) (data_confirm_password data)));
    [reflexivity|].
  destruct (negb (password_ok (data_password data))); reflexivity.
Qed.

(** X19.  The outcomes of accepting a pending invitation.  For a
    validated request whose token names one pending invitation: when the
    invitation has run out at validation, the answer is 400 and the row
    is stored as expired; when it runs out between validation and
    [accept], [accept] raises ValueError (no 400) and the row is stored
    as expired; otherwise the user is created and the row stored as
    accepted with the time of acceptance, or, when the creation of the
    user raises, the exception leaves the view and the invitation table
    is untouched.  In the first two cases no user is created.  Once the
    row is stored with a status other than pending, the token is answered
    with 400 and nothing is written any more. *)
Theorem invitation_post_outcomes
    (data : Data) (now later accepted_time : Z) (st : Store Users)
    (inv : TenantInvitation) :
  NoDup (map pk (invitations st)) ->
  Py.truthy (data_token data) = true ->
  data_password data = data_confirm_password data ->
  password_ok (data_password data) = true ->
  Models.objects_get (pending_with_token (data_token data)) (invitations st)
  = Models.Found inv ->
  let user_data :=
    mkUserData (data_username data) (data_first_name data)
               (data_last_name data) (data_password data) in
  let expired :=
    mkStore (written (with_status EXPIRED inv) (invitations st)) (users st) in
  let accepted :=
    written (with_accepted_at (Some accepted_time) (with_status ACCEPTED inv))
            (invitations st) in
  (expires_at inv < now ->
   post create_user password_ok fresh_token data now later accepted_time st
   = (Returned Response400, expired))
  /\ (now <= expires_at inv -> expires_at inv < later ->
      post create_user password_ok fresh_token data now later accepted_time st
      = (Raised (ValueError "Invitation has expired"), expired))
  /\ (now <= expires_at inv -> later <= expires_at inv ->
      forall e users',
        create_user inv user_data (users st) = (Raised e, users') ->
        post create_user password_ok fresh_token data now later accepted_time st
        = (Raised e, mkStore (invitations st) users'))
  /\ (now <= expires_at inv -> later <= expires_at inv ->
      forall user users',
        create_user inv user_data (users st) = (Returned user, users') ->
        post create_user password_ok fresh_token data now later accepted_time st
        = (Returned (Response200 "Invitation accepted successfully"),
           mkStore accepted users'))
  /\ (forall inv' users' now' later' accepted_time',
        pk inv' = pk inv -> is_pending (status inv') = false ->
        post create_user password_ok fresh_token data now' later' accepted_time'
          (mkStore (written inv' (invitations st)) users')
        = (Returned Response400,
           mkStore (written inv' (invitations st)) users')).
Proof.
  intros Hnd Htok Hpw Hok Hget user_data expired accepted.
  destruct (found_in _ _ _ Hget) as [Hin Hcond].
  unfold pending_with_token in Hcond. apply andb_prop in Hcond as [Htoken Hpend].
  apply String.eqb_eq in Htoken.
  assert (Py.truthy (token inv) = true) as Htruthy by (rewrite Htoken; exact Htok).
  assert (forall now0 later0 t0,
             post create_user password_ok fresh_token data now0 later0 t0 st
             = match
                 (if is_expired now0 inv
                  then (Raised (ValidationError "token"), expired)
                  else (Returned inv, st))
               with
               | (Returned invitation, st0) =>
                   match serializer_save create_user fresh_token data invitation
                           later0 t0 st0 with
                   | (Returned _, st1) =>
                       (Returned (Response200 "Invitation accepted successfully"), st1)
                   | (Raised e, st1) => (Raised e, st1)
                   end
               | (Raised (ValidationError _), st0) => (Returned Response400, st0)
               | (Raised e, st0) => (Raised e, st0)
               end) as Hpost.
  { intros now0 later0 t0. unfold post, validate.
    rewrite <- Hpw, String.eqb_refl, Hok, Hget. simpl negb. cbv iota.
    destruct (is_expired now0 inv); [|reflexivity].
    cbv zeta. rewrite save_with_token by exact Htruthy. reflexivity. }
  split; [|split; [|split; [|split]]].
  - intros Hlt. rewrite Hpost. unfold is_expired.
    apply Z.ltb_lt in Hlt. rewrite Hlt. reflexivity.
  - intros Hle Hlt. rewrite Hpost. unfold is_expired.
    apply Z.ltb_ge in Hle. rewrite Hle.
    unfold serializer_save, accept. rewrite Hpend. simpl negb. cbv iota.
    unfold is_expired. apply Z.ltb_lt in Hlt. rewrite Hlt.
    cbv zeta. rewrite save_with_token by exact Htruthy. reflexivity.
  - intros Hle Hle' e users' Hcreate. rewrite Hpost. unfold is_expired.
    apply Z.ltb_ge in Hle. rewrite Hle.
    unfold serializer_save, accept. rewrite Hpend. simpl negb. cbv iota.
    unfold is_expired. apply Z.ltb_ge in Hle'. rewrite Hle'.
    fold user_data. rewrite Hcreate. reflexivity.
  - intros Hle Hle' user users' Hcreate. rewrite Hpost. unfold is_expired.
    apply Z.ltb_ge in Hle. rewrite Hle.
    unfold serializer_save, accept. rewrite Hpend. simpl negb. cbv iota.
    unfold is_expired. apply Z.ltb_ge in Hle'. rewrite Hle'.
    fold user_data. rewrite Hcreate.
    cbv zeta. rewrite save_with_token by exact Htruthy. reflexivity.
  - intros inv' users' now' later' t' Hpk Hst.
    apply post_unknown_token. simpl.
    apply (replaced_row_gone _ pk _ inv); auto.
    unfold pending_with_token. rewrite Hst. apply andb_false_r.
Qed.

End InvitationFacts.

Section InvitationCalls.
Import Invitations.

Variable Users : Type.
Variable User : Type.
Variable create_user : TenantInvitation -> UserData -> Users -> Outcome User * Users.
Variable password_ok : string -> bool.
Variable fresh_token : string.

Lemma settled_here (inv : TenantInvitation) (rows : list TenantInvitation) :
  NoDup (map pk rows) -> In inv rows -> is_pending (status inv) = false ->
  Cases.settled_as inv rows.
Proof.
  intros Hnd Hin Hst. split; [exact Hnd|]. exists inv.
  repeat split; auto.
Qed.

(** The [save] of another row leaves a settled row alone. *)
Lemma settled_save_other (inv self : TenantInvitation)
    (rows : list TenantInvitation) :
  NoDup (map pk rows) -> In inv rows -> is_pending (status inv) = false ->
  pk self <> pk inv ->
  Cases.settled_as inv (snd (save fresh_token self rows)).
Proof.
  intros Hnd Hin Hst Hne.
  destruct (save_key fresh_token self rows) as (Hpk & _ & _ & ->).
  unfold written. split.
  - rewrite (replaced_keys _ pk). exact Hnd.
  - exists inv. split; [|repeat split; auto].
    apply (other_row_stays _ pk); [exact Hin | congruence].
Qed.

(** A pending row has another key than a settled one. *)
Lemma pending_row_other_key (inv i : TenantInvitation)
    (rows : list TenantInvitation) :
  NoDup (map pk rows) -> In inv rows -> In i rows ->
  is_pending (status inv) = false -> is_pending (status i) = true ->
  pk i <> pk inv.
Proof.
  intros Hnd Hin Hi Hst Hpend Hpk.
  rewrite (unique_key_row pk rows i inv Hnd Hi Hin Hpk) in Hpend. congruence.
Qed.

Lemma post_keeps_settled (data : Data) (now later accepted_time : Z)
    (st : Store Users) (inv : TenantInvitation) :
  NoDup (map pk (invitations st)) -> In inv (invitations st) ->
  is_pending (status inv) = false ->
  Cases.settled_as inv
    (invitations
       (snd (post create_user password_ok fresh_token data now later
               accepted_time st))).
Proof.
  intros Hnd Hin Hst.
  pose proof (settled_here inv _ Hnd Hin Hst) as Hhere.
  unfold post, validate.
  destruct (negb (String.eqb (data_password data) (data_confirm_password data)));
    [exact Hhere|].
  destruct (negb (password_ok (data_password data))); [exact Hhere|].
  destruct (Models.objects_get (pending_with_token (data_token data))
              (invitations st)) as [i| |] eqn:Hget; try exact Hhere.
  destruct (found_in _ _ _ Hget) as [Hi Hcond].
  unfold pending_with_token in Hcond. apply andb_prop in Hcond as [_ Hpend].
  pose proof (pending_row_other_key inv i _ Hnd Hin Hi Hst Hpend) as Hne.
  destruct (is_expired now i).
  - cbv zeta.
    pose proof (settled_save_other inv (with_status EXPIRED i) _ Hnd Hin Hst Hne)
      as Hs.
    destruct (save fresh_token (with_status EXPIRED i) (invitations st)).
    exact Hs.
  - unfold serializer_save, accept. rewrite Hpend. simpl negb. cbv iota.
    destruct (is_expired later i).
    + cbv zeta.
      pose proof (settled_save_other inv (with_status EXPIRED i) _ Hnd Hin Hst Hne)
        as Hs.
      destruct (save fresh_token (with_status EXPIRED i) (invitations st)).
      exact Hs.
    + destruct (create_user i _ (users st)) as [[user|e] users']; [|exact Hhere].
      cbv zeta.
      pose proof (settled_save_other inv
                    (with_accepted_at (Some accepted_time) (with_status ACCEPTED i))
                    _ Hnd Hin Hst Hne) as Hs.
      destruct (save fresh_token
                  (with_accepted_at (Some accepted_time) (with_status ACCEPTED i))
                  (invitations st)).
      exact Hs.
Qed.

Lemma get_object_row (user_tenant : option Z) (key : Z)
    (rows : list TenantInvitation) (i : TenantInvitation) :
  get_object user_tenant key rows = Returned i -> In i rows /\ pk i = key.
Proof.
  unfold get_object. destruct user_tenant as [tid|]; [|discriminate].
  destruct (Models.objects_get _ _) as [j| |] eqn:Hget; try discriminate.
  intros H. injection H as ->.
  destruct (found_in _ _ _ Hget) as [Hin Hk].
  apply filter_In in Hin as [Hin _]. apply Z.eqb_eq in Hk. auto.
Qed.

Lemma resend_keeps_settled (user_tenant : option Z) (key now : Z)
    (st : Store Users) (inv : TenantInvitation) :
  NoDup (map pk (invitations st)) -> In inv (invitations st) ->
  is_pending (status inv) = false ->
  Cases.settled_as inv
    (invitations (snd (resend fresh_token user_tenant key now st))).
Proof.
  intros Hnd Hin Hst.
  pose proof (settled_here inv _ Hnd Hin Hst) as Hhere.
  unfold resend.
  destruct (get_object user_tenant key (invitations st)) as [i|e] eqn:Hobj;
    [|exact Hhere].
  destruct (get_object_row _ _ _ _ Hobj) as [Hi _].
  destruct (is_pending (status i)) eqn:Hpend; simpl negb; cbv iota;
    [|exact Hhere].
  pose proof (pending_row_other_key inv i _ Hnd Hin Hi Hst Hpend) as Hne.
  cbv zeta.
  pose proof (settled_save_other inv (with_expires_at (now + days 7) i) _
                Hnd Hin Hst Hne) as Hs.
  destruct (save fresh_token (with_expires_at (now + days 7) i) (invitations st)).
  exact Hs.
Qed.

Lemma revoke_keeps_settled (user_tenant : option Z) (key : Z)
    (st : Store Users) (inv : TenantInvitation) :
  NoDup (map pk (invitations st)) -> In inv (invitations st) ->
  is_pending (status inv) = false ->
  Cases.settled_as inv (invitations (snd (revoke fresh_token user_tenant key st))).
Proof.
  intros Hnd Hin Hst.
  pose proof (settled_here inv _ Hnd Hin Hst) as Hhere.
  unfold revoke.
  destruct (get_object user_tenant key (invitations st)) as [i|e] eqn:Hobj;
    [|exact Hhere].
  destruct (get_object_row _ _ _ _ Hobj) as [Hi _].
  cbv zeta.
  destruct (Z.eq_dec (pk i) (pk inv)) as [Hpk|Hne].
  - rewrite (unique_key_row pk _ i inv Hnd Hi Hin Hpk).
    destruct (save_key fresh_token (with_status REVOKED inv) (invitations st))
      as (Hk & Hs & Ha & Hrows).
    destruct (save fresh_token (with_status REVOKED inv) (invitations st))
      as [self rows]. simpl in *. subst rows.
    split.
    + unfold written. rewrite (replaced_keys _ pk). exact Hnd.
    + exists self. split; [|split; [exact Hk|split; [rewrite Hs; reflexivity|]]].
      * apply (replaced_row_present _ pk inv); [exact Hin | exact Hk].
      * split; [right; exact Hs | exact Ha].
  - pose proof (settled_save_other inv (with_status REVOKED i) _ Hnd Hin Hst Hne)
      as Hs.
    destruct (save fresh_token (with_status REVOKED i) (invitations st)).
    exact Hs.
Qed.

(** X20.  Nothing brings an invitation back to pending.  In a table
    with unique primary keys, an invitation that is accepted, expired or
    revoked stays so under any series of accept requests, resends and
    revocations, for any tokens, keys and users: after the series its
    row is not pending, its status is the one it had or revoked, and its
    acceptance time is the one it had. *)
Theorem settled_invitation_stays_settled
    (cs : list Call) (st : Store Users) (inv : TenantInvitation) :
  NoDup (map pk (invitations st)) ->
  In inv (invitations st) ->
  is_pending (status inv) = false ->
  Cases.settled_as inv
    (invitations (calls create_user password_ok fresh_token cs st)).
Proof.
  revert st inv. induction cs as [|c cs IH]; intros st inv Hnd Hin Hst.
  - apply settled_here; assumption.
  - assert (Cases.settled_as inv
              (invitations (call create_user password_ok fresh_token c st)))
      as (Hnd1 & inv1 & Hin1 & Hpk1 & Hst1 & Hrel1 & Hacc1).
    { destruct c; simpl.
      - apply post_keeps_settled; assumption.
      - apply resend_keeps_settled; assumption.
      - apply revoke_keeps_settled; assumption. }
    destruct (IH _ inv1 Hnd1 Hin1 Hst1)
      as (Hnd2 & inv2 & Hin2 & Hpk2 & Hst2 & Hrel2 & Hacc2).
    unfold calls in *. simpl.
    split; [exact Hnd2|]. exists inv2.
    split; [exact Hin2|]. split; [congruence|]. split; [exact Hst2|].
    split; [|congruence].
    destruct Hrel2 as [H2 | H2]; [|right; exact H2].
    destruct Hrel1 as [H1 | H1]; [left | right]; congruence.
Qed.

End InvitationCalls.

Lemma replaced_row_found {A} (key : A -> Z) (cond : A -> bool) (a a' : A)
    (rows : list A) :
  NoDup (map key rows) ->
  Models.objects_get cond rows = Models.Found a ->
  key a' = key a -> cond a' = true ->
  Models.objects_get cond (map (fun r => if key r =? key a' then a' else r) rows)
  = Models.Found a'.
Proof.
  intros Hnd Hget Hkey Hcond.
  destruct (found_in _ _ _ Hget) as [Hin Ha].
  unfold Models.objects_get.
  rewrite filter_map_in.
  - rewrite (objects_get_found_filter _ _ _ Hget). simpl.
    rewrite Hkey, Z.eqb_refl. reflexivity.
  - intros x Hx. destruct (key x =? key a') eqn:E; [|reflexivity].
    apply Z.eqb_eq in E.
    rewrite (unique_key_row key rows x a Hnd Hx Hin); congruence.
Qed.

Section InvitationResend.
Import Invitations.

Variable Users : Type.
Variable password_ok : string -> bool.
Variable fresh_token : string.

(** X21.  Running out is final only once somebody tried to accept.  For
    an invitation that [get_object] finds: when it is not pending,
    [resend] answers 400 and writes nothing; when it is pending, [resend]
    succeeds however long ago the invitation ran out and stores an
    expiry seven days after the call, and up to that time the
    serializer's validation of a request with the invitation's token
    finds it and lets it through. *)
Theorem resend_revives_pending_invitation
    (user_tenant : option Z) (key now : Z) (st : Store Users)
    (inv : TenantInvitation) :
  NoDup (map pk (invitations st)) ->
  get_object user_tenant key (invitations st) = Returned inv ->
  (is_pending (status inv) = false ->
   resend fresh_token user_tenant key now st = (Returned Response400, st))
  /\ (is_pending (status inv) = true ->
      Py.truthy (token inv) = true ->
      let inv' := with_expires_at (now + days 7) inv in
      let st' := mkStore (written inv' (invitations st)) (users st) in
      resend fresh_token user_tenant key now st
      = (Returned (Response200 "Invitation resent"), st')
      /\ forall data now',
          data_token data = token inv ->
          data_password data = data_confirm_password data ->
          password_ok (data_password data) = true ->
          Models.objects_get (pending_with_token (token inv)) (invitations st)
          = Models.Found inv ->
          now' <= now + days 7 ->
          validate password_ok fresh_token data now' st' = (Returned inv', st')).
Proof.
  intros Hnd Hobj. split.
  - intros Hst. unfold resend. rewrite Hobj, Hst. reflexivity.
  - intros Hpend Htok inv' st'. split.
    + unfold resend. rewrite Hobj, Hpend. simpl negb. cbv iota zeta.
      unfold save. simpl token. rewrite Htok. reflexivity.
    + intros data now' Hdt Hpw Hok Hget Hle.
      unfold validate. rewrite <- Hpw, String.eqb_refl, Hok, Hdt.
      simpl negb. cbv iota. subst st'. simpl invitations. unfold written.
      rewrite (replaced_row_found pk _ inv inv' _ Hnd Hget); try reflexivity.
      * replace (is_expired now' inv') with false; [reflexivity|].
        symmetry. apply Z.ltb_ge. exact Hle.
      * destruct (found_in _ _ _ Hget) as [_ Hc]. exact Hc.
Qed.

End InvitationResend.

Lemma invitation_post_outcomes_witness :
  Invitations.post Cases.create_named Cases.long_enough "tok-fresh"
    Cases.accept_data 990 1010 1011 Cases.invitation_store
  = (Invitations.Raised (Invitations.ValueError "Invitation has expired"),
     Invitations.mkStore
       (Invitations.written
          (Invitations.with_status Invitations.EXPIRED Cases.invitation_new)
          (Invitations.invitations Cases.invitation_store))
       (Invitations.users Cases.invitation_store))
  /\ Invitations.post Cases.create_named Cases.long_enough "tok-fresh"
       Cases.accept_data 990 995 996 Cases.invitation_store
     = (Invitations.Returned
          (Invitations.Response200 "Invitation accepted successfully"),
        Invitations.mkStore
          (Invitations.written
             (Invitations.with_accepted_at (Some 996)
                (Invitations.with_status Invitations.ACCEPTED Cases.invitation_new))
             (Invitations.invitations Cases.invitation_store))
          ["newcomer"; "ada"]).
Proof.
  assert (NoDup (map Invitations.pk
                   (Invitations.invitations Cases.invitation_store))) as Hnd
    by (repeat constructor; simpl; intuition discriminate).
  split.
  - destruct (invitation_post_outcomes (list string) string Cases.create_named
                Cases.long_enough "tok-fresh" Cases.accept_data 990 1010 1011
                Cases.invitation_store Cases.invitation_new
                Hnd eq_refl eq_refl eq_refl eq_refl) as (_ & Hrace & _).
    apply Hrace; simpl; lia.
  - destruct (invitation_post_outcomes (list string) string Cases.create_named
                Cases.long_enough "tok-fresh" Cases.accept_data 990 995 996
                Cases.invitation_store Cases.invitation_new
                Hnd eq_refl eq_refl eq_refl eq_refl) as (_ & _ & _ & Hok & _).
    apply (Hok ltac:(simpl; lia) ltac:(simpl; lia) "newcomer"). reflexivity.
Defined.

Lemma settled_invitation_stays_settled_witness :
  Cases.settled_as Cases.invitation_old
    (Invitations.invitations
       (Invitations.calls Cases.create_named Cases.long_enough "tok-fresh"
          [Invitations.Resend (Some 1) 22 2000;
           Invitations.Post Cases.accept_data 990 995 996;
           Invitations.Revoke (Some 1) 22;
           Invitations.Resend (Some 1) 22 3000]
          Cases.invitation_store)).
Proof.
  apply (settled_invitation_stays_settled (list string) string Cases.create_named
           Cases.long_enough "tok-fresh").
  - repeat constructor; simpl; intuition discriminate.
  - simpl. right. left. reflexivity.
  - reflexivity.
Defined.

Lemma resend_revives_pending_invitation_witness :
  Invitations.resend "tok-fresh" (Some 1) 21 5000 Cases.invitation_store
  = (Invitations.Returned (Invitations.Response200 "Invitation resent"),
     Invitations.mkStore
       (Invitations.written
          (Invitations.with_expires_at (5000 + Invitations.days 7)
             Cases.invitation_new)
          (Invitations.invitations Cases.invitation_store))
       (Invitations.users Cases.invitation_store)).
Proof.
  destruct (resend_revives_pending_invitation (list string) Cases.long_enough
              "tok-fresh" (Some 1) 21 5000 Cases.invitation_store
              Cases.invitation_new) as (_ & Hrevive).
  - repeat constructor; simpl; intuition discriminate.
  - reflexivity.
  - destruct (Hrevive eq_refl eq_refl) as [Hrun _]. exact Hrun.
Defined.

(* ================================================================== *)
(** * The tenant login view *)

(** X22.  The tenant login never leaves the worker on a tenant schema
    and lets no exception of the login block out.  Whatever the
    serializer and the token code do (accept, reject or raise), when
    [authenticate_tenant_user] returns or raises, the connection is
    either as it was (the answers given before the schema switch) or on
    the public schema.  An exception leaves the view only from the
    tenant lookup, before the switch, with the connection as it was:
    an id that [int()] refuses with another exception than [ValueError]
    (a [TypeError] for an array, say) leaves the view as that exception,
    while [ValueError] is answered 404.  A 200 answer means that the
    credentials were checked on the schema of a tenant found by the
    given id or domain, and the connection is then on the public schema.
    When a domain is given the id is not looked at. *)
Theorem tenant_login_leaves_public_schema :
  forall (User : Type)
         (login : DjangoTenants.Connection
                  -> Login.Attempt User * DjangoTenants.Connection)
         (is_active_attribute : Models.Tenant -> bool) (nul_error : exn)
         (reg : Models.Registry) (tenant_domain tenant_id : Login.Value)
         (c : DjangoTenants.Connection),
    let out := Login.authenticate_tenant_user User login is_active_attribute
                 nul_error reg tenant_domain tenant_id c in
    (snd out = c
     \/ snd out = DjangoTenants.mkConnection
                    (Some (DjangoTenants.FakeTenant "public")) "public")
    /\ (forall e, fst out = Raise e -> snd out = c)
    /\ (forall t e,
          fst (Login.with_tenant User login is_active_attribute t c) <> Raise e)
    /\ (forall e,
          Login.truthy tenant_domain = false ->
          Login.truthy tenant_id = true ->
          Login.int tenant_id = Raise e ->
          (e = Py.ValueError -> out = (Ok Login.Response404, c))
          /\ (e <> Py.ValueError -> out = (Raise e, c)))
    /\ (forall t u,
          fst out = Ok (Login.Response200 t u) ->
          fst (login (DjangoTenants.set_schema (Models.schema_name t) c))
          = Login.Valid u
          /\ snd out = DjangoTenants.mkConnection
                         (Some (DjangoTenants.FakeTenant "public")) "public"
          /\ ((Login.truthy tenant_domain = false
               /\ exists n, Login.int tenant_id = Ok n
                            /\ Models.get_by_id reg n = Models.Found t)
              \/ (Login.truthy tenant_domain = true
                  /\ exists d, Login.domain_text nul_error tenant_domain = Ok d
                               /\ Login.get_by_domain reg d = Models.Found t)))
    /\ (Login.truthy tenant_domain = true ->
        out = Login.authenticate_tenant_user User login is_active_attribute
                nul_error reg tenant_domain Login.Null c).
Proof.
  intros User login is_active_attribute nul_error reg tenant_domain tenant_id c out.
  assert (forall t,
             let w := Login.with_tenant User login is_active_attribute t c in
             (snd w = c
              \/ snd w = DjangoTenants.mkConnection
                           (Some (DjangoTenants.FakeTenant "public")) "public")
             /\ (forall e, fst w <> Raise e)
             /\ (forall t' u, fst w = Ok (Login.Response200 t' u) ->
                   t' = t
                   /\ fst (login (DjangoTenants.set_schema (Models.schema_name t) c))
                      = Login.Valid u
                   /\ snd w = DjangoTenants.mkConnection
                                (Some (DjangoTenants.FakeTenant "public")) "public"))
    as Hwith.
  { intros t w. subst w. unfold Login.with_tenant.
    destruct (is_active_attribute t); simpl.
    - destruct (login (DjangoTenants.set_schema (Models.schema_name t) c))
        as [[u| |] c'] eqn:E; simpl;
        (split; [right; reflexivity|]); (split; [discriminate|]);
        intros t' u' H; inversion H; subst; auto.
    - split; [left; reflexivity|]. split; [discriminate|].
      intros t' u' H; discriminate. }
  assert (Login.truthy tenant_domain = true ->
          out = Login.authenticate_tenant_user User login is_active_attribute
                  nul_error reg tenant_domain Login.Null c) as Hprec.
  { intros Gd. subst out. unfold Login.authenticate_tenant_user.
    rewrite Gd. simpl negb. rewrite andb_false_r. reflexivity. }
  split; [|split; [|split; [|split; [|split; [|exact Hprec]]]]]; clear Hprec;
    subst out; unfold Login.authenticate_tenant_user.
  - destruct (Login.truthy tenant_domain) eqn:Gd; simpl negb.
    + rewrite andb_false_r.
      destruct (Login.domain_text nul_error tenant_domain) as [d|e];
        [|left; reflexivity].
      destruct (Login.get_by_domain reg d) as [t| |];
        [apply (Hwith t) | left; reflexivity | left; reflexivity].
    + rewrite andb_true_r. destruct (Login.truthy tenant_id) eqn:Gi;
        [|left; reflexivity].
      destruct (Login.int tenant_id) as [n|e].
      * destruct (Models.get_by_id reg n) as [t| |];
          [apply (Hwith t) | left; reflexivity | left; reflexivity].
      * destruct e; left; reflexivity.
  - intros e. destruct (Login.truthy tenant_domain) eqn:Gd; simpl negb.
    + rewrite andb_false_r.
      destruct (Login.domain_text nul_error tenant_domain) as [d|e'];
        [|reflexivity].
      destruct (Login.get_by_domain reg d) as [t| |];
        simpl; intros He; try reflexivity.
      exfalso. destruct (Hwith t) as (_ & Hr & _). exact (Hr e He).
    + rewrite andb_true_r. destruct (Login.truthy tenant_id) eqn:Gi;
        [|reflexivity].
      destruct (Login.int tenant_id) as [n|e'].
      * destruct (Models.get_by_id reg n) as [t| |]; simpl; intros He;
          try reflexivity.
        exfalso. destruct (Hwith t) as (_ & Hr & _). exact (Hr e He).
      * destruct e'; reflexivity.
  - intros t e. apply (Hwith t).
  - intros e Gd Gi Hint. rewrite Gd, Gi, Hint. simpl.
    split; [intros ->; reflexivity|].
    intros Hne. destruct e; try reflexivity. congruence.
  - intros t' u. destruct (Login.truthy tenant_domain) eqn:Gd; simpl negb.
    + rewrite andb_false_r.
      destruct (Login.domain_text nul_error tenant_domain) as [d|e] eqn:Htext;
        [|discriminate].
      destruct (Login.get_by_domain reg d) as [t| |]
        eqn:Hdom; simpl; try discriminate.
      intros H. destruct (Hwith t) as (_ & _ & H200).
      destruct (H200 t' u H) as (-> & Hl & Hs).
      split; [exact Hl|]. split; [exact Hs|]. right. split; [reflexivity|].
      exists d. auto.
    + rewrite andb_true_r. destruct (Login.truthy tenant_id) eqn:Gi;
        [|discriminate].
      destruct (Login.int tenant_id) as [n|e] eqn:Hint.
      * destruct (Models.get_by_id reg n) as [t| |] eqn:Hid; simpl;
          try discriminate.
        intros H. destruct (Hwith t) as (_ & _ & H200).
        destruct (H200 t' u H) as (-> & Hl & Hs).
        split; [exact Hl|]. split; [exact Hs|]. left. split; [reflexivity|].
        exists n. auto.
      * destruct e; discriminate.
Qed.

Lemma tenant_login_leaves_public_schema_witness :
  Login.authenticate_tenant_user nat
    (fun c => (Login.Valid 0%nat, c)) (fun _ => true) Py.ValueError
    Sample.registry Login.Null
    (Login.Other true (Raise Py.TypeError) (Ok "[1]")) DjangoTenants.fresh
  = (Raise Py.TypeError, DjangoTenants.fresh)
  /\ Login.authenticate_tenant_user nat
       (fun c => (Login.Valid 0%nat, c)) (fun _ => true) Py.ValueError
       Sample.registry Login.Null (Login.Str "seven") DjangoTenants.fresh
     = (Ok Login.Response404, DjangoTenants.fresh).
Proof.
  split.
  - destruct (tenant_login_leaves_public_schema nat
                (fun c => (Login.Valid 0%nat, c)) (fun _ => true) Py.ValueError
                Sample.registry Login.Null
                (Login.Other true (Raise Py.TypeError) (Ok "[1]")) DjangoTenants.fresh)
      as (_ & _ & _ & Hint & _).
    destruct (Hint Py.TypeError eq_refl eq_refl eq_refl) as [_ Hraise].
    apply Hraise. discriminate.
  - destruct (tenant_login_leaves_public_schema nat
                (fun c => (Login.Valid 0%nat, c)) (fun _ => true) Py.ValueError
                Sample.registry Login.Null (Login.Str "seven") DjangoTenants.fresh)
      as (_ & _ & _ & Hint & _).
    destruct (Hint Py.ValueError eq_refl eq_refl eq_refl) as [Hcaught _].
    apply Hcaught. reflexivity.
Defined.


(* ================================================================== *)
(** * The database router *)

Lemma suffix_of_app (a s : string) : In s (Cases.suffixes (a ++ s)).
Proof.
  induction a as [|c a IH]; simpl.
  - destruct s; left; reflexivity.
  - right. exact IH.
Qed.

Lemma lower_case_name_not_listed (names : list string) (app_label m : string) :
  Cases.capitalised names = true ->
  Py.lower m = m ->
  Router.mem (app_label ++ "." ++ m) names = false.
Proof.
  intros Hcap Hlow. unfold Router.mem.
  destruct (existsb _ names) eqn:E; [|reflexivity].
  exfalso. apply existsb_exists in E as (name & Hin & Heq).
  apply String.eqb_eq in Heq. subst name.
  unfold Cases.capitalised in Hcap. rewrite forallb_forall in Hcap.
  specialize (Hcap _ Hin). rewrite forallb_forall in Hcap.
  specialize (Hcap _ (suffix_of_app app_label ("." ++ m))).
  simpl in Hcap. rewrite Hlow, String.eqb_refl in Hcap. discriminate.
Qed.

Lemma listed_name (name : string) (names : list string) :
  Router.mem name names = true -> In name names.
Proof.
  unfold Router.mem. intros H. apply existsb_exists in H as (x & Hin & Heq).
  apply String.eqb_eq in Heq. subst x. exact Hin.
Qed.

(** X23.  The router has no opinion on a model named as Django names
    it.  The two sets hold names with capital letters, so for every app
    label and every model name without an ASCII capital (as
    [_meta.model_name] is) [db_for_read], [db_for_write] and
    [allow_migrate] return None.  For the names that are in the sets:
    no name is in both; a global model may migrate on the default
    database exactly when the schema hint is absent or public, a tenant
    model exactly when the hint is absent or not public, so without a
    hint every listed model may migrate. *)
Theorem router_has_no_opinion_on_lower_case_names :
  forall (db app_label m : string) (hint : option string),
    Py.lower m = m ->
    Router.db_for_read app_label m = None
    /\ Router.db_for_write app_label m = None
    /\ Router.allow_migrate db app_label (Some m) hint = None
    /\ Router.allow_migrate db app_label None hint = None
    /\ (forall name,
          Router.mem name Router.global_models = true ->
          Router.mem name Router.tenant_models = false)
    /\ (forall label model,
          Py.truthy model = true ->
          Router.mem (label ++ "." ++ model) Router.global_models = true ->
          Router.allow_migrate "default" label (Some model) None = Some true
          /\ forall s,
              Router.allow_migrate "default" label (Some model) (Some s)
              = Some (String.eqb s "public"))
    /\ (forall label model,
          Py.truthy model = true ->
          Router.mem (label ++ "." ++ model) Router.tenant_models = true ->
          Router.allow_migrate "default" label (Some model) None = Some true
          /\ forall s,
              Router.allow_migrate "default" label (Some model) (Some s)
              = Some (negb (String.eqb s "public"))).
Proof.
  intros db app_label m hint Hlow.
  assert (Router.mem (app_label ++ "." ++ m) Router.global_models = false) as Hg
    by (apply lower_case_name_not_listed; [reflexivity | exact Hlow]).
  assert (Router.mem (app_label ++ "." ++ m) Router.tenant_models = false) as Ht
    by (apply lower_case_name_not_listed; [reflexivity | exact Hlow]).
  assert (forall name,
             Router.mem name Router.global_models = true ->
             Router.mem name Router.tenant_models = false) as Hdisjoint.
  { intros name H. apply listed_name in H. simpl in H.
    repeat (destruct H as [<- | H]; [reflexivity|]). contradiction. }
  split; [unfold Router.db_for_read; cbv zeta; rewrite Hg, Ht; reflexivity|].
  split; [unfold Router.db_for_write; cbv zeta; rewrite Hg, Ht; reflexivity|].
  split; [unfold Router.allow_migrate; destruct (Py.truthy m);
          [rewrite Hg, Ht|]; reflexivity|].
  split; [reflexivity|].
  split; [exact Hdisjoint|].
  split.
  - intros label model Hm Hin. unfold Router.allow_migrate.
    rewrite Hm, Hin. split; reflexivity.
  - intros label model Hm Hin. unfold Router.allow_migrate. rewrite Hm, Hin.
    destruct (Router.mem (label ++ "." ++ model) Router.global_models) eqn:E.
    + rewrite (Hdisjoint _ E) in Hin. discriminate.
    + split; reflexivity.
Qed.

Lemma router_has_no_opinion_on_lower_case_names_witness :
  Router.db_for_read "tenants" "tenantuser" = None
  /\ Router.db_for_write "tenants" "tenantuser" = None
  /\ Router.allow_migrate "default" "tenants" (Some "tenantuser")
       (Some "tenant_stm1234") = None.
Proof.
  destruct (router_has_no_opinion_on_lower_case_names "default" "tenants"
              "tenantuser" (Some "tenant_stm1234") eq_refl)
    as (Hr & Hw & Hm & _).
  split; [exact Hr|]. split; [exact Hw | exact Hm].
Defined.

(* ================================================================== *)
(** * The header and the decimal form of a tenant id *)

Lemma int_digits_acc (d : Decimal.uint) :
  forall acc : positive,
    Py.int_digits (Z.pos acc) (NilEmpty.string_of_uint d)
    = Some (Z.pos (Pos.of_uint_acc d acc)).
Proof.
  induction d; intros acc; [reflexivity | ..];
    cbn [NilEmpty.string_of_uint Py.int_digits Pos.of_uint_acc];
    match goal with
    | |- context [Py.is_digit ?c] => change (Py.is_digit c) with true
    end;
    cbv iota;
    match goal with
    | |- Py.int_digits (10 * Z.pos acc + Py.digit_val ?c) _
         = Some (Z.pos (Pos.of_uint_acc _ ?a)) =>
        let v := eval vm_compute in (Py.digit_val c) in
        replace (10 * Z.pos acc + Py.digit_val c) with (Z.pos a)
          by (change (Py.digit_val c) with v; lia)
    end;
    apply IHd.
Qed.

Lemma int_digits_zero (d : Decimal.uint) :
  Py.int_digits 0 (NilEmpty.string_of_uint d) = Some (Z.of_N (Pos.of_uint d)).
Proof.
  induction d; simpl; [reflexivity | exact IHd | ..];
    apply (int_digits_acc d).
Qed.

Lemma int_unsigned_digits (d : Decimal.uint) :
  d <> Decimal.Nil ->
  Py.int_unsigned (NilEmpty.string_of_uint d) = Some (Z.of_N (Pos.of_uint d)).
Proof.
  destruct d; intros Hd; simpl; [congruence | apply int_digits_zero | ..];
    apply (int_digits_acc d).
Qed.

Lemma lstrip_digits (d : Decimal.uint) :
  Py.lstrip (NilEmpty.string_of_uint d) = NilEmpty.string_of_uint d.
Proof. destruct d; reflexivity. Qed.

Lemma rstrip_digits (d : Decimal.uint) :
  Py.rstrip (NilEmpty.string_of_uint d) = NilEmpty.string_of_uint d.
Proof.
  induction d; simpl; [reflexivity | ..];
    rewrite IHd; destruct (NilEmpty.string_of_uint d); reflexivity.
Qed.

Lemma digits_nonempty (d : Decimal.uint) :
  d <> Decimal.Nil -> NilEmpty.string_of_uint d <> "".
Proof. destruct d; simpl; congruence. Qed.

(** [int(str(n))] is [n], for the two functions as modelled (no limit
    on the number of digits). *)
Lemma int_of_str (n : Z) : Py.int (Py.str n) = Some n.
Proof.
  destruct n as [|p|p]; [reflexivity | |].
  - unfold Py.str. simpl Z.to_int.
    pose proof (DecimalPos.Unsigned.to_uint_nonnil p) as Hnil.
    pose proof (DecimalPos.Unsigned.of_to p) as Hof.
    unfold NilZero.string_of_int.
    assert (NilZero.string_of_uint (Pos.to_uint p)
            = NilEmpty.string_of_uint (Pos.to_uint p)) as ->
      by (destruct (Pos.to_uint p); [congruence | reflexivity ..]).
    unfold Py.int. rewrite lstrip_digits, rstrip_digits.
    pose proof (int_unsigned_digits _ Hnil) as Hu. rewrite Hof in Hu.
    destruct (Pos.to_uint p); simpl in *; congruence.
  - unfold Py.str. simpl Z.to_int.
    pose proof (DecimalPos.Unsigned.to_uint_nonnil p) as Hnil.
    pose proof (DecimalPos.Unsigned.of_to p) as Hof.
    unfold NilZero.string_of_int.
    assert (NilZero.string_of_uint (Pos.to_uint p)
            = NilEmpty.string_of_uint (Pos.to_uint p)) as ->
      by (destruct (Pos.to_uint p); [congruence | reflexivity ..]).
    unfold Py.int.
    change (Py.lstrip (String "-" (NilEmpty.string_of_uint (Pos.to_uint p))))
      with (String "-" (NilEmpty.string_of_uint (Pos.to_uint p))).
    assert (Py.rstrip (String "-" (NilEmpty.string_of_uint (Pos.to_uint p)))
            = String "-" (NilEmpty.string_of_uint (Pos.to_uint p))) as ->.
    { simpl. rewrite rstrip_digits.
      pose proof (digits_nonempty _ Hnil).
      destruct (NilEmpty.string_of_uint (Pos.to_uint p)); [congruence | reflexivity]. }
    rewrite (int_unsigned_digits _ Hnil), Hof. reflexivity.
Qed.

(** X24.  Every tenant can be named in the header.  For a tenant
    whose id is in the range of the 64-bit key column, [int] reads back
    the decimal form that [str] writes for the id; so on a non-public
    path a request whose X-Tenant-ID header is [str] of the id of an
    existing tenant resolves to that tenant, with the tenant's schema
    active. *)
Theorem header_round_trip :
  forall (reg : Models.Registry) (request : Middleware.Request)
         (w : Middleware.Worker) (t : Models.Tenant),
    - 2 ^ 63 <= Models.id t < 2 ^ 63 ->
    Middleware.is_public (Middleware.path_info request) = false ->
    Middleware.x_tenant_id request = Some (Py.str (Models.id t)) ->
    Models.get_by_id reg (Models.id t) = Models.Found t ->
    Py.int (Py.str (Models.id t)) = Some (Models.id t)
    /\ Middleware.process_request reg request w
       = (Ok tt,
          Middleware.mkWorker (Some t)
            (DjangoTenants.mkConnection (Some (DjangoTenants.Row t))
               (Models.schema_name t))).
Proof.
  intros reg request w t _ Hpub Hh Hget.
  split; [apply int_of_str|].
  unfold Middleware.process_request. rewrite Hpub.
  rewrite (header_found reg request w _ _ t Hh (int_of_str _) Hget).
  reflexivity.
Qed.

Lemma header_round_trip_witness :
  Py.int (Py.str (Models.id Cases.tenant_test)) = Some (Models.id Cases.tenant_test)
  /\ Middleware.process_request Cases.registry_with_test
       (Sample.request "/api/v1/patients/" (Some (Py.str 9))) Sample.worker
     = (Ok tt,
        Middleware.mkWorker (Some Cases.tenant_test)
          (DjangoTenants.mkConnection (Some (DjangoTenants.Row Cases.tenant_test))
             (Models.schema_name Cases.tenant_test))).
Proof.
  apply (header_round_trip Cases.registry_with_test
           (Sample.request "/api/v1/patients/" (Some (Py.str 9))) Sample.worker
           Cases.tenant_test); try reflexivity.
  simpl. lia.
Defined.

(* ================================================================== *)
(** * The client address *)

Lemma before_comma_split (a b : string) :
  Cases.comma_free a = true ->
  Auth.before_comma (a ++ String "," b) = a.
Proof.
  induction a as [|c a IH]; simpl; intros H; [reflexivity|].
  apply andb_prop in H as [Hc Ha]. apply negb_true_iff in Hc.
  rewrite Hc, IH by exact Ha. reflexivity.
Qed.

Lemma before_comma_whole (a : string) :
  Cases.comma_free a = true -> Auth.before_comma a = a.
Proof.
  induction a as [|c a IH]; simpl; intros H; [reflexivity|].
  apply andb_prop in H as [Hc Ha]. apply negb_true_iff in Hc.
  rewrite Hc, IH by exact Ha. reflexivity.
Qed.

Lemma before_comma_free (s : string) :
  Cases.comma_free (Auth.before_comma s) = true.
Proof.
  induction s as [|c s IH]; simpl; [reflexivity|].
  destruct (Ascii.eqb c ",") eqn:E; simpl; [reflexivity|].
  rewrite E, IH. reflexivity.
Qed.

(** X25.  The client address is what the X-Forwarded-For header says
    whenever that header is not empty: the part before its first comma
    (all of it when there is no comma), whatever REMOTE_ADDR holds.  The
    address has no comma; REMOTE_ADDR is used only without the header or
    with an empty one. *)
Theorem client_address_is_first_forwarded_entry :
  forall (t : option Models.Tenant) (first rest : string) (remote : option string),
    Cases.comma_free first = true ->
    (Py.truthy first = true ->
     Auth.get_client_ip (Auth.mkRequest t (Some first) remote) = Some first)
    /\ Auth.get_client_ip (Auth.mkRequest t (Some (first ++ String "," rest)) remote)
       = Some first
    /\ (forall x ip,
          Auth.get_client_ip (Auth.mkRequest t (Some x) remote) = Some ip ->
          Py.truthy x = true -> Cases.comma_free ip = true)
    /\ Auth.get_client_ip (Auth.mkRequest t None remote) = remote
    /\ Auth.get_client_ip (Auth.mkRequest t (Some "") remote) = remote.
Proof.
  intros t first rest remote Hfree.
  split; [|split; [|split; [|split]]].
  - intros Hne. unfold Auth.get_client_ip. simpl. rewrite Hne.
    rewrite before_comma_whole by exact Hfree. reflexivity.
  - unfold Auth.get_client_ip. simpl.
    assert (Py.truthy (first ++ String "," rest) = true) as ->
      by (destruct first; reflexivity).
    rewrite before_comma_split by exact Hfree. reflexivity.
  - intros x ip H Hx. unfold Auth.get_client_ip in H. simpl in H.
    rewrite Hx in H. injection H as <-. apply before_comma_free.
  - reflexivity.
  - reflexivity.
Qed.

Lemma client_address_is_first_forwarded_entry_witness :
  Auth.get_client_ip
    (Auth.mkRequest None (Some ("10.0.0.7" ++ String "," " 172.16.0.1"))
       (Some "192.168.1.1"))
  = Some "10.0.0.7".
Proof.
  destruct (client_address_is_first_forwarded_entry None "10.0.0.7" " 172.16.0.1"
              (Some "192.168.1.1") eq_refl) as (_ & H & _).
  exact H.
Defined.

(* ================================================================== *)
(** * Locking and unlocking an account *)

(** X26.  [lock_account] locks for the given number of minutes and
    [unlock_account] ends the lock.  For a stored user and a duration of
    at most a year in either direction, after [lock_account] at clock
    reading [now] the account is locked at a time exactly when that time
    is before [now] plus the duration (so a duration of zero or less
    locks nothing), the failed attempts are kept, and the table differs
    in the user's row only; after [unlock_account] the account is locked
    at no time and the failed attempts are zero. *)
Theorem lock_and_unlock_account :
  forall (inet_ok : string -> bool) (duration now : Z)
         (u : Auth.TenantUser) (users : list Auth.TenantUser),
    Auth.storable inet_ok u = true ->
    -525600 <= duration <= 525600 ->
    exists u1 u2,
      Auth.lock_account inet_ok duration now u users
      = (Auth.Returned u1, Auth.written u1 users)
      /\ Auth.pk u1 = Auth.pk u
      /\ Auth.failed_login_attempts u1 = Auth.failed_login_attempts u
      /\ (forall t, Auth.is_account_locked t u1 = true
                    <-> t < now + duration * 60000000)
      /\ Auth.unlock_account inet_ok u1 (Auth.written u1 users)
         = (Auth.Returned u2, Auth.written u2 users)
      /\ Auth.pk u2 = Auth.pk u
      /\ Auth.failed_login_attempts u2 = 0
      /\ (forall t, Auth.is_account_locked t u2 = false).
Proof.
  intros inet_ok duration now u users Hst _.
  exists (Auth.with_account_locked_until (Some (now + Auth.minutes duration)) u).
  exists (Auth.with_failed_login_attempts 0
            (Auth.with_account_locked_until None
               (Auth.with_account_locked_until
                  (Some (now + Auth.minutes duration)) u))).
  assert (Auth.storable inet_ok
            (Auth.with_account_locked_until (Some (now + Auth.minutes duration)) u)
          = true) as Hst1 by exact Hst.
  assert (Auth.storable inet_ok
            (Auth.with_failed_login_attempts 0
               (Auth.with_account_locked_until None
                  (Auth.with_account_locked_until
                     (Some (now + Auth.minutes duration)) u))) = true) as Hst2.
  { unfold Auth.storable in *. apply andb_prop in Hst as [_ Hip].
    simpl. exact Hip. }
  split.
  { unfold Auth.lock_account. cbv zeta. unfold Auth.save. rewrite Hst1.
    reflexivity. }
  split; [reflexivity|]. split; [reflexivity|]. split.
  { intros t. unfold Auth.is_account_locked, Auth.minutes. simpl.
    apply Z.ltb_lt. }
  split.
  { unfold Auth.unlock_account. cbv zeta. unfold Auth.save. rewrite Hst2.
    rewrite written_written by reflexivity. reflexivity. }
  split; [reflexivity|]. split; [reflexivity|].
  intros t. reflexivity.
Qed.

Lemma lock_and_unlock_account_witness :
  exists u1 u2,
    Auth.lock_account Cases.known_inet 30 1000 Cases.user_ada Cases.users
    = (Auth.Returned u1, Auth.written u1 Cases.users)
    /\ Auth.is_account_locked (1000 + 30 * 60000000 - 1) u1 = true
    /\ Auth.is_account_locked (1000 + 30 * 60000000) u1 = false
    /\ Auth.unlock_account Cases.known_inet u1 (Auth.written u1 Cases.users)
       = (Auth.Returned u2, Auth.written u2 Cases.users)
    /\ Auth.is_account_locked 1000 u2 = false.
Proof.
  destruct (lock_and_unlock_account Cases.known_inet 30 1000 Cases.user_ada
              Cases.users eq_refl ltac:(lia))
    as (u1 & u2 & Hlock & _ & _ & Hiff & Hunlock & _ & _ & Hfree).
  exists u1, u2. split; [exact Hlock|]. split.
  - apply Hiff. lia.
  - split.
    + destruct (Auth.is_account_locked (1000 + 30 * 60000000) u1) eqn:E;
        [|reflexivity].
      apply Hiff in E. lia.
    + split; [exact Hunlock | apply Hfree].
Defined.
